(** * IntelliREADME: project analysis, classification and README assembly

    A shallow embedding of the TypeScript sources of the extension
    (FileUtils, ProjectAnalyzer, ReadmeGenerator, BadgeGenerator,
    TemplateService, GroqService and the orchestrating extension class),
    followed by the properties checked against them.

    Conventions of the embedding.
    - A JavaScript string is a Rocq [string] that holds the UTF-8 encoding
      of its text.  [utf16Length] counts the UTF-16 code units of the
      text, as [length] does in the sources, and the white space that
      [trim] strips and that [\s] matches is the one of ECMAScript.
    - The sources lower-case text only to search it for keywords of the
      ASCII range.  [toLowerCase] maps the letters that this search
      observes: those of the ASCII range and the two characters outside it
      whose lower case has a letter of that range, U+212A and U+0130;
      other text is left as it is.  Where case-mapped text reaches the
      document, in [capitalizeTitle], the case mapping of the host is a
      parameter of the embedding.
    - [push] on an array is [++] at the end of a list.
    - Code that throws returns a sum; an [Error] is its message.
    - Reads of the file system and of the network are inputs of the
      functions that perform them; what the editor shows to the user is
      an output, and showing it completes.  A message whose buttons are
      not awaited is shown, and its buttons are not followed.
    - Symbolic links are left out: an entry of a directory is what both
      [statSync] and the listing report. *)

From Stdlib Require Import Bool Arith Lia List String Ascii DecimalString
  Permutation.
Import ListNotations.
Local Open Scope list_scope.
Local Open Scope string_scope.

(* ================================================================== *)
(** ** String primitives of the host language *)

(** [s.startsWith(p)] *)
Definition startsWith (s p : string) : bool := String.prefix p s.

(** [s.includes(p)]: [p] occurs in [s] at some position. *)
Fixpoint includes (s p : string) : bool :=
  String.prefix p s ||
  match s with
  | EmptyString => false
  | String _ s' => includes s' p
  end.

Definition is_upper (c : ascii) : bool :=
  let n := nat_of_ascii c in ((65 <=? n) && (n <=? 90))%nat.

Definition is_lower (c : ascii) : bool :=
  let n := nat_of_ascii c in ((97 <=? n) && (n <=? 122))%nat.

Definition lower_char (c : ascii) : ascii :=
  if is_upper c then ascii_of_nat (nat_of_ascii c + 32) else c.

Definition upper_char (c : ascii) : ascii :=
  if is_lower c then ascii_of_nat (nat_of_ascii c - 32) else c.

Fixpoint map_string (f : ascii -> ascii) (s : string) : string :=
  match s with
  | EmptyString => EmptyString
  | String c s' => String (f c) (map_string f s')
  end.

(** [s.toUpperCase()] on text of the ASCII range. *)
Definition toUpperCase : string -> string := map_string upper_char.

(** The number of UTF-16 code units that a byte of UTF-8 text accounts
    for: one for a byte of the ASCII range and for the first byte of a
    sequence of two or three bytes, two for the first byte of a sequence
    of four bytes (a surrogate pair), none for a continuation byte. *)
Definition codeUnits (c : ascii) : nat :=
  let n := nat_of_ascii c in
  if (n <? 128)%nat then 1
  else if (n <? 192)%nat then 0
  else if (n <? 240)%nat then 1
  else 2.

(** [s.length] *)
Fixpoint utf16Length (s : string) : nat :=
  match s with
  | EmptyString => 0
  | String c s' => codeUnits c + utf16Length s'
  end.

(** The text with the given bytes. *)
Definition bytes (l : list nat) : string :=
  string_of_list_ascii (map ascii_of_nat l).

(** The bytes of a text in reverse order. *)
Definition reverse (s : string) : string :=
  string_of_list_ascii (rev (list_ascii_of_string s)).

(** [s.slice(n)], counted in bytes. *)
Fixpoint dropString (n : nat) (s : string) : string :=
  match n, s with
  | O, _ => s
  | S n', String _ rest => dropString n' rest
  | S _, EmptyString => EmptyString
  end.

(** [w] is the beginning of [s]: [startsWith], by recursion on [w]. *)
Fixpoint leads (w s : string) : bool :=
  match w, s with
  | EmptyString, _ => true
  | String a w', String c s' => Ascii.eqb a c && leads w' s'
  | String _ _, EmptyString => false
  end.

(** The two characters outside the ASCII range whose lower case has a
    letter of that range: the Kelvin sign U+212A, which becomes [k], and
    the capital I with a dot above, U+0130, which becomes [i] followed by
    the combining dot U+0307. *)
Definition kelvinSign : string := bytes [226; 132; 170].
Definition dottedCapitalI : string := bytes [196; 176].
Definition dottedSmallI : string := "i" ++ bytes [204; 135].

(** [s.toLowerCase()], as far as a search for text of the ASCII range
    observes it. *)
Fixpoint toLowerCase (s : string) : string :=
  match s with
  | EmptyString => EmptyString
  | String c s1 =>
      let plain := String (lower_char c) (toLowerCase s1) in
      match s1 with
      | String _ s2 =>
          if leads dottedCapitalI s then dottedSmallI ++ toLowerCase s2
          else
            match s2 with
            | String _ s3 =>
                if leads kelvinSign s then String "k" (toLowerCase s3)
                else plain
            | EmptyString => plain
            end
      | EmptyString => plain
      end
  end.

(** The white space and the line terminators of ECMAScript, which are
    what [trim] strips and what the class [\s] of regular expressions
    matches, in UTF-8: U+0009 to U+000D, U+0020, U+00A0, U+1680, U+2000 to
    U+200A, U+2028, U+2029, U+202F, U+205F, U+3000 and U+FEFF. *)
Definition whiteSpace : list string :=
  [ bytes [9]; bytes [10]; bytes [11]; bytes [12]; bytes [13]; bytes [32];
    bytes [194; 160];
    bytes [225; 154; 128];
    bytes [226; 128; 128]; bytes [226; 128; 129]; bytes [226; 128; 130];
    bytes [226; 128; 131]; bytes [226; 128; 132]; bytes [226; 128; 133];
    bytes [226; 128; 134]; bytes [226; 128; 135]; bytes [226; 128; 136];
    bytes [226; 128; 137]; bytes [226; 128; 138];
    bytes [226; 128; 168]; bytes [226; 128; 169];
    bytes [226; 128; 175];
    bytes [226; 129; 159];
    bytes [227; 128; 128];
    bytes [239; 187; 191] ].

(** The number of bytes of the member of [table] that [s] begins with,
    and 0 when it begins with none.  The members are characters of one to
    three bytes. *)
Definition widthOf (table : list string) (s : string) : nat :=
  match find (fun w => leads w s) table with
  | Some w => String.length w
  | None => 0
  end.

(** [s] without the characters of [table] it begins with. *)
Fixpoint stripLeading (table : list string) (s : string) : string :=
  match s with
  | EmptyString => EmptyString
  | String _ s1 =>
      match widthOf table s, s1 with
      | 0, _ => s
      | 1, _ => stripLeading table s1
      | 2, String _ s2 => stripLeading table s2
      | S (S (S _)), String _ (String _ s3) => stripLeading table s3
      | _, _ => s
      end
  end.

(** [s.trimStart()], [s.trimEnd()] and [s.trim()] *)
Definition trimStart (s : string) : string := stripLeading whiteSpace s.

Definition trimEnd (s : string) : string :=
  reverse (stripLeading (map reverse whiteSpace) (reverse s)).

Definition trim (s : string) : string := trimEnd (trimStart s).

(** [xs.join(sep)] *)
Definition join (sep : string) (xs : list string) : string :=
  String.concat sep xs.

(** [xs.includes(x)] on an array of strings *)
Definition arrayIncludes (xs : list string) (x : string) : bool :=
  existsb (String.eqb x) xs.

(** [s.repeat(n)] *)
Fixpoint repeatString (s : string) (n : nat) : string :=
  match n with
  | O => EmptyString
  | S n' => s ++ repeatString s n'
  end.

(** [x || d] on an optional string: [undefined] and the empty string are
    falsy. *)
Definition truthy (o : option string) : bool :=
  match o with
  | Some s => negb (s =? "")
  | None => false
  end.

Definition orElse (o : option string) (d : string) : string :=
  match o with
  | Some s => if s =? "" then d else s
  | None => d
  end.

(** A double quote, for literals that contain one. *)
Definition dquote : string := String (ascii_of_nat 34) EmptyString.

(** A line feed. *)
Definition nl : string := String (ascii_of_nat 10) EmptyString.

(* ================================================================== *)
(** ** models/ProjectInfo.ts *)

Record ProjectInfo : Type := mkProjectInfo {
  name : string;
  description : option string;
  dependencies : list string;
  devDependencies : list string;
  scripts : list string;
  fileTypes : list string;
  hasTests : bool;
  license : option string;
  repository : option string;
  framework : option string;
  workspacePath : string;
  version : option string;
  author : option string;
  homepage : option string
}.

(* ================================================================== *)
(** ** The file system, as the sources observe it *)

(** One entry of a directory listing, and the directory behind a path.
    [Unreadable] is a directory whose [readdirSync] throws; [Special] is an
    entry that [statSync] reports as neither a file nor a directory;
    [Broken] is an entry on which [statSync] throws. *)
#[warnings="-register-all"]
Inductive entry : Type :=
| File (n : string)
| Dir (n : string) (content : dir)
| Special (n : string)
| Broken (n : string)
with dir : Type :=
| Unreadable
| Listing (files : list entry).

Definition entryName (e : entry) : string :=
  match e with
  | File n | Dir n _ | Special n | Broken n => n
  end.

(** A value that [JSON.parse] yields, or [undefined] for a property that
    is absent.  Of a number the sources observe only whether it is truthy.
    The properties of an object are listed in enumeration order. *)
#[warnings="-register-all"]
Inductive json : Type :=
| JUndefined
| JNull
| JBool (b : bool)
| JNum (nonzero : bool)
| JStr (s : string)
| JArr (items : list json)
| JObj (props : list (string * json)).

(** What the sources read below the workspace folder: the listing of the
    folder itself, which names [existsSync] finds directly inside it, and
    the value [JSON.parse] yields for [package.json] ([None] when reading
    or parsing the file throws). *)
Record Workspace : Type := mkWorkspace {
  listing : dir;
  existsSync : string -> bool;
  packageJson : option json
}.

(* ================================================================== *)
(** ** utils/fileUtils.ts *)

(** [path.extname] on an entry name that does not start with a dot (the
    only names it is applied to): the text from the last dot on, or the
    empty string when there is no dot. *)
Fixpoint extname (file : string) : string :=
  match file with
  | EmptyString => EmptyString
  | String c rest =>
      match extname rest with
      | EmptyString => if Ascii.eqb c "."%char then file else EmptyString
      | ext => ext
      end
  end.

(** [Set.add] on a set kept in insertion order. *)
Definition setAdd (x : string) (s : list string) : list string :=
  if arrayIncludes s x then s else (s ++ [x])%list.

(** The guard shared by both scans. *)
Definition skipped (file : string) : bool :=
  startsWith file "." || (file =? "node_modules").

(** A computation that may be cut short by an exception; the state
    reached so far is kept in both cases. *)
Inductive completion (A : Type) : Type :=
| Normal (a : A)
| Threw (a : A).
Arguments Normal {A} a.
Arguments Threw {A} a.

Fixpoint scanDirectory (d : dir) (depth : nat)
    (fileTypes : list string) {struct d} : completion (list string) :=
  if (2 <? depth)%nat then Normal fileTypes
  else
    match d with
    | Unreadable => Threw fileTypes
    | Listing files =>
        (fix forEach (files : list entry) (fileTypes : list string)
             {struct files} : completion (list string) :=
           match files with
           | [] => Normal fileTypes
           | file :: rest =>
               if skipped (entryName file) then forEach rest fileTypes
               else
                 match file with
                 | Broken _ => Threw fileTypes
                 | File n =>
                     let ext := extname n in
                     forEach rest
                       (if ext =? "" then fileTypes else setAdd ext fileTypes)
                 | Dir _ sub =>
                     if (depth <? 2)%nat then
                       match scanDirectory sub (depth + 1) fileTypes with
                       | Normal fileTypes' => forEach rest fileTypes'
                       | Threw fileTypes' => Threw fileTypes'
                       end
                     else forEach rest fileTypes
                 | Special _ => forEach rest fileTypes
                 end
           end) files fileTypes
    end.

Definition getFileTypes (projectPath : dir) : list string :=
  match scanDirectory projectPath 0 [] with
  | Normal fileTypes => fileTypes
  | Threw fileTypes => fileTypes
  end.

Definition testFileName (file : string) : bool :=
  includes (toLowerCase file) "test" ||
  includes (toLowerCase file) "spec" ||
  includes file ".test." ||
  includes file ".spec.".

Definition testDirName (file : string) : bool :=
  includes (toLowerCase file) "test" ||
  includes (toLowerCase file) "spec" ||
  (file =? "__tests__").

(** [None] is a thrown exception. *)
Fixpoint checkDirectory (d : dir) (depth : nat)
    {struct d} : option bool :=
  if (2 <? depth)%nat then Some false
  else
    match d with
    | Unreadable => None
    | Listing files =>
        (fix some (files : list entry) {struct files} : option bool :=
           match files with
           | [] => Some false
           | file :: rest =>
               if skipped (entryName file) then some rest
               else
                 match file with
                 | Broken _ => None
                 | File n => if testFileName n then Some true else some rest
                 | Dir n sub =>
                     if testDirName n then Some true
                     else
                       match checkDirectory sub (depth + 1) with
                       | None => None
                       | Some true => Some true
                       | Some false => some rest
                       end
                 | Special _ => some rest
                 end
           end) files
    end.

Definition hasTestFiles (projectPath : dir) : bool :=
  match checkDirectory projectPath 0 with
  | Some found => found
  | None => false
  end.

Definition getInstallCommand (fs : Workspace) : string :=
  if existsSync fs "pnpm-lock.yaml" then "pnpm install"
  else if existsSync fs "yarn.lock" then "yarn install"
  else "npm install".

Definition getStartCommand (projectInfo : ProjectInfo) (fs : Workspace)
    : string :=
  if arrayIncludes (scripts projectInfo) "dev" then
    if existsSync fs "pnpm-lock.yaml" then "pnpm dev" else "npm run dev"
  else
    if existsSync fs "pnpm-lock.yaml" then "pnpm start" else "npm start".

(* ================================================================== *)
(** ** utils/projectAnalyzer.ts *)

(** *** Values of the host language that [JSON.parse] can yield *)

Definition jsTruthy (v : json) : bool :=
  match v with
  | JUndefined | JNull => false
  | JBool b => b
  | JNum nonzero => nonzero
  | JStr s => negb (s =? "")
  | JArr _ | JObj _ => true
  end.

(** [a || b] *)
Definition jsOr (a b : json) : json := if jsTruthy a then a else b.

(** [v.key] for one of the keys the analyzer reads, on a value that is
    neither [null] nor [undefined]: only objects carry such a property. *)
Definition prop (v : json) (key : string) : json :=
  match v with
  | JObj props =>
      match find (fun kv => fst kv =? key) props with
      | Some kv => snd kv
      | None => JUndefined
      end
  | _ => JUndefined
  end.

(** [v?.key] *)
Definition optProp (v : json) (key : string) : json :=
  match v with
  | JUndefined | JNull => JUndefined
  | _ => prop v key
  end.

Definition indexString (i : nat) : string :=
  NilEmpty.string_of_uint (Nat.to_uint i).

(** [Object.keys(v)], the properties of an object being listed in their
    enumeration order. *)
Definition objectKeys (v : json) : list string :=
  match v with
  | JObj props => map fst props
  | JArr items => map indexString (seq 0 (List.length items))
  | JStr s => map indexString (seq 0 (utf16Length s))
  | _ => []
  end.

(** [Object.keys(v || {})] *)
Definition keysOrEmpty (v : json) : list string :=
  if jsTruthy v then objectKeys v else [].

(** *** The analyzer *)

(** The object that [analyzeProject] builds.  The interface [ProjectInfo]
    declares strings, but the fields copied from the manifest hold
    whatever value the manifest has there. *)
Record RawProjectInfo : Type := mkRawProjectInfo {
  raw_name : json;
  raw_description : json;
  raw_dependencies : list string;
  raw_devDependencies : list string;
  raw_scripts : list string;
  raw_fileTypes : list string;
  raw_hasTests : bool;
  raw_license : json;
  raw_repository : json;
  raw_framework : json;
  raw_workspacePath : string;
  raw_version : json;
  raw_author : json;
  raw_homepage : json
}.

(** [path.basename] for POSIX paths: trailing separators are dropped, then
    the text after the last separator is kept. *)
Fixpoint lastSegment (s : string) (seg : string) (pending : bool) : string :=
  match s with
  | EmptyString => seg
  | String c rest =>
      if Ascii.eqb c "/"%char then lastSegment rest seg true
      else if pending then lastSegment rest (String c EmptyString) false
      else lastSegment rest (seg ++ String c EmptyString) false
  end.

Definition basename (p : string) : string := lastSegment p EmptyString false.

Definition detectFramework (deps devDeps fileTypes : list string) : string :=
  let deps := (deps ++ devDeps)%list in
  if existsb (fun dep => includes dep "next") deps then "Next.js"
  else if existsb (fun dep => includes dep "nuxt") deps then "Nuxt.js"
  else if existsb (fun dep => includes dep "react") deps then "React"
  else if existsb (fun dep => includes dep "vue") deps then "Vue.js"
  else if existsb (fun dep => includes dep "angular") deps then "Angular"
  else if existsb (fun dep => includes dep "express") deps then "Express.js"
  else if existsb (fun dep => includes dep "nestjs") deps then "NestJS"
  else if arrayIncludes fileTypes ".py" then "Python"
  else if (0 <? List.length deps)%nat then "Node.js"
  else "Software".

(** The fields read from a parsed manifest; [None] when reading the first
    of them throws, which is the case of a manifest that is [null]. *)
Definition readManifest (projectInfo : RawProjectInfo) (pj : json)
    : option RawProjectInfo :=
  match pj with
  | JNull | JUndefined => None
  | _ =>
      Some {|
        raw_name := jsOr (prop pj "name") (raw_name projectInfo);
        raw_description := prop pj "description";
        raw_dependencies := keysOrEmpty (prop pj "dependencies");
        raw_devDependencies := keysOrEmpty (prop pj "devDependencies");
        raw_scripts := keysOrEmpty (prop pj "scripts");
        raw_fileTypes := raw_fileTypes projectInfo;
        raw_hasTests := raw_hasTests projectInfo;
        raw_license := prop pj "license";
        raw_repository :=
          jsOr (optProp (prop pj "repository") "url") (prop pj "repository");
        raw_framework := raw_framework projectInfo;
        raw_workspacePath := raw_workspacePath projectInfo;
        raw_version := prop pj "version";
        raw_author :=
          jsOr (optProp (prop pj "author") "name") (prop pj "author");
        raw_homepage := prop pj "homepage"
      |}
  end.

Definition analyzeProject (workspacePath : string) (fs : Workspace)
    : RawProjectInfo :=
  let workspaceName := basename workspacePath in
  let projectInfo :=
    {| raw_name := JStr workspaceName;
       raw_description := JUndefined;
       raw_dependencies := [];
       raw_devDependencies := [];
       raw_scripts := [];
       raw_fileTypes := [];
       raw_hasTests := false;
       raw_license := JUndefined;
       raw_repository := JUndefined;
       raw_framework := JUndefined;
       raw_workspacePath := workspacePath;
       raw_version := JUndefined;
       raw_author := JUndefined;
       raw_homepage := JUndefined |} in
  let projectInfo :=
    if existsSync fs "package.json" then
      match packageJson fs with
      | Some pj =>
          match readManifest projectInfo pj with
          | Some projectInfo' => projectInfo'
          | None => projectInfo
          end
      | None => projectInfo
      end
    else projectInfo in
  let fileTypes := getFileTypes (listing fs) in
  let hasTests := hasTestFiles (listing fs) in
  {| raw_name := raw_name projectInfo;
     raw_description := raw_description projectInfo;
     raw_dependencies := raw_dependencies projectInfo;
     raw_devDependencies := raw_devDependencies projectInfo;
     raw_scripts := raw_scripts projectInfo;
     raw_fileTypes := fileTypes;
     raw_hasTests := hasTests;
     raw_license := raw_license projectInfo;
     raw_repository := raw_repository projectInfo;
     raw_framework :=
       JStr (detectFramework (raw_dependencies projectInfo)
               (raw_devDependencies projectInfo) fileTypes);
     raw_workspacePath := raw_workspacePath projectInfo;
     raw_version := raw_version projectInfo;
     raw_author := raw_author projectInfo;
     raw_homepage := raw_homepage projectInfo |}.

(** The analyzed project at the type the interface declares, when every
    field copied from the manifest is a string or absent. *)
Definition optionalString (v : json) : option (option string) :=
  match v with
  | JUndefined => Some None
  | JStr s => Some (Some s)
  | _ => None
  end.

Definition typed (r : RawProjectInfo) : option ProjectInfo :=
  match raw_name r, optionalString (raw_description r),
        optionalString (raw_license r), optionalString (raw_repository r),
        optionalString (raw_framework r), optionalString (raw_version r),
        optionalString (raw_author r), optionalString (raw_homepage r) with
  | JStr n, Some d, Some l, Some repo, Some fw, Some v, Some a, Some h =>
      Some {| name := n; description := d;
              dependencies := raw_dependencies r;
              devDependencies := raw_devDependencies r;
              scripts := raw_scripts r;
              fileTypes := raw_fileTypes r;
              hasTests := raw_hasTests r;
              license := l; repository := repo; framework := fw;
              workspacePath := raw_workspacePath r;
              version := v; author := a; homepage := h |}
  | _, _, _, _, _, _, _, _ => None
  end.

(* ================================================================== *)
(** ** templates/readmeGenerator.ts *)

(** The class [[-_\s]] *)
Definition titleSeparators : list string := "-" :: "_" :: whiteSpace.

(** [title.split(/[-_\s]/)] *)
Fixpoint splitTitle (s : string) : list string :=
  match s with
  | EmptyString => [EmptyString]
  | String c s1 =>
      let extend words :=
        match words with
        | word :: words => String c word :: words
        | [] => [String c EmptyString]
        end in
      match widthOf titleSeparators s, s1 with
      | 0, _ => extend (splitTitle s1)
      | 1, _ => EmptyString :: splitTitle s1
      | 2, String _ s2 => EmptyString :: splitTitle s2
      | S (S (S _)), String _ (String _ s3) => EmptyString :: splitTitle s3
      | _, _ => extend (splitTitle s1)
      end
  end.

(** The number of bytes of the character whose first byte is [c]. *)
Definition charWidth (c : ascii) : nat :=
  let n := nat_of_ascii c in
  if (n <? 192)%nat then 1
  else if (n <? 224)%nat then 2
  else if (n <? 240)%nat then 3
  else 4.

(** The first character of a text, what follows it, and whether that
    character lies beyond the Basic Multilingual Plane. *)
Definition firstCharacter (s : string) : string :=
  match s with
  | EmptyString => EmptyString
  | String c _ => substring 0 (charWidth c) s
  end.

Definition afterFirstCharacter (s : string) : string :=
  match s with
  | EmptyString => EmptyString
  | String c _ => dropString (charWidth c) s
  end.

Definition astral (s : string) : bool :=
  match s with
  | EmptyString => false
  | String c _ => (charWidth c =? 4)%nat
  end.

Section HostCase.

(** [s.toUpperCase()] and [s.toLowerCase()] as the host computes them, on
    any text. *)
Variables upperCase lowerCase : string -> string.

(** [word.charAt(0).toUpperCase() + word.slice(1).toLowerCase()].  When
    the word begins with a character of the Basic Multilingual Plane,
    [charAt(0)] is that character and [slice(1)] is what follows it.  A
    character beyond that plane is a surrogate pair: [charAt(0)] is its
    first half, which has no upper case, and [slice(1)] begins with its
    second half, which has no lower case and is no context for the letters
    behind it; the sum joins the two halves again, so that the character
    is kept as it is. *)
Definition capitalizeWord (word : string) : string :=
  if astral word then
    firstCharacter word ++ lowerCase (afterFirstCharacter word)
  else
    upperCase (firstCharacter word) ++ lowerCase (afterFirstCharacter word).

Definition capitalizeTitle (title : string) : string :=
  join " " (map capitalizeWord (splitTitle title)).

End HostCase.

Definition commonFeatures : list string :=
  [ "🎨 **Modern UI/UX** - Clean and intuitive user interface";
    "📱 **Responsive Design** - Works seamlessly on desktop and mobile devices";
    "⚡ **Fast Performance** - Optimized for speed and efficiency";
    "🔧 **Easy Configuration** - Simple setup and customization" ].

Definition reactFeatures : list string :=
  [ "🔄 **Real-time Updates** - Dynamic content updates";
    "🎯 **Component-based Architecture** - Reusable and maintainable components";
    "📊 **State Management** - Efficient state handling";
    "🌓 **Theme Support** - Light and dark mode toggle" ].

Definition nodeFeatures : list string :=
  [ "🔐 **Secure Authentication** - JWT-based authentication";
    "📡 **RESTful API** - Well-structured API endpoints";
    "💾 **Database Integration** - Efficient data management";
    "🔒 **Input Validation** - Secure data handling" ].

(** [xs.some(dep => dep.includes(p))] *)
Definition someIncludes (xs : list string) (p : string) : bool :=
  existsb (fun dep => includes dep p) xs.

Definition generateFeatures (projectInfo : ProjectInfo) : string :=
  let features := commonFeatures in
  let features :=
    if someIncludes (dependencies projectInfo) "react"
    then (features ++ reactFeatures)%list else features in
  let features :=
    if existsb (fun dep => includes dep "express" || includes dep "nestjs")
         (dependencies projectInfo)
    then (features ++ nodeFeatures)%list else features in
  let features :=
    if hasTests projectInfo
    then (features ++ ["✅ **Comprehensive Testing** - Full test coverage"])%list
    else features in
  join nl features.

Definition generateTechStack (projectInfo : ProjectInfo) : string :=
  let techStack := "### Frontend" ++ nl in
  let techStack :=
    if someIncludes (dependencies projectInfo) "react" then
      techStack ++ "- **Framework**: React with " ++
        (if someIncludes (devDependencies projectInfo) "vite"
         then "Vite" else "Create React App") ++ nl
    else techStack in
  let techStack :=
    if arrayIncludes (fileTypes projectInfo) ".ts" ||
       arrayIncludes (fileTypes projectInfo) ".tsx"
    then techStack ++ "- **Language**: TypeScript" ++ nl
    else techStack ++ "- **Language**: JavaScript" ++ nl in
  let techStack :=
    if existsb (fun dep => includes dep "tailwind" || includes dep "tailwindcss")
         (dependencies projectInfo)
    then techStack ++ "- **Styling**: Tailwind CSS" ++ nl
    else techStack in
  let uiLibs :=
    filter (fun dep => includes dep "mui" || includes dep "antd" ||
                       includes dep "chakra" || includes dep "mantine")
      (dependencies projectInfo) in
  let techStack :=
    match uiLibs with
    | lib :: _ => techStack ++ "- **UI Components**: " ++ lib ++ nl
    | [] => techStack
    end in
  let techStack := techStack ++ nl ++ "### Development Tools" ++ nl in
  let techStack :=
    if someIncludes (devDependencies projectInfo) "vite"
    then techStack ++ "- **Build Tool**: Vite" ++ nl else techStack in
  let techStack :=
    if someIncludes (devDependencies projectInfo) "eslint"
    then techStack ++ "- **Linter**: ESLint" ++ nl else techStack in
  techStack.

(** The properties that every object literal inherits from
    [Object.prototype], each with the text that its value has inside a
    template literal, as V8, the engine of the editor, prints it. *)
Definition objectPrototype : list (string * string) :=
  let native key := (key, "function " ++ key ++ "() { [native code] }") in
  [ ("constructor", "function Object() { [native code] }");
    native "__defineGetter__";
    native "__defineSetter__";
    native "hasOwnProperty";
    native "__lookupGetter__";
    native "__lookupSetter__";
    native "isPrototypeOf";
    native "propertyIsEnumerable";
    native "toString";
    native "valueOf";
    ("__proto__", "[object Object]");
    native "toLocaleString" ].

(** [table[key] || default] on an object literal used as a lookup table,
    where the value goes into a template literal: the own properties come
    first, then the inherited ones. *)
Definition lookupOr (table : list (string * string)) (key : string)
    (default : string) : string :=
  match find (fun kv => fst kv =? key) (table ++ objectPrototype)%list with
  | Some kv => if snd kv =? "" then default else snd kv
  | None => default
  end.

Definition getFolderComment (folderName : string) : string :=
  lookupOr
    [ ("src", " # Source code");
      ("components", " # React components");
      ("pages", " # Page components");
      ("hooks", " # Custom React hooks");
      ("utils", " # Utility functions");
      ("api", " # API services");
      ("lib", " # Library files");
      ("styles", " # Styling files");
      ("assets", " # Static assets");
      ("public", " # Public assets");
      ("tests", " # Test files");
      ("__tests__", " # Test files");
      ("config", " # Configuration files") ]
    folderName EmptyString.

Definition getFileComment (fileName : string) : string :=
  lookupOr
    [ ("package.json", " # Dependencies and scripts");
      ("vite.config.ts", " # Vite configuration");
      ("vite.config.js", " # Vite configuration");
      ("tsconfig.json", " # TypeScript configuration");
      ("tailwind.config.js", " # Tailwind configuration");
      ("eslint.config.js", " # ESLint configuration");
      (".env", " # Environment variables");
      ("README.md", " # Project documentation") ]
    fileName EmptyString.

Definition skipList : list string :=
  [ "node_modules"; ".git"; ".vscode"; "dist"; "build"; ".next"; ".nuxt";
    "__pycache__"; "coverage" ].

(** [Dirent.isDirectory()] *)
Definition isDirectory (f : entry) : bool :=
  match f with
  | Dir _ _ => true
  | _ => false
  end.

(** [xs.sort(cmp)]: a stable sort, [before a b] telling that the
    comparator does not put [a] after [b]. *)
Fixpoint insertSorted {A : Type} (before : A -> A -> bool) (x : A)
    (l : list A) : list A :=
  match l with
  | [] => [x]
  | y :: l' => if before x y then x :: l else y :: insertSorted before x l'
  end.

Definition sortBy {A : Type} (before : A -> A -> bool) (l : list A) : list A :=
  fold_right (insertSorted before) [] l.

(** [xs.map((f, idx, arr) => body).join("")], where the body looks at
    [idx] only to know whether the element is the last one. *)
Fixpoint mapJoinLast {A : Type} (body : A -> bool -> string) (l : list A)
    : string :=
  match l with
  | [] => EmptyString
  | [x] => body x true
  | x :: rest => body x false ++ mapJoinLast body rest
  end.

Section HostLocale.

(** [a.localeCompare(b)] depends on the collation of the host; it is a
    parameter of everything that sorts names. *)
Variable localeCompare : string -> string -> comparison.

Definition folderOrder (a b : entry) : bool :=
  if isDirectory a && negb (isDirectory b) then true
  else if negb (isDirectory a) && isDirectory b then false
  else
    match localeCompare (entryName a) (entryName b) with
    | Gt => false
    | _ => true
    end.

Fixpoint generateFolderStructure (dirPath : dir) (depth : nat)
    (prefix : string) {struct depth} : string :=
  match depth with
  | O => EmptyString
  | S depth' =>
      match dirPath with
      | Unreadable => prefix ++ "└── (Unable to read directory)" ++ nl
      | Listing files =>
          let filteredFiles :=
            sortBy folderOrder
              (filter (fun f => negb (arrayIncludes skipList (entryName f)) &&
                                negb (startsWith (entryName f) "."))
                 files) in
          mapJoinLast
            (fun f last =>
               let pointer := if last then "└── " else "├── " in
               let newPrefix := prefix ++ (if last then "  " else "│ ") in
               match f with
               | Dir n sub =>
                   let comment := getFolderComment n in
                   let subStructure :=
                     generateFolderStructure sub depth' newPrefix in
                   prefix ++ pointer ++ n ++ "/" ++ comment ++ nl ++
                   subStructure
               | _ =>
                   let comment := getFileComment (entryName f) in
                   prefix ++ pointer ++ entryName f ++ comment ++ nl
               end)
            filteredFiles
      end
  end.

End HostLocale.

(* ================================================================== *)
(** ** utils/badgeGenerator.ts, class BadgeGenerator *)

Definition generateBadges (projectInfo : ProjectInfo) : string :=
  let badges := [] in
  let badges :=
    if someIncludes (dependencies projectInfo) "react" then
      (badges ++
       ["![React](https://img.shields.io/badge/React-18+-blue?style=flat-square&logo=react)"])%list
    else badges in
  let badges :=
    if arrayIncludes (fileTypes projectInfo) ".ts" ||
       arrayIncludes (fileTypes projectInfo) ".tsx" then
      (badges ++
       ["![TypeScript](https://img.shields.io/badge/TypeScript-5+-blue?style=flat-square&logo=typescript)"])%list
    else badges in
  let badges :=
    if someIncludes (devDependencies projectInfo) "vite" then
      (badges ++
       ["![Vite](https://img.shields.io/badge/Vite-5+-purple?style=flat-square&logo=vite)"])%list
    else badges in
  let badges :=
    if someIncludes (dependencies projectInfo) "next" then
      (badges ++
       ["![Next.js](https://img.shields.io/badge/Next.js-14+-black?style=flat-square&logo=next.js)"])%list
    else badges in
  join nl badges.

(* ================================================================== *)
(** ** services/TemplateService.ts *)

(** [c ? f(x) : d] where the condition is the truthiness of the optional
    string [x] itself. *)
Definition whenTruthy (o : option string) (f : string -> string)
    (d : string) : string :=
  match o with
  | Some s => if s =? "" then d else f s
  | None => d
  end.

(** [s.replace(p, r)] with a string pattern: the first occurrence only. *)
Fixpoint replaceFirst (s p r : string) : string :=
  if String.prefix p s then r ++ dropString (String.length p) s
  else
    match s with
    | EmptyString => EmptyString
    | String c rest => String c (replaceFirst rest p r)
    end.

(** The longest prefix without a slash: what [[^\/]+] captures. *)
Fixpoint untilSlash (s : string) : string :=
  match s with
  | EmptyString => EmptyString
  | String c rest =>
      if Ascii.eqb c "/"%char then EmptyString else String c (untilSlash rest)
  end.

(** [repo.match(/github\.com\/([^\/]+)/)]: the capture of the leftmost
    match, if the expression matches anywhere. *)
Fixpoint matchGitHub (repo : string) : option string :=
  let here :=
    if String.prefix "github.com/" repo then
      match untilSlash (dropString 11 repo) with
      | EmptyString => None
      | user => Some user
      end
    else None in
  match here with
  | Some user => Some user
  | None =>
      match repo with
      | EmptyString => None
      | String _ rest => matchGitHub rest
      end
  end.

Module TemplateService.

Definition generatePrerequisites (projectInfo : ProjectInfo) : string :=
  let isReact := someIncludes (dependencies projectInfo) "react" in
  let isPython := arrayIncludes (fileTypes projectInfo) ".py" in
  if isPython then
    "- Python 3.8 or higher" ++ nl ++ "- pip package manager"
  else if isReact then
    "- Node.js 18.0 or higher" ++ nl ++ "- npm, pnpm, or yarn package manager"
  else
    "- Node.js 16.0 or higher" ++ nl ++ "- npm package manager".

Definition generateEnvironmentSetup (fs : Workspace) : string :=
  if existsSync fs ".env.example" then
    nl ++ "3. Set up environment variables:" ++ nl ++
    "    ```bash" ++ nl ++
    "    cp .env.example .env" ++ nl ++
    "    # Edit .env with your configuration" ++ nl ++
    "    ```" ++ nl
  else EmptyString.

Definition generateUsageInstructions (projectInfo : ProjectInfo) : string :=
  let isReact := someIncludes (dependencies projectInfo) "react" in
  if isReact then
    "- **Development**: Start the development server and begin coding
- **Components**: Edit components in the `src` folder
- **Styling**: Customize styles and themes
- **Build**: Create production builds for deployment
- **Testing**: Run tests to ensure code quality"
  else
    "- **Development**: Use the available scripts for development
- **Configuration**: Customize settings as needed
- **Deployment**: Build and deploy using the provided scripts".

(** Called only where [projectInfo.repository] is truthy; the argument is
    that string. *)
Definition generateAPIDocumentation (repository : string) : string :=
  nl ++ "## 🌐 API Documentation

This application integrates with various APIs and services:
- **Authentication**: JWT-based authentication system
- **Data Management**: RESTful API endpoints
- **Real-time Updates**: WebSocket connections for live data

For detailed API documentation, visit the [API docs](" ++ repository ++
  "/docs) or check the `/docs` folder." ++ nl.

Definition scriptDescriptions : list (string * string) :=
  [ ("dev", "Start development server with hot reload");
    ("start", "Start production server");
    ("build", "Build the application for production");
    ("test", "Run test suite");
    ("lint", "Lint code and fix issues");
    ("preview", "Preview production build locally");
    ("format", "Format code with Prettier");
    ("type-check", "Run TypeScript type checking") ].

Definition generateScriptDocumentation (projectInfo : ProjectInfo)
    (fs : Workspace) : string :=
  join nl
    (map (fun script =>
            let description :=
              lookupOr scriptDescriptions script "Custom script" in
            let command :=
              if existsSync fs "pnpm-lock.yaml" then "pnpm " ++ script
              else "npm run " ++ script in
            "- `" ++ command ++ "` - " ++ description)
       (scripts projectInfo)).

Definition generateAcknowledgments (projectInfo : ProjectInfo) : string :=
  let acknowledgments := [] in
  let acknowledgments :=
    if someIncludes (dependencies projectInfo) "react" then
      (acknowledgments ++
       ["- [React](https://reactjs.org/) for the amazing UI library"])%list
    else acknowledgments in
  let acknowledgments :=
    if someIncludes (devDependencies projectInfo) "vite" then
      (acknowledgments ++
       ["- [Vite](https://vitejs.dev/) for lightning-fast development"])%list
    else acknowledgments in
  let acknowledgments :=
    if someIncludes (dependencies projectInfo) "tailwind" then
      (acknowledgments ++
       ["- [Tailwind CSS](https://tailwindcss.com/) for utility-first styling"])%list
    else acknowledgments in
  let acknowledgments :=
    (acknowledgments ++
     ["- Open source community for continuous inspiration"])%list in
  join nl acknowledgments.

Definition extractGitHubUsername (repo : string) : string :=
  match matchGitHub repo with
  | Some user => "@" ++ user
  | None => "@username"
  end.

Definition generateReadme (upperCase lowerCase : string -> string)
    (localeCompare : string -> string -> comparison)
    (projectInfo : ProjectInfo) (fs : Workspace) : string :=
  let isReact :=
    existsb (fun dep => includes dep "react" || includes dep "next")
      (dependencies projectInfo) in
  let isVite :=
    someIncludes (dependencies projectInfo) "vite" ||
    someIncludes (devDependencies projectInfo) "vite" in
  let badges := generateBadges projectInfo in
  let generateFolderStructure := generateFolderStructure localeCompare in
  "# " ++
    (if startsWith (name projectInfo) "#" then name projectInfo
     else "🚀 " ++ capitalizeTitle upperCase lowerCase (name projectInfo)) ++
    "

" ++
    orElse (description projectInfo)
      "A modern application built with cutting-edge technologies." ++
    "

" ++
    badges ++
    "

## 🚀 Live Demo
" ++
    whenTruthy (homepage projectInfo)
      (fun h => "- **Application**: [" ++ h ++ "](" ++ h ++ ")")
      "- Live demo will be available soon" ++
    "

## 📋 Table of Contents
- [Features](#-features)
- [Tech Stack](#-tech-stack)
- [Installation](#-installation)
- [Usage](#-usage)
" ++
    whenTruthy (repository projectInfo)
      (fun _ => "- [API Documentation](#-api-documentation)") EmptyString ++
    "
- [Project Structure](#-project-structure)
- [Contributing](#-contributing)
- [License](#-license)
- [Contact](#-contact)

## ✨ Features

" ++
    generateFeatures projectInfo ++
    "

## 🛠 Tech Stack

" ++
    generateTechStack projectInfo ++
    "

## 📦 Installation

### Prerequisites
" ++
    generatePrerequisites projectInfo ++
    "

### Installation

1. Clone the repository:
    ```bash
    git clone " ++
    orElse (repository projectInfo)
      "https://github.com/username/repository.git" ++
    "
    cd " ++
    name projectInfo ++
    "
    ```

2. Install dependencies:
    ```bash
    " ++
    getInstallCommand fs ++
    "
    ```

" ++
    generateEnvironmentSetup fs ++
    "

3. Run the project:
    ```bash
    " ++
    getStartCommand projectInfo fs ++
    "
    ```

4. Open your browser:
    ```bash
    Navigate to `" ++
    (if isReact then "http://localhost:3000"
     else if isVite then "http://localhost:5173"
     else "http://localhost:3000") ++
    "`
    ```

## 🎯 Usage

" ++
    generateUsageInstructions projectInfo ++
    "

" ++
    whenTruthy (repository projectInfo) generateAPIDocumentation EmptyString ++
    "

## 📁 Project Structure

```
" ++
    generateFolderStructure (listing fs) 3 EmptyString ++
    "
```

## 📝 Available Scripts

" ++
    generateScriptDocumentation projectInfo fs ++
    "

## 🤝 Contributing

1. Fork the repository
2. Create your feature branch (`git checkout -b feature/amazing-feature`)
3. Commit your changes (`git commit -m 'Add some amazing feature'`)
4. Push to the branch (`git push origin feature/amazing-feature`)
5. Open a Pull Request

## 📄 License

" ++
    whenTruthy (license projectInfo)
      (fun l => "This project is licensed under the " ++ l ++
                " License - see the [LICENSE](LICENSE) file for details.")
      "This project is licensed under the MIT License - see the [LICENSE](LICENSE) file for details." ++
    "

## 👨‍💻 Contact

" ++
    whenTruthy (author projectInfo) (fun a => "**" ++ a ++ "**")
      "**Developer**" ++
    "
" ++
    whenTruthy (repository projectInfo)
      (fun r => "- GitHub: [" ++ extractGitHubUsername r ++ "](" ++
                replaceFirst r ".git" EmptyString ++ ")")
      "- GitHub: [@username](https://github.com/username)" ++
    "
- Email: [developer@email.com](mailto:developer@email.com)

## 🙏 Acknowledgments

" ++
    generateAcknowledgments projectInfo ++
    "

---

<div align=" ++ dquote ++ "center" ++ dquote ++ ">
  Made with ❤️ by " ++
    orElse (author projectInfo) "Developer" ++
    "
</div>
".

End TemplateService.

(* ================================================================== *)
(** ** utils/ConfigManager.ts *)

(** The settings the sources read. *)
Record Config : Type := mkConfig {
  groqApiKey : option string;
  preferredModel : option string
}.

Definition getGroqApiKey (config : Config) : option string :=
  match groqApiKey config with
  | Some apiKey =>
      if negb (apiKey =? "") && negb (startsWith apiKey "gsk_") then None
      else Some apiKey
  | None => None
  end.

Definition getPreferredModel (config : Config) : string :=
  match preferredModel config with
  | Some model => model
  | None => "moonshotai/kimi-k2-instruct"
  end.

Definition hasValidApiKey (config : Config) : bool :=
  match getGroqApiKey config with
  | Some apiKey =>
      (0 <? utf16Length apiKey)%nat && startsWith apiKey "gsk_" &&
      (40 <=? utf16Length apiKey)%nat
  | None => false
  end.

(** What the extension shows or opens besides the document.  Progress
    reports are left out, and so are the dialogs that ask: their answers
    are inputs. *)
Inductive Shown : Type :=
| ShowInformationMessage (message : string)
| ShowWarningMessage (message : string)
| ShowErrorMessage (message : string)
| OpenExternal (url : string).

(** [showInputBox] with a [validateInput] callback: the box is accepted
    only on a value for which the callback reports nothing; a user who
    supplies no such value leaves by cancelling.  [typed] is what the user
    submits, if anything. *)
Definition showInputBox (validateInput : string -> option string)
    (typed : option string) : option string :=
  match typed with
  | Some value =>
      match validateInput value with
      | None => Some value
      | Some _ => None
      end
  | None => None
  end.

(** [showQuickPick]: the pick is one of the labels offered, or nothing
    when the pick is dismissed. *)
Definition showQuickPick (labels : list string) (picked : option string)
    : option string :=
  match picked with
  | Some label => if arrayIncludes labels label then Some label else None
  | None => None
  end.

(** The [validateInput] callback of [promptForApiKey]. *)
Definition promptForApiKeyValidation (value : string) : option string :=
  if value =? "" then Some "API key is required"
  else if negb (startsWith value "gsk_") then
    Some ("Groq API keys must start with " ++ dquote ++ "gsk_" ++ dquote)
  else if (utf16Length value <? 40)%nat then
    Some "API key seems too short (should be 40+ characters)"
  else if includes value " " then Some "API key should not contain spaces"
  else None.

Definition promptForApiKey (typed : option string) : option string :=
  showInputBox promptForApiKeyValidation typed.

(** [config.update(...)]: the settings once written, or the message of
    the error with which the settings store rejects the write.
    [updateError] is that message, if the store rejects writes. *)
Definition update (updateError : option string) (written : Config)
    : Config + string :=
  match updateError with
  | Some message => inr message
  | None => inl written
  end.

(** [setGroqApiKey]: the settings with the key stored and what is shown,
    or the message of the error thrown, for a key of the wrong format or
    by the settings store. *)
Definition setGroqApiKey (updateError : option string) (apiKey : string)
    (config : Config) : (Config * list Shown) + string :=
  if negb (startsWith apiKey "gsk_") then
    inr ("Invalid API key format. Groq API keys must start with " ++
         dquote ++ "gsk_" ++ dquote)
  else
    match
      update updateError
        {| groqApiKey := Some apiKey;
           preferredModel := preferredModel config |}
    with
    | inl config' =>
        inl (config',
             [ShowInformationMessage "✅ Groq API key saved successfully!"])
    | inr message => inr message
    end.

Definition setPreferredModel (updateError : option string) (model : string)
    (config : Config) : (Config * list Shown) + string :=
  match
    update updateError
      {| groqApiKey := groqApiKey config; preferredModel := Some model |}
  with
  | inl config' =>
      inl (config',
           [ShowInformationMessage ("✅ Preferred model set to: " ++ model)])
  | inr message => inr message
  end.

(** What the [try] block of [testApiKey] comes to: something is thrown in
    it (by [fetch], by the reading of the body or by the handling of a
    list that is not one), with its message when it is an [Error]; or the
    service answers with a status that is not ok and a body that is read;
    or the list of models is read, [modelCount] models of which the first
    three are named [modelNames]. *)
Inductive TestFetched : Type :=
| TestThrown (message : option string)
| TestRefused (status : nat) (statusText errorText : string)
| TestListed (modelCount : nat) (modelNames : string).

(** [testApiKey]: it writes no setting and catches what its request
    throws. *)
Definition testApiKey (config : Config) (fetched : TestFetched)
    : list Shown :=
  match getGroqApiKey config with
  | None | Some EmptyString =>
      [ShowErrorMessage
         "❌ No API key configured. Please set your Groq API key first."]
  | Some (String _ _) =>
      let failed errorMessage :=
        if includes errorMessage "401" then
          [ShowErrorMessage
             "❌ API key is invalid or expired. Please check your Groq API key."]
        else if includes errorMessage "429" then
          [ShowWarningMessage
             "⚠️ Rate limit exceeded. Please try again in a few minutes."]
        else [ShowErrorMessage ("❌ API test failed: " ++ errorMessage)] in
      match fetched with
      | TestThrown (Some message) => failed message
      | TestThrown None => failed "Unknown error"
      | TestRefused status statusText errorText =>
          failed ("API returned " ++ indexString status ++ ": " ++
                  statusText ++ nl ++ errorText)
      | TestListed modelCount modelNames =>
          [ShowInformationMessage
             ("✅ API key is valid! Found " ++ indexString modelCount ++
              " available models." ++ nl ++
              "Sample models: " ++ modelNames ++
              (if (3 <? modelCount)%nat then ", ..." else ""))]
      end
  end.

Definition availableModels : list string :=
  [ "moonshotai/kimi-k2-instruct";
    "llama-3.3-70b-versatile";
    "llama-3.1-8b-instant";
    "gemma2-9b-it" ].

(** [showModelSelection]; [picked] is the label picked, if any. *)
Definition showModelSelection (updateError : option string)
    (picked : option string) (config : Config)
    : (Config * list Shown) + string :=
  match showQuickPick availableModels picked with
  | Some selected => setPreferredModel updateError selected config
  | None => inl (config, [])
  end.

(** What the user answers in the dialogs of [manageApiKey], and what the
    service answers to the test request: the label picked among the
    options, what is typed into the key box, whether the removal is
    confirmed, the outcome of the test, and the label picked among the
    models. *)
Record ManageAnswers : Type := mkManageAnswers {
  managePick : option string;
  typedNewKey : option string;
  removeConfirmed : bool;
  testFetched : TestFetched;
  modelPick : option string
}.

(** [manageApiKey]: the settings it leaves and what it showed, or the
    message of the error it throws. *)
Definition manageApiKey (updateError : option string)
    (answers : ManageAnswers) (config : Config)
    : (Config * list Shown) + string :=
  let hasKey := hasValidApiKey config in
  let options :=
    if hasKey then
      [ "🔄 Update API Key"; "🗑️ Remove API Key"; "🧪 Test API Key"; "⚙️ Model Settings"; "❌ Cancel" ]
    else [ "➕ Add API Key"; "🌐 Get Free API Key"; "❌ Cancel" ] in
  match showQuickPick options (managePick answers) with
  | Some label =>
      if (label =? "➕ Add API Key") || (label =? "🔄 Update API Key") then
        match promptForApiKey (typedNewKey answers) with
        | Some (String _ _ as newKey) =>
            match setGroqApiKey updateError newKey config with
            | inl saved => inl saved
            | inr message =>
                inl (config,
                     [ShowErrorMessage
                        ("Failed to save API key: Error: " ++ message)])
            end
        | _ => inl (config, [])
        end
      else if label =? "🗑️ Remove API Key" then
        if removeConfirmed answers then
          match
            update updateError
              {| groqApiKey := None;
                 preferredModel := preferredModel config |}
          with
          | inl config' =>
              inl (config',
                   [ShowInformationMessage
                      "🗑️ API key removed. AI features disabled."])
          | inr message => inr message
          end
        else inl (config, [])
      else if label =? "🧪 Test API Key" then
        inl (config, testApiKey config (testFetched answers))
      else if label =? "⚙️ Model Settings" then
        showModelSelection updateError (modelPick answers) config
      else if label =? "🌐 Get Free API Key" then
        inl (config, [OpenExternal "https://console.groq.com"])
      else inl (config, [])
  | None => inl (config, [])
  end.

(* ================================================================== *)
(** ** services/GroqService.ts *)

Record ProjectAnalysis : Type := mkProjectAnalysis {
  projectType : string;
  mainPurpose : string;
  keyTechnologies : list string;
  frameworkDetails : string;
  specialFeatures : list string;
  architectureNotes : string;
  deploymentHints : string;
  projectStructure : string
}.

(** Assignments to the local variables of [performDeepProjectAnalysis],
    which the function returns together as one object. *)
Definition setProjectType (v : string) (a : ProjectAnalysis) :=
  mkProjectAnalysis v (mainPurpose a) (keyTechnologies a)
    (frameworkDetails a) (specialFeatures a) (architectureNotes a)
    (deploymentHints a) (projectStructure a).

Definition setMainPurpose (v : string) (a : ProjectAnalysis) :=
  mkProjectAnalysis (projectType a) v (keyTechnologies a)
    (frameworkDetails a) (specialFeatures a) (architectureNotes a)
    (deploymentHints a) (projectStructure a).

Definition pushTechnologies (vs : list string) (a : ProjectAnalysis) :=
  mkProjectAnalysis (projectType a) (mainPurpose a)
    (keyTechnologies a ++ vs)%list
    (frameworkDetails a) (specialFeatures a) (architectureNotes a)
    (deploymentHints a) (projectStructure a).

Definition setFrameworkDetails (v : string) (a : ProjectAnalysis) :=
  mkProjectAnalysis (projectType a) (mainPurpose a) (keyTechnologies a)
    v (specialFeatures a) (architectureNotes a)
    (deploymentHints a) (projectStructure a).

Definition pushFeatures (vs : list string) (a : ProjectAnalysis) :=
  mkProjectAnalysis (projectType a) (mainPurpose a) (keyTechnologies a)
    (frameworkDetails a) (specialFeatures a ++ vs)%list (architectureNotes a)
    (deploymentHints a) (projectStructure a).

Definition setArchitectureNotes (v : string) (a : ProjectAnalysis) :=
  mkProjectAnalysis (projectType a) (mainPurpose a) (keyTechnologies a)
    (frameworkDetails a) (specialFeatures a) v
    (deploymentHints a) (projectStructure a).

Definition setDeploymentHints (v : string) (a : ProjectAnalysis) :=
  mkProjectAnalysis (projectType a) (mainPurpose a) (keyTechnologies a)
    (frameworkDetails a) (specialFeatures a) (architectureNotes a)
    v (projectStructure a).

(** Statements in sequence. *)
Notation "a |> f" := (f a) (at level 45, left associativity, only parsing).

(** The outcome of one pass through a loop body or a [try] block. *)
Inductive step (A : Type) : Type :=
| Return (a : A)
| Continue
| Throw (message : string).
Arguments Return {A} a.
Arguments Continue {A}.
Arguments Throw {A} message.

(** What a call that may throw gives back to its caller. *)
Inductive result : Type :=
| Returned (readme : string)
| Thrown (message : string).

(** One reply of the external service: [fetch] rejects, or it resolves to
    a response with a status, a body text ([inr] when reading it fails)
    and the value its body parses to ([None] when parsing fails). *)
Inductive Fetched : Type :=
| Rejected (message : string)
| Responded (status : nat) (text : string + string) (data : option json).

(** The part of a request that varies: the model, and the project the
    prompt is built from. *)
Record Request : Type := mkRequest {
  req_model : string;
  req_projectInfo : ProjectInfo;
  req_analysis : ProjectAnalysis
}.

Module GroqService.

Definition models : list string :=
  [ "moonshotai/kimi-k2-instruct";
    "llama-3.3-70b-versatile";
    "llama-3.1-8b-instant";
    "gemma2-9b-it" ].

(** The [for] loop of [generateDirectoryTree] over the items that are
    shown; [subTree] is the recursive call on a subdirectory, and [None]
    is an exception thrown by [statSync]. *)
Fixpoint directoryTreeLoop (subTree : dir -> string) (depth maxDepth : nat)
    (items : list entry) (tree : string) {struct items} : option string :=
  match items with
  | [] => Some tree
  | item :: rest =>
      let isLast := match rest with [] => true | _ => false end in
      let prefix :=
        repeatString "│   " depth ++ (if isLast then "└── " else "├── ") in
      match item with
      | Broken _ => None
      | Dir n sub =>
          let tree := tree ++ prefix ++ n ++ "/" ++ nl in
          if (depth <? maxDepth)%nat then
            directoryTreeLoop subTree depth maxDepth rest
              (tree ++ subTree sub)
          else directoryTreeLoop subTree depth maxDepth rest tree
      | File n | Special n =>
          directoryTreeLoop subTree depth maxDepth rest
            (tree ++ prefix ++ n ++ nl)
      end
  end.

(** The recursion of [generateDirectoryTree] stops when [depth] exceeds
    [maxDepth]; [levels] counts the calls that remain until then, and
    [generateDirectoryTree] starts it at [maxDepth + 1 - depth]. *)
Fixpoint directoryTreeLevels (levels : nat) (dirPath : dir)
    (depth maxDepth : nat) {struct levels} : string :=
  match levels with
  | O => EmptyString
  | S levels' =>
      if (maxDepth <? depth)%nat then EmptyString
      else
        match dirPath with
        | Unreadable => EmptyString
        | Listing items =>
            let filteredItems :=
              firstn 15
                (filter (fun item =>
                           negb (startsWith (entryName item) ".") &&
                           negb (entryName item =? "node_modules") &&
                           negb (entryName item =? "dist") &&
                           negb (entryName item =? "build") &&
                           negb (entryName item =? "coverage"))
                   items) in
            match
              directoryTreeLoop
                (fun sub => directoryTreeLevels levels' sub (depth + 1) maxDepth)
                depth maxDepth filteredItems EmptyString
            with
            | Some tree => tree
            | None => EmptyString
            end
        end
  end.

Definition generateDirectoryTree (dirPath : dir) (depth maxDepth : nat)
    : string :=
  directoryTreeLevels (maxDepth + 1 - depth) dirPath depth maxDepth.

(** The [catch] of [analyzeProjectStructure] is never entered:
    [generateDirectoryTree] handles its own exceptions. *)
Definition analyzeProjectStructure (fs : Workspace) : string :=
  generateDirectoryTree (listing fs) 0 3.

(** *** The stages of [performDeepProjectAnalysis] *)

(** API/Backend, React, Vue.js, Angular, mobile, desktop and Python
    detection: one chain of alternatives. *)
Definition detectProjectType (allDeps scripts fileTypes : string)
    (a : ProjectAnalysis) : ProjectAnalysis :=
  if includes allDeps "express" || includes allDeps "fastify" ||
     includes allDeps "koa" || includes allDeps "nestjs" ||
     includes fileTypes "controller" || includes scripts "start" then
    a |> setProjectType "Backend API"
      |> setMainPurpose
           "A robust backend API service providing RESTful endpoints"
      |> pushTechnologies ["Node.js"; "Express/Fastify"; "API Development"]
      |> setFrameworkDetails "Built with modern Node.js framework"
      |> pushFeatures
           ["RESTful API endpoints"; "Middleware integration";
            "Database connectivity"]
      |> setArchitectureNotes "Follows REST architectural patterns"
  else if includes allDeps "react" then
    let a :=
      a |> setProjectType "React Application"
        |> setFrameworkDetails "Built with React ecosystem"
        |> pushTechnologies
             ["React"; "JavaScript/TypeScript"; "Modern Frontend"] in
    let a :=
      if includes allDeps "next" then
        a |> setProjectType "Next.js Application"
          |> setMainPurpose
               "A full-stack React application with server-side rendering"
          |> setFrameworkDetails "Built with Next.js framework"
          |> pushFeatures
               ["Server-side rendering"; "API routes"; "Static generation";
                "Image optimization"]
          |> setDeploymentHints
               "Deployable on Vercel, Netlify, or any Node.js server"
      else if includes allDeps "vite" || includes scripts "vite" then
        a |> setMainPurpose
               "A fast, modern React application built with Vite"
          |> pushFeatures
               ["Lightning-fast development"; "Hot module replacement";
                "Optimized builds"]
          |> setDeploymentHints
               "Builds to static files, deployable on any web server"
      else
        a |> setMainPurpose
               "A dynamic React application with modern user interface"
          |> pushFeatures
               ["Component-based architecture"; "Virtual DOM";
                "State management"] in
    let a :=
      if includes allDeps "router"
      then a |> pushFeatures ["Client-side routing"] else a in
    let a :=
      if includes allDeps "redux" || includes allDeps "zustand"
      then a |> pushFeatures ["State management"] else a in
    let a :=
      if includes allDeps "query" || includes allDeps "swr"
      then a |> pushFeatures ["Data fetching optimization"] else a in
    a
  else if includes allDeps "vue" then
    a |> setProjectType "Vue.js Application"
      |> setMainPurpose
           "A progressive Vue.js application with reactive user interface"
      |> setFrameworkDetails "Built with Vue.js framework"
      |> pushTechnologies ["Vue.js"; "JavaScript/TypeScript"; "Frontend"]
      |> pushFeatures
           ["Reactive data binding"; "Component composition"; "Vue ecosystem"]
  else if includes allDeps "angular" || includes allDeps "@angular" then
    a |> setProjectType "Angular Application"
      |> setMainPurpose
           "A comprehensive Angular application with enterprise-grade features"
      |> setFrameworkDetails "Built with Angular framework"
      |> pushTechnologies ["Angular"; "TypeScript"; "Enterprise Frontend"]
      |> pushFeatures
           ["Dependency injection"; "RxJS integration"; "Angular CLI"]
  else if includes allDeps "react-native" || includes allDeps "expo" then
    a |> setProjectType "React Native Mobile App"
      |> setMainPurpose
           "A cross-platform mobile application for iOS and Android"
      |> setFrameworkDetails "Built with React Native"
      |> pushTechnologies
           ["React Native"; "Mobile Development"; "Cross-platform"]
      |> pushFeatures
           ["Native performance"; "Cross-platform compatibility";
            "Mobile-optimized UI"]
  else if includes allDeps "electron" then
    a |> setProjectType "Desktop Application"
      |> setMainPurpose
           "A cross-platform desktop application built with web technologies"
      |> setFrameworkDetails "Built with Electron framework"
      |> pushTechnologies
           ["Electron"; "Desktop Development"; "Cross-platform"]
      |> pushFeatures
           ["Native desktop integration"; "Cross-platform compatibility"]
  else if includes fileTypes ".py" || includes allDeps "django" ||
          includes allDeps "flask" then
    let a := a |> setProjectType "Python Application" in
    let a :=
      if includes allDeps "django" then
        a |> setMainPurpose
               "A Django web application with robust backend functionality"
          |> setFrameworkDetails "Built with Django framework"
          |> pushFeatures
               ["ORM integration"; "Admin interface"; "Security features"]
      else if includes allDeps "flask" then
        a |> setMainPurpose "A lightweight Flask web application"
          |> setFrameworkDetails "Built with Flask framework"
          |> pushFeatures
               ["Lightweight architecture"; "Flexible routing";
                "Template engine"]
      else
        a |> setMainPurpose
               "A Python application with modern development practices"
          |> setFrameworkDetails "Built with Python" in
    a |> pushTechnologies ["Python"; "Backend Development"]
  else a.

(** Specific project type detection by name and dependencies. *)
Definition detectByName (projectName allDeps : string)
    (a : ProjectAnalysis) : ProjectAnalysis :=
  if includes projectName "weather" || includes projectName "klimate" ||
     includes allDeps "weather" then
    a |> setMainPurpose
           "A comprehensive weather application providing real-time weather data and forecasts"
      |> pushFeatures
           ["Real-time weather data"; "Location services";
            "Weather forecasts"; "Interactive charts"]
  else if includes projectName "todo" || includes projectName "task" then
    a |> setMainPurpose
           "A task management application for organizing and tracking activities"
      |> pushFeatures
           ["Task creation and management"; "Priority settings";
            "Progress tracking"]
  else if includes projectName "ecommerce" || includes projectName "shop" ||
          includes allDeps "stripe" then
    a |> setMainPurpose
           "An e-commerce platform for online shopping and sales"
      |> pushFeatures
           ["Product catalog"; "Shopping cart"; "Payment processing";
            "Order management"]
  else if includes projectName "blog" || includes allDeps "contentful" then
    a |> setMainPurpose
           "A content management system for publishing and managing articles"
      |> pushFeatures
           ["Content creation"; "Publishing system"; "SEO optimization"]
  else if includes projectName "chat" || includes projectName "message" ||
          includes allDeps "socket.io" then
    a |> setMainPurpose
           "A real-time communication platform for messaging and collaboration"
      |> pushFeatures
           ["Real-time messaging"; "User presence"; "Message history"]
  else a.

(** Technology-specific additions. *)
Definition addTechnologies (allDeps fileTypes : string)
    (a : ProjectAnalysis) : ProjectAnalysis :=
  let a :=
    if includes allDeps "typescript" || includes fileTypes ".ts" ||
       includes fileTypes ".tsx" then
      a |> pushTechnologies ["TypeScript"]
        |> pushFeatures ["Type safety"; "Enhanced development experience"]
    else a in
  let a :=
    if includes allDeps "tailwind" then
      a |> pushTechnologies ["Tailwind CSS"]
        |> pushFeatures ["Utility-first styling"; "Responsive design system"]
    else a in
  let a :=
    if includes allDeps "prisma" || includes allDeps "mongoose" ||
       includes allDeps "sequelize" then
      a |> pushTechnologies ["Database ORM"]
        |> pushFeatures ["Database integration"; "Data modeling"]
    else a in
  let a :=
    if includes allDeps "jest" || includes allDeps "vitest" ||
       includes allDeps "cypress" then
      a |> pushTechnologies ["Testing Framework"]
        |> pushFeatures ["Automated testing"; "Quality assurance"]
    else a in
  a.

(** Architecture detection. *)
Definition detectArchitecture (a : ProjectAnalysis) : ProjectAnalysis :=
  let projectStructure := projectStructure a in
  if includes projectStructure "components" &&
     includes projectStructure "hooks" then
    a |> setArchitectureNotes
           "Modern component-based architecture with custom hooks"
  else if includes projectStructure "controllers" &&
          includes projectStructure "models" then
    a |> setArchitectureNotes
           "MVC (Model-View-Controller) architecture pattern"
  else if includes projectStructure "services" &&
          includes projectStructure "utils" then
    a |> setArchitectureNotes
           "Service-oriented architecture with utility functions"
  else a.

Definition depsOf (projectInfo : ProjectInfo) : string :=
  toLowerCase (join " " (dependencies projectInfo)).

Definition devDepsOf (projectInfo : ProjectInfo) : string :=
  toLowerCase (join " " (devDependencies projectInfo)).

Definition allDepsOf (projectInfo : ProjectInfo) : string :=
  depsOf projectInfo ++ " " ++ devDepsOf projectInfo.

Definition scriptsOf (projectInfo : ProjectInfo) : string :=
  toLowerCase (join " " (scripts projectInfo)).

Definition fileTypesOf (projectInfo : ProjectInfo) : string :=
  join " " (fileTypes projectInfo).

Definition projectNameOf (projectInfo : ProjectInfo) : string :=
  toLowerCase (name projectInfo).

Definition initialAnalysis (projectStructure : string) : ProjectAnalysis :=
  {| projectType := "Application";
     mainPurpose := "A modern software application";
     keyTechnologies := [];
     frameworkDetails := EmptyString;
     specialFeatures := [];
     architectureNotes := EmptyString;
     deploymentHints := EmptyString;
     projectStructure := projectStructure |}.

Definition performDeepProjectAnalysis (projectInfo : ProjectInfo)
    (fs : Workspace) : ProjectAnalysis :=
  let allDeps := allDepsOf projectInfo in
  let scripts := scriptsOf projectInfo in
  let fileTypes := fileTypesOf projectInfo in
  let projectName := projectNameOf projectInfo in
  let projectStructure := analyzeProjectStructure fs in
  initialAnalysis projectStructure
    |> detectProjectType allDeps scripts fileTypes
    |> detectByName projectName allDeps
    |> addTechnologies allDeps fileTypes
    |> detectArchitecture.

(** *** The request loop of [generateReadme] *)

(** [v?.[0]] *)
Definition optIndex0 (v : json) : json :=
  match v with
  | JArr (first :: _) => first
  | JStr (String c _) => JStr (String c EmptyString)
  | JObj _ => prop v "0"
  | _ => JUndefined
  end.

(** [data?.choices?.[0]?.message?.content] *)
Definition contentOf (data : json) : json :=
  optProp (optProp (optIndex0 (optProp data "choices")) "message") "content".

(** [response.ok] *)
Definition ok (status : nat) : bool :=
  ((200 <=? status) && (status <=? 299))%nat.

(** The body of the [try] block for one model. *)
Definition tryModel (response : Fetched) : step string :=
  match response with
  | Rejected message => Throw message
  | Responded status text data =>
      if negb (ok status) then
        match text with
        | inr message => Throw message
        | inl errorText =>
            if (status =? 401)%nat then
              Throw "Invalid API key. Please check your Groq API key."
            else if (status =? 429)%nat then
              Throw "Rate limit exceeded. Please try again later."
            else Continue
        end
      else
        match data with
        | None => Continue
        | Some data =>
            match contentOf data with
            | JStr readme =>
                if (readme =? "") ||
                   (utf16Length (trim readme) <? 1000)%nat
                then Continue
                else Return (trim readme)
            | readme =>
                if jsTruthy readme then Throw "readme.trim is not a function"
                else Continue
            end
        end
  end.

(** The [for] loop over the models to try, with its [catch] block.  The
    first component lists the models that were requested, in order. *)
Fixpoint tryModels (fetch : string -> Fetched) (modelsToTry : list string)
    : list string * result :=
  match modelsToTry with
  | [] =>
      ([], Thrown "All AI models failed. Check your API key and try again.")
  | model :: rest =>
      let next := tryModels fetch rest in
      match tryModel (fetch model) with
      | Return readme => ([model], Returned readme)
      | Continue => (model :: fst next, snd next)
      | Throw errorMessage =>
          if includes errorMessage "Invalid API key" ||
             includes errorMessage "rate limit"
          then ([model], Thrown errorMessage)
          else (model :: fst next, snd next)
      end
  end.

Definition modelsToTry (config : Config) : list string :=
  let preferredModel := getPreferredModel config in
  preferredModel :: filter (fun m => negb (m =? preferredModel)) models.

Definition generateReadme (config : Config) (fetch : Request -> Fetched)
    (projectInfo : ProjectInfo) (fs : Workspace) : list string * result :=
  match getGroqApiKey config with
  | None | Some EmptyString =>
      ([], Thrown "No API key configured. Please set your Groq API key.")
  | Some (String _ _) =>
      let analysis := performDeepProjectAnalysis projectInfo fs in
      tryModels (fun model => fetch (mkRequest model projectInfo analysis))
        (modelsToTry config)
  end.

End GroqService.

(* ================================================================== *)
(** ** extension.ts *)

(** What [generateWithAI] leaves behind: what it showed, the settings,
    and the document it resolves to or the message of the error it
    throws. *)
Record Generated : Type := mkGenerated {
  shownMeanwhile : list Shown;
  settingsAfter : Config;
  document : string + string
}.

(** [generateWithAI].  The template is generated after the key management
    dialog has come to its end. *)
Definition generateWithAI (upperCase lowerCase : string -> string)
    (localeCompare : string -> string -> comparison)
    (updateError : option string) (manageAnswers : ManageAnswers)
    (config : Config) (fetch : Request -> Fetched)
    (projectInfo : ProjectInfo) (fs : Workspace) : Generated :=
  match snd (GroqService.generateReadme config fetch projectInfo fs) with
  | Returned readme => mkGenerated [] config (inl readme)
  | Thrown errorMessage =>
      let template :=
        TemplateService.generateReadme upperCase lowerCase localeCompare
          projectInfo fs in
      if includes errorMessage "Invalid API key" then
        let warning :=
          ShowWarningMessage "❌ Invalid API key. Using templates instead." in
        match manageApiKey updateError manageAnswers config with
        | inl (config', shown) =>
            mkGenerated (warning :: shown) config' (inl template)
        | inr message => mkGenerated [warning] config (inr message)
        end
      else if includes errorMessage "rate limit" then
        mkGenerated
          [ShowWarningMessage
             "⚠️ Rate limit exceeded. Using templates instead."]
          config (inl template)
      else
        mkGenerated
          [ShowWarningMessage
             ("AI generation failed: " ++ errorMessage ++
              ". Using templates.")]
          config (inl template)
  end.

(* ================================================================== *)
(** ** Definitions used to state the properties *)

(** One alternative of the name and keyword detection, as a table row:
    when it fires (on the lowercased project name and the dependency
    text), the purpose it sets and the features it appends. *)
Record OverlayRule : Type := mkOverlayRule {
  trigger : string -> string -> bool;
  purpose : string;
  features : list string
}.

Definition weatherRule : OverlayRule :=
  {| trigger := fun projectName allDeps =>
       includes projectName "weather" || includes projectName "klimate" ||
       includes allDeps "weather";
     purpose :=
       "A comprehensive weather application providing real-time weather data and forecasts";
     features :=
       ["Real-time weather data"; "Location services"; "Weather forecasts";
        "Interactive charts"] |}.

Definition taskRule : OverlayRule :=
  {| trigger := fun projectName _ =>
       includes projectName "todo" || includes projectName "task";
     purpose :=
       "A task management application for organizing and tracking activities";
     features :=
       ["Task creation and management"; "Priority settings";
        "Progress tracking"] |}.

Definition shopRule : OverlayRule :=
  {| trigger := fun projectName allDeps =>
       includes projectName "ecommerce" || includes projectName "shop" ||
       includes allDeps "stripe";
     purpose := "An e-commerce platform for online shopping and sales";
     features :=
       ["Product catalog"; "Shopping cart"; "Payment processing";
        "Order management"] |}.

Definition blogRule : OverlayRule :=
  {| trigger := fun projectName allDeps =>
       includes projectName "blog" || includes allDeps "contentful";
     purpose :=
       "A content management system for publishing and managing articles";
     features :=
       ["Content creation"; "Publishing system"; "SEO optimization"] |}.

Definition chatRule : OverlayRule :=
  {| trigger := fun projectName allDeps =>
       includes projectName "chat" || includes projectName "message" ||
       includes allDeps "socket.io";
     purpose :=
       "A real-time communication platform for messaging and collaboration";
     features :=
       ["Real-time messaging"; "User presence"; "Message history"] |}.

Definition overlayRules : list OverlayRule :=
  [weatherRule; taskRule; shopRule; blogRule; chatRule].

(** The rule that the overlay applies to a project: the first one, in the
    listed order, whose trigger fires. *)
Definition firstOverlay (projectInfo : ProjectInfo) : option OverlayRule :=
  find (fun rule =>
          trigger rule (GroqService.projectNameOf projectInfo)
            (GroqService.allDepsOf projectInfo))
    overlayRules.

(** The last rule, in the listed order, whose trigger fires. *)
Definition lastOverlay (projectInfo : ProjectInfo) : option OverlayRule :=
  find (fun rule =>
          trigger rule (GroqService.projectNameOf projectInfo)
            (GroqService.allDepsOf projectInfo))
    (rev overlayRules).

(** The analysis as it stands when the category has been fixed, before
    the name and keyword detection runs. *)
Definition categoryAnalysis (projectInfo : ProjectInfo) (fs : Workspace)
    : ProjectAnalysis :=
  GroqService.detectProjectType
    (GroqService.allDepsOf projectInfo) (GroqService.scriptsOf projectInfo)
    (GroqService.fileTypesOf projectInfo)
    (GroqService.initialAnalysis (GroqService.analyzeProjectStructure fs)).

(** The features that the technology-specific additions append. *)
Definition technologyFeatures (projectInfo : ProjectInfo) : list string :=
  let allDeps := GroqService.allDepsOf projectInfo in
  let fileTypes := GroqService.fileTypesOf projectInfo in
  ((if includes allDeps "typescript" || includes fileTypes ".ts" ||
       includes fileTypes ".tsx"
    then ["Type safety"; "Enhanced development experience"] else []) ++
   (if includes allDeps "tailwind"
    then ["Utility-first styling"; "Responsive design system"] else []) ++
   (if includes allDeps "prisma" || includes allDeps "mongoose" ||
       includes allDeps "sequelize"
    then ["Database integration"; "Data modeling"] else []) ++
   (if includes allDeps "jest" || includes allDeps "vitest" ||
       includes allDeps "cypress"
    then ["Automated testing"; "Quality assurance"] else []))%list.

(** Rules 1 to 7 of the category cascade: some backend, React, Vue.js,
    Angular, mobile, desktop or Python signal is present. *)
Definition categorySignal (projectInfo : ProjectInfo) : bool :=
  let allDeps := GroqService.allDepsOf projectInfo in
  let scripts := GroqService.scriptsOf projectInfo in
  let fileTypes := GroqService.fileTypesOf projectInfo in
  (includes allDeps "express" || includes allDeps "fastify" ||
   includes allDeps "koa" || includes allDeps "nestjs" ||
   includes fileTypes "controller" || includes scripts "start") ||
  includes allDeps "react" ||
  includes allDeps "vue" ||
  (includes allDeps "angular" || includes allDeps "@angular") ||
  (includes allDeps "react-native" || includes allDeps "expo") ||
  includes allDeps "electron" ||
  (includes fileTypes ".py" || includes allDeps "django" ||
   includes allDeps "flask").

(** The signals that [detectFramework] looks for before it falls back. *)
Definition frameworkSignal (deps devDeps fileTypes : list string) : bool :=
  let deps := (deps ++ devDeps)%list in
  someIncludes deps "next" || someIncludes deps "nuxt" ||
  someIncludes deps "react" || someIncludes deps "vue" ||
  someIncludes deps "angular" || someIncludes deps "express" ||
  someIncludes deps "nestjs" || arrayIncludes fileTypes ".py".

(** A directory tree cut below [k] levels of entries: the directories at
    level [k] keep their names and lose their contents. *)
Fixpoint prune (k : nat) (d : dir) : dir :=
  match k with
  | O => Unreadable
  | S k' =>
      match d with
      | Unreadable => Unreadable
      | Listing files =>
          Listing
            (map (fun e =>
                    match e with
                    | Dir n sub => Dir n (prune k' sub)
                    | _ => e
                    end)
               files)
      end
  end.

(** The body of a successful reply whose message has the given content. *)
Definition replyWith (content : string) : json :=
  JObj [("choices",
         JArr [JObj [("message",
                      JObj [("role", JStr "assistant");
                            ("content", JStr content)]);
                     ("finish_reason", JStr "stop")]])].


(** Text of the ASCII range. *)
Fixpoint isAscii (s : string) : bool :=
  match s with
  | EmptyString => true
  | String c s' => (nat_of_ascii c <? 128)%nat && isAscii s'
  end.

(** On text of the ASCII range the case mapping of every host is the one
    of the letters of that range. *)
Definition asciiCase (upperCase lowerCase : string -> string) : Prop :=
  forall s, isAscii s = true ->
    upperCase s = toUpperCase s /\ lowerCase s = toLowerCase s.

(** The separators of a title in the ASCII range: hyphen, underscore,
    tab, line feed, vertical tab, form feed, carriage return, space. *)
Definition is_space (c : ascii) : bool :=
  let n := nat_of_ascii c in (((9 <=? n) && (n <=? 13)) || (n =? 32))%nat.

Definition titleSeparator (c : ascii) : bool :=
  Ascii.eqb c "-"%char || Ascii.eqb c "_"%char || is_space c.

(** A title of the ASCII range, character by character: a separator
    becomes a space, the first character of a word is upper-cased and the
    others are lower-cased.  [start] tells whether the next character
    begins a word. *)
Fixpoint titleCase (start : bool) (s : string) : string :=
  match s with
  | EmptyString => EmptyString
  | String c rest =>
      if titleSeparator c then String " "%char (titleCase true rest)
      else if start then String (upper_char c) (titleCase false rest)
      else String (lower_char c) (titleCase false rest)
  end.

(** The heading line of the templated document. *)
Definition headingLine (upperCase lowerCase : string -> string)
    (projectName : string) : string :=
  if startsWith projectName "#" then "# " ++ projectName
  else "# 🚀 " ++ capitalizeTitle upperCase lowerCase projectName.

(** [s] ends with [w]. *)
Definition endsWith (s w : string) : bool :=
  startsWith (reverse s) (reverse w).

(** A reply after which the loop goes on to the next model: its content
    is insufficient, or what it makes the [try] block throw is swallowed
    by the [catch] block. *)
Definition passedOver (response : Fetched) : bool :=
  match GroqService.tryModel response with
  | Return _ => false
  | Continue => true
  | Throw errorMessage =>
      negb (includes errorMessage "Invalid API key" ||
            includes errorMessage "rate limit")
  end.

(* ================================================================== *)
(** ** Further parts of the sources *)

(** *** extension.ts: one run of the command *)

Inductive GenerationChoice : Type :=
| ChooseAI
| ChooseTemplate.

(** The button chosen in the key setup dialog; dismissing the dialog is
    [UseTemplatesInstead], as in the [default] case of the source. *)
Inductive SetupChoice : Type :=
| GetFreeApiKey
| EnterApiKey
| UseTemplatesInstead.

(** What the user answers during one run: the generation method ([None]
    when the pick is dismissed), the button of the key setup dialog,
    whether the follow-up dialog is answered with the enter-key button,
    what is typed into the key box, the answers in the key management
    dialog, and whether an existing file may be overwritten. *)
Record Answers : Type := mkAnswers {
  generationChoice : option GenerationChoice;
  setupChoice : SetupChoice;
  followUpEnterKey : bool;
  typedKey : option string;
  manageAnswers : ManageAnswers;
  overwriteChoice : bool
}.

(** What one run leaves behind: the content written to [README.md], what
    was shown, the models requested, and the settings. *)
Record Outcome : Type := mkOutcome {
  written : option string;
  shown : list Shown;
  requested : list string;
  settings : Config
}.

Module Extension.

(** The [validateInput] callback of [promptAndSaveApiKey]. *)
Definition promptAndSaveApiKeyValidation (value : string) : option string :=
  if value =? "" then Some "API key is required"
  else if negb (startsWith value "gsk_") then
    Some ("Groq API keys start with " ++ dquote ++ "gsk_" ++ dquote)
  else if (utf16Length value <? 40)%nat then Some "API key seems too short"
  else None.

Definition promptAndSaveApiKey (updateError : option string)
    (config : Config) (typed : option string) : bool * Config * list Shown :=
  match showInputBox promptAndSaveApiKeyValidation typed with
  | Some (String _ _ as apiKey) =>
      match setGroqApiKey updateError apiKey config with
      | inl (config', shown) =>
          (true, config',
           (shown ++
            [ShowInformationMessage
               "🎉 API key saved! Generating AI-powered README..."])%list)
      | inr message =>
          (false, config,
           [ShowErrorMessage ("❌ Failed to save API key: Error: " ++ message)])
      end
  | _ => (false, config, [])
  end.

Definition showApiKeySetupDialog (updateError : option string)
    (config : Config) (answers : Answers) : bool * Config * list Shown :=
  match setupChoice answers with
  | GetFreeApiKey =>
      if followUpEnterKey answers then
        let '(saved, config', shown) :=
          promptAndSaveApiKey updateError config (typedKey answers) in
        (saved, config', OpenExternal "https://console.groq.com" :: shown)
      else (false, config, [OpenExternal "https://console.groq.com"])
  | EnterApiKey => promptAndSaveApiKey updateError config (typedKey answers)
  | UseTemplatesInstead => (false, config, [])
  end.

(** [saveAndOpenReadme]: [inl] holds what was written and shown, [inr] the
    message of the error that [writeFileSync] throws.  The buttons of the
    closing message are not followed. *)
Definition saveAndOpenReadme (fs : Workspace) (writeError : option string)
    (content method : string) (overwrite : bool)
    : (option string * list Shown) + string :=
  if existsSync fs "README.md" && negb overwrite then inl (None, [])
  else
    match writeError with
    | Some message => inr message
    | None =>
        inl (Some content,
             [ShowInformationMessage
                ("🎉 README.md generated successfully with " ++ method ++ "!")])
    end.

(** [generateReadme].  [workspaceFolder] is the path of the first
    workspace folder, if there is one; [writeError] is the message of the
    error that writing the file meets, if any, and [updateError] the one
    with which the settings store rejects a write, if it does.  The result
    is [None] when the analyzed project has a field that is not of the type
    the interface declares: the services are embedded at that type only. *)
Definition generateReadme (upperCase lowerCase : string -> string)
    (localeCompare : string -> string -> comparison)
    (workspaceFolder : option string) (fs : Workspace)
    (writeError updateError : option string) (config : Config)
    (fetch : Request -> Fetched) (answers : Answers) : option Outcome :=
  match workspaceFolder with
  | None =>
      Some (mkOutcome None
              [ShowErrorMessage
                 "🚨 Please open a project folder first to generate README."]
              [] config)
  | Some workspacePath =>
      match typed (analyzeProject workspacePath fs) with
      | None => None
      | Some projectInfo =>
          match generationChoice answers with
          | None => Some (mkOutcome None [] [] config)
          | Some generationChoice =>
              let template :=
                TemplateService.generateReadme upperCase lowerCase
                  localeCompare projectInfo fs in
              let withAI config shownSoFar :=
                let generated :=
                  generateWithAI upperCase lowerCase localeCompare
                    updateError (manageAnswers answers) config fetch
                    projectInfo fs in
                (document generated, "🤖 AI-Powered (Your API Key)",
                 (shownSoFar ++ shownMeanwhile generated)%list,
                 fst (GroqService.generateReadme config fetch projectInfo fs),
                 settingsAfter generated) in
              let '(readmeContent, generationMethod, shownSoFar, models,
                    config) :=
                match generationChoice with
                | ChooseAI =>
                    if negb (truthy (getGroqApiKey config)) ||
                       negb (hasValidApiKey config) then
                      let '(apiKeySet, config', shownInSetup) :=
                        showApiKeySetupDialog updateError config answers in
                      if negb apiKeySet then
                        (inl template, "📝 Smart Templates", shownInSetup,
                         [], config')
                      else withAI config' shownInSetup
                    else withAI config []
                | ChooseTemplate =>
                    (inl template, "📝 Smart Templates", [], [], config)
                end in
              let failed message :=
                Some (mkOutcome None
                        (shownSoFar ++
                         [ShowErrorMessage
                            ("Failed to generate README: Error: " ++
                             message)])%list
                        models config) in
              match readmeContent with
              | inr message => failed message
              | inl content =>
                  match
                    saveAndOpenReadme fs writeError content
                      generationMethod (overwriteChoice answers)
                  with
                  | inl (saved, shownAtEnd) =>
                      Some (mkOutcome saved (shownSoFar ++ shownAtEnd)%list
                              models config)
                  | inr message => failed message
                  end
              end
          end
      end
  end.

End Extension.

(* ================================================================== *)
(** ** Further definitions used to state properties *)

(** What a computation has reached, however it ended. *)
Definition reached {A : Type} (c : completion A) : A :=
  match c with
  | Normal a | Threw a => a
  end.

(** A tree without the entries that both scans pass over: those whose
    name starts with a dot and those named [node_modules], at every
    level. *)
Fixpoint visibleDir (d : dir) : dir :=
  match d with
  | Unreadable => Unreadable
  | Listing files =>
      Listing
        ((fix visible (files : list entry) : list entry :=
            match files with
            | [] => []
            | file :: rest =>
                if skipped (entryName file) then visible rest
                else
                  match file with
                  | Dir n sub => Dir n (visibleDir sub) :: visible rest
                  | _ => file :: visible rest
                  end
            end) files)
  end.

(** What the file-type scan promises about its accumulator. *)
Definition extensionSet (fileTypes : list string) : Prop :=
  NoDup fileTypes /\
  Forall (fun ext => startsWith ext "." = true) fileTypes.

(** An object, as opposed to the other values a manifest can parse to. *)
Definition isObject (v : json) : bool :=
  match v with
  | JObj _ => true
  | _ => false
  end.

(** The labels that [detectFramework] can answer. *)
Definition frameworkLabels : list string :=
  [ "Next.js"; "Nuxt.js"; "React"; "Vue.js"; "Angular"; "Express.js";
    "NestJS"; "Python"; "Node.js"; "Software" ].

(** No slash occurs in the text. *)
Definition slashFree (s : string) : bool := untilSlash s =? s.

(** The first alternative of the category cascade. *)
Definition backendSignal (projectInfo : ProjectInfo) : bool :=
  let allDeps := GroqService.allDepsOf projectInfo in
  includes allDeps "express" || includes allDeps "fastify" ||
  includes allDeps "koa" || includes allDeps "nestjs" ||
  includes (GroqService.fileTypesOf projectInfo) "controller" ||
  includes (GroqService.scriptsOf projectInfo) "start".

(** The categories that the deep analysis can answer. *)
Definition projectTypes : list string :=
  [ "Application"; "Backend API"; "React Application"; "Next.js Application";
    "Vue.js Application"; "Angular Application"; "React Native Mobile App";
    "Desktop Application"; "Python Application" ].

(** The fields of an analysis that do not describe the directory tree. *)
Definition classification (a : ProjectAnalysis)
    : string * string * list string * string * list string * string :=
  (projectType a, mainPurpose a, keyTechnologies a, frameworkDetails a,
   specialFeatures a, deploymentHints a).

(** Directories come first: once an entry that is not a directory has
    been seen, no directory follows. *)
Fixpoint directoriesFirst (files : list entry) : bool :=
  match files with
  | [] => true
  | file :: rest =>
      if isDirectory file then directoriesFirst rest
      else forallb (fun f => negb (isDirectory f)) rest
  end.

(** One step of [prune]: an entry whose directory content is cut below
    [k] levels. *)
Definition pruneEntry (k : nat) (e : entry) : entry :=
  match e with
  | Dir n sub => Dir n (prune k sub)
  | _ => e
  end.

(** The items that the tree of the prompt shows for a listing. *)
Definition shownItems (items : list entry) : list entry :=
  firstn 15
    (filter (fun item =>
               negb (startsWith (entryName item) ".") &&
               negb (entryName item =? "node_modules") &&
               negb (entryName item =? "dist") &&
               negb (entryName item =? "build") &&
               negb (entryName item =? "coverage"))
       items).

(** The answers of a user who dismisses the key management dialog. *)
Definition noManagement : ManageAnswers :=
  {| managePick := None; typedNewKey := None; removeConfirmed := false;
     testFetched := TestThrown None; modelPick := None |}.

(** The answers of a user who removes the key in the key management
    dialog and confirms. *)
Definition removingTheKey : ManageAnswers :=
  {| managePick := Some "🗑️ Remove API Key"; typedNewKey := None;
     removeConfirmed := true; testFetched := TestThrown None;
     modelPick := None |}.

(** The answers of a user who picks a method, declines the key setup and
    answers the overwrite question as given. *)
Definition answersWith (choice : option GenerationChoice) (overwrite : bool)
    : Answers :=
  {| generationChoice := choice; setupChoice := UseTemplatesInstead;
     followUpEnterKey := false; typedKey := None;
     manageAnswers := noManagement; overwriteChoice := overwrite |}.

(** The same, with the given answers in the key management dialog. *)
Definition answersAfter (choice : option GenerationChoice)
    (management : ManageAnswers) (overwrite : bool) : Answers :=
  {| generationChoice := choice; setupChoice := UseTemplatesInstead;
     followUpEnterKey := false; typedKey := None;
     manageAnswers := management; overwriteChoice := overwrite |}.

(** A workspace without manifest in which [README.md] exists already. *)
Definition workspaceWithReadme : Workspace :=
  {| listing := Listing [File "README.md"; File "index.js"];
     existsSync := fun file => file =? "README.md";
     packageJson := None |}.

(* ================================================================== *)
(** ** Sample inputs and auxiliary definitions *)

(** A workspace with nothing in it. *)
Definition emptyWorkspace : Workspace :=
  {| listing := Listing []; existsSync := fun _ => false;
     packageJson := None |}.

(** A project with the given name and dependencies and nothing else. *)
Definition projectNamed (n : string) (deps : list string) : ProjectInfo :=
  {| name := n; description := None; dependencies := deps;
     devDependencies := []; scripts := []; fileTypes := [];
     hasTests := false; license := None; repository := None;
     framework := None; workspacePath := "/work/" ++ n;
     version := None; author := None; homepage := None |}.

(** [src/app/views] holds a directory at depth 3 whose content differs. *)
Definition deepTree (inside : list entry) : dir :=
  Listing
    [ File "index.js";
      Dir "src" (Listing [ Dir "app" (Listing [ Dir "views" (Listing inside) ]) ]) ].

(** [lib/core] holds files at depth 3. *)
Definition shallowTree (inside : list entry) : dir :=
  Listing [ Dir "lib" (Listing [ Dir "core" (Listing inside) ]) ].

(** A workspace whose manifest, if any, is the given one. *)
Definition workspaceWith (present : bool) (manifest : option json) : Workspace :=
  {| listing := Listing [File "index.js"];
     existsSync := fun file => present && (file =? "package.json");
     packageJson := manifest |}.

(** Text without a byte of the ASCII range. *)
Fixpoint beyondAscii (s : string) : bool :=
  match s with
  | EmptyString => true
  | String c s' => (128 <=? nat_of_ascii c)%nat && beyondAscii s'
  end.

(** A table of characters of one to three bytes. *)
Definition shaped (table : list string) : Prop :=
  forall w, In w table -> 1 <= String.length w <= 3.

(** What follows the first word in a joined title. *)
Definition joinRest (capitalize : string -> string) (words : list string)
    : string :=
  match words with
  | [] => EmptyString
  | _ :: _ => " " ++ join " " (map capitalize words)
  end.


(** The messages of the errors that [generateReadme] throws. *)
Definition authMessage : string :=
  "Invalid API key. Please check your Groq API key.".

Definition rateLimitMessage : string :=
  "Rate limit exceeded. Please try again later.".

Definition exhaustedMessage : string :=
  "All AI models failed. Check your API key and try again.".

(** Sample settings and replies. *)
Definition sampleConfig : Config :=
  {| groqApiKey := Some ("gsk_" ++ repeatString "k" 48);
     preferredModel := None |}.

(** A content of the given length, without blanks. *)
Definition sampleReadme (length : nat) : string :=
  repeatString "x" length.

(** A successful reply with the given content. *)
Definition okReply (content : string) : Fetched :=
  Responded 200 (inl EmptyString) (Some (replyWith content)).

(** The service answers the first model with [first] and every other model
    with [other]. *)
Definition firstThen (first other : Fetched) (request : Request) : Fetched :=
  if req_model request =? "moonshotai/kimi-k2-instruct" then first else other.

(** Settings without a key. *)
Definition noKeyConfig : Config :=
  {| groqApiKey := None; preferredModel := None |}.

(** Closed facts, one after the other, by evaluation. *)
Ltac evaluate :=
  cbv zeta;
  repeat match goal with |- _ /\ _ => split end;
  vm_compute; reflexivity.

Ltac case_if :=
  match goal with
  | |- context [if ?c then _ else _] => destruct c eqn:?
  end.

(* ================================================================== *)
(** ** Properties of the string primitives *)

Lemma prefix_app (p s : string) : String.prefix p (p ++ s) = true.
Proof.
  induction p as [|c p IH]; simpl.
  - now destruct s.
  - destruct (ascii_dec c c) as [_|ne]; [exact IH | now elim ne].
Qed.

Lemma prefix_split (p s : string) :
  String.prefix p s = true -> exists t, s = p ++ t.
Proof.
  revert s; induction p as [|c p IH]; intros s H.
  - now exists s.
  - destruct s as [|d s]; simpl in H; [discriminate|].
    destruct (ascii_dec c d) as [->|]; [|discriminate].
    destruct (IH _ H) as [t ->]. now exists t.
Qed.

Lemma includes_unfold (s p : string) :
  includes s p =
  String.prefix p s ||
  match s with
  | EmptyString => false
  | String _ s' => includes s' p
  end.
Proof. destruct s; reflexivity. Qed.

Lemma includes_here (s p : string) :
  String.prefix p s = true -> includes s p = true.
Proof. intros H; rewrite includes_unfold, H; reflexivity. Qed.

Lemma includes_tail (c : ascii) (s p : string) :
  includes s p = true -> includes (String c s) p = true.
Proof. intros H; rewrite includes_unfold, H; apply orb_true_r. Qed.

Lemma includes_app (a p b : string) : includes (a ++ p ++ b) p = true.
Proof.
  induction a as [|c a IH].
  - apply includes_here. exact (prefix_app p b).
  - apply includes_tail, IH.
Qed.

Lemma includes_split (s p : string) :
  includes s p = true -> exists a b, s = a ++ p ++ b.
Proof.
  induction s as [|c s IH]; rewrite includes_unfold; intros H.
  - rewrite orb_false_r in H. destruct (prefix_split _ _ H) as [t ->].
    now exists EmptyString, t.
  - apply orb_true_iff in H as [H|H].
    + destruct (prefix_split _ _ H) as [t ->]. now exists EmptyString, t.
    + destruct (IH H) as (a & b & ->). now exists (String c a), b.
Qed.

Lemma append_assoc (a b c : string) : (a ++ b) ++ c = a ++ (b ++ c).
Proof. induction a as [|x a IH]; simpl; [reflexivity | now rewrite IH]. Qed.

Lemma includes_app_l (a b p : string) :
  includes a p = true -> includes (a ++ b) p = true.
Proof.
  intros H; destruct (includes_split _ _ H) as (x & y & ->).
  rewrite !append_assoc. apply includes_app.
Qed.

Lemma includes_app_r (a b p : string) :
  includes b p = true -> includes (a ++ b) p = true.
Proof.
  intros H; induction a as [|c a IH]; [exact H|].
  apply includes_tail, IH.
Qed.

(** *** White space, [trim] and [length] *)

Lemma append_nil_r (s : string) : s ++ "" = s.
Proof. induction s as [|c s IH]; simpl; [reflexivity | now rewrite IH]. Qed.

Lemma prefix_nil (s : string) : String.prefix "" s = true.
Proof. now destruct s. Qed.

Lemma leads_prefix (w s : string) : leads w s = String.prefix w s.
Proof.
  revert s; induction w as [|a w IH]; intros s.
  - now rewrite prefix_nil.
  - destruct s as [|c s]; [reflexivity|]. simpl.
    destruct (ascii_dec a c) as [->|ne].
    + now rewrite Ascii.eqb_refl, IH.
    + apply Ascii.eqb_neq in ne. now rewrite ne.
Qed.

Lemma leads_app (w s t : string) :
  leads w s = true -> leads w (s ++ t) = true.
Proof.
  rewrite !leads_prefix. intros H.
  destruct (prefix_split _ _ H) as [r ->].
  rewrite append_assoc. apply prefix_app.
Qed.

Lemma leads_length (w s : string) :
  leads w s = true -> String.length w <= String.length s.
Proof.
  revert s; induction w as [|a w IH]; intros s H; simpl; [lia|].
  destruct s as [|c s]; [discriminate|]. simpl in *.
  apply andb_true_iff in H as [_ H]. apply IH in H. lia.
Qed.

Lemma widthOf_length (table : list string) (s : string) :
  widthOf table s <= String.length s.
Proof.
  unfold widthOf. destruct (find _ table) as [w|] eqn:E; [|lia].
  apply find_some in E as [_ E]. now apply leads_length.
Qed.

Lemma widthOf_zero (table : list string) (s : string) :
  shaped table ->
  widthOf table s = 0 <-> forall w, In w table -> leads w s = false.
Proof.
  intros Hs. unfold widthOf. destruct (find _ table) as [w|] eqn:E.
  - apply find_some in E as [Hin E]. pose proof (Hs w Hin) as Hl. split.
    + lia.
    + intros H. rewrite (H w Hin) in E. discriminate.
  - split; [|reflexivity]. intros _ w Hin.
    exact (find_none _ _ E w Hin).
Qed.

Lemma stripLeading_cons (table : list string) (c : ascii) (s1 : string) :
  stripLeading table (String c s1) =
  match widthOf table (String c s1), s1 with
  | 0, _ => String c s1
  | 1, _ => stripLeading table s1
  | 2, String _ s2 => stripLeading table s2
  | S (S (S _)), String _ (String _ s3) => stripLeading table s3
  | _, _ => String c s1
  end.
Proof. reflexivity. Qed.

Lemma stripLeading_clean (table : list string) (s : string) :
  widthOf table (stripLeading table s) = 0.
Proof.
  remember (String.length s) as n eqn:En.
  assert (Hn : String.length s <= n) by lia. clear En.
  revert s Hn. induction n as [|n IH]; intros s Hn.
  - destruct s; [|simpl in Hn; lia].
    pose proof (widthOf_length table ""). simpl in *. lia.
  - destruct s as [|c s1].
    { pose proof (widthOf_length table ""). simpl in *. lia. }
    rewrite stripLeading_cons.
    pose proof (widthOf_length table (String c s1)) as Hw.
    destruct (widthOf table (String c s1)) as [|[|[|k]]] eqn:E.
    + exact E.
    + apply IH. simpl in Hn. lia.
    + destruct s1 as [|c2 s2]; [simpl in Hw; lia|].
      apply IH. simpl in Hn. lia.
    + destruct s1 as [|c2 [|c3 s3]]; try (simpl in Hw; lia).
      apply IH. simpl in Hn. lia.
Qed.

Lemma stripLeading_fixed (table : list string) (s : string) :
  widthOf table s = 0 -> stripLeading table s = s.
Proof.
  destruct s as [|c s1]; [reflexivity|].
  intros H. now rewrite stripLeading_cons, H.
Qed.

Lemma stripLeading_suffix (table : list string) (s : string) :
  exists p, s = p ++ stripLeading table s.
Proof.
  remember (String.length s) as n eqn:En.
  assert (Hn : String.length s <= n) by lia. clear En.
  revert s Hn. induction n as [|n IH]; intros s Hn.
  - destruct s; [now exists ""|simpl in Hn; lia].
  - destruct s as [|c s1]; [now exists ""|].
    rewrite stripLeading_cons.
    destruct (widthOf table (String c s1)) as [|[|[|k]]].
    + now exists "".
    + destruct (IH s1) as [p E]; [simpl in Hn; lia|].
      exists (String c p). simpl. now rewrite <- E.
    + destruct s1 as [|c2 s2]; [now exists ""|].
      destruct (IH s2) as [p E]; [simpl in Hn; lia|].
      exists (String c (String c2 p)). simpl. now rewrite <- E.
    + destruct s1 as [|c2 [|c3 s3]]; try now exists "".
      destruct (IH s3) as [p E]; [simpl in Hn; lia|].
      exists (String c (String c2 (String c3 p))). simpl. now rewrite <- E.
Qed.

Lemma list_ascii_app (a b : string) :
  list_ascii_of_string (a ++ b)
  = (list_ascii_of_string a ++ list_ascii_of_string b)%list.
Proof. induction a as [|c a IH]; simpl; [reflexivity | now rewrite IH]. Qed.

Lemma string_of_list_app (a b : list ascii) :
  string_of_list_ascii (a ++ b)%list
  = string_of_list_ascii a ++ string_of_list_ascii b.
Proof. induction a as [|c a IH]; simpl; [reflexivity | now rewrite IH]. Qed.

Lemma reverse_involutive (s : string) : reverse (reverse s) = s.
Proof.
  unfold reverse.
  now rewrite list_ascii_of_string_of_list_ascii, rev_involutive,
    string_of_list_ascii_of_string.
Qed.

Lemma reverse_app (a b : string) : reverse (a ++ b) = reverse b ++ reverse a.
Proof.
  unfold reverse. now rewrite list_ascii_app, rev_app_distr, string_of_list_app.
Qed.

Lemma reverse_length (s : string) :
  String.length (reverse s) = String.length s.
Proof.
  unfold reverse.
  rewrite <- (string_of_list_ascii_of_string s) at 2.
  generalize (list_ascii_of_string s) as l. intros l.
  assert (H : forall l, String.length (string_of_list_ascii l) = List.length l)
    by (intros k; induction k as [|c k IH]; simpl; [reflexivity | now rewrite IH]).
  now rewrite !H, length_rev.
Qed.


Lemma whiteSpace_shaped : shaped whiteSpace.
Proof.
  intros w H. unfold whiteSpace in H. simpl in H.
  repeat (destruct H as [<-|H]; [vm_compute; lia|]). destruct H.
Qed.

Lemma whiteSpace_reversed_shaped : shaped (map reverse whiteSpace).
Proof.
  intros w H. apply in_map_iff in H as (v & <- & H).
  rewrite reverse_length. now apply whiteSpace_shaped.
Qed.


Lemma trimEnd_prefix (s : string) : exists q, s = trimEnd s ++ q.
Proof.
  unfold trimEnd.
  destruct (stripLeading_suffix (map reverse whiteSpace) (reverse s)) as [p E].
  exists (reverse p).
  rewrite <- reverse_app, <- E. symmetry. apply reverse_involutive.
Qed.


(** Trimmed text begins and ends with no white space. *)
Lemma trim_begins (s w : string) :
  In w whiteSpace -> leads w (trim s) = false.
Proof.
  intros Hw. unfold trim.
  destruct (trimEnd_prefix (trimStart s)) as [q Eq].
  destruct (leads w (trimEnd (trimStart s))) eqn:E; [|reflexivity].
  apply (leads_app _ _ q) in E. rewrite <- Eq in E.
  pose proof (stripLeading_clean whiteSpace s) as Hc.
  pose proof (proj1 (widthOf_zero _ _ whiteSpace_shaped) Hc) as Hz.
  unfold trimStart in E. now rewrite (Hz w Hw) in E.
Qed.

Lemma trim_ends (s w : string) :
  In w whiteSpace -> leads (reverse w) (reverse (trim s)) = false.
Proof.
  intros Hw. unfold trim, trimEnd. rewrite reverse_involutive.
  pose proof (stripLeading_clean (map reverse whiteSpace)
                (reverse (trimStart s))) as Hc.
  apply (proj1 (widthOf_zero _ _ whiteSpace_reversed_shaped) Hc).
  now apply in_map.
Qed.

Lemma trim_idempotent (s : string) : trim (trim s) = trim s.
Proof.
  assert (Hs : trimStart (trim s) = trim s).
  { apply stripLeading_fixed, (proj2 (widthOf_zero _ _ whiteSpace_shaped)).
    intros w Hw. now apply trim_begins. }
  unfold trim at 1. rewrite Hs. unfold trimEnd at 1.
  rewrite stripLeading_fixed; [apply reverse_involutive|].
  apply (proj2 (widthOf_zero _ _ whiteSpace_reversed_shaped)).
  intros w Hw. apply in_map_iff in Hw as (v & <- & Hv). now apply trim_ends.
Qed.

(** *** Lower case *)

Lemma eqb_beyond (p c : ascii) :
  (128 <=? nat_of_ascii p)%nat = true ->
  (nat_of_ascii c <? 128)%nat = true ->
  Ascii.eqb p c = false.
Proof.
  intros Hp Hc. destruct (Ascii.eqb p c) eqn:E; [|reflexivity].
  apply Ascii.eqb_eq in E. subst p.
  apply Nat.leb_le in Hp. apply Nat.ltb_lt in Hc. lia.
Qed.

(** A character beyond the ASCII range does not reach over a byte of that
    range. *)
Lemma leads_beyond (w a : string) (c : ascii) (b : string) :
  beyondAscii w = true ->
  (nat_of_ascii c <? 128)%nat = true ->
  leads w (a ++ String c b) = leads w a.
Proof.
  intros Hw Hc. revert a Hw. induction w as [|p w IH]; intros a Hw.
  - now destruct a.
  - simpl in Hw. apply andb_true_iff in Hw as [Hp Hw].
    destruct a as [|x a]; simpl.
    + now rewrite (eqb_beyond p c Hp Hc).
    + now rewrite IH.
Qed.

Lemma leads_beyond_ascii (w : string) (c : ascii) (s : string) :
  beyondAscii w = true ->
  w <> EmptyString ->
  (nat_of_ascii c <? 128)%nat = true ->
  leads w (String c s) = false.
Proof.
  intros Hw Hn Hc. destruct w as [|p w]; [now elim Hn|].
  simpl in Hw. apply andb_true_iff in Hw as [Hp _].
  simpl. now rewrite (eqb_beyond p c Hp Hc).
Qed.

Lemma toLowerCase_unfold (c : ascii) (s1 : string) :
  toLowerCase (String c s1) =
  if leads dottedCapitalI (String c s1) then
    dottedSmallI ++ toLowerCase (dropString 1 s1)
  else if leads kelvinSign (String c s1) then
    String "k" (toLowerCase (dropString 2 s1))
  else String (lower_char c) (toLowerCase s1).
Proof.
  destruct s1 as [|c2 [|c3 s3]].
  - unfold dottedCapitalI, kelvinSign, bytes. simpl.
    now rewrite !andb_false_r.
  - unfold dottedCapitalI, kelvinSign, bytes. simpl.
    rewrite !andb_false_r.
    match goal with |- (if ?b then _ else _) = _ => now destruct b end.
  - reflexivity.
Qed.

Lemma toLowerCase_cons_ascii (c : ascii) (s : string) :
  (nat_of_ascii c <? 128)%nat = true ->
  toLowerCase (String c s) = String (lower_char c) (toLowerCase s).
Proof.
  intros Hc. rewrite toLowerCase_unfold.
  rewrite (leads_beyond_ascii dottedCapitalI c s eq_refl) by (discriminate || exact Hc).
  rewrite (leads_beyond_ascii kelvinSign c s eq_refl) by (discriminate || exact Hc).
  reflexivity.
Qed.

(** Text of the ASCII range is lower-cased letter by letter. *)
Lemma toLowerCase_ascii (s : string) :
  isAscii s = true -> toLowerCase s = map_string lower_char s.
Proof.
  induction s as [|c s IH]; intros H; [reflexivity|].
  simpl in H. apply andb_true_iff in H as [Hc Hs].
  rewrite (toLowerCase_cons_ascii c s Hc), (IH Hs). reflexivity.
Qed.

Lemma toLowerCase_app_l (a b : string) :
  isAscii a = true -> toLowerCase (a ++ b) = toLowerCase a ++ toLowerCase b.
Proof.
  induction a as [|c a IH]; intros H; [reflexivity|].
  simpl in H. apply andb_true_iff in H as [Hc Ha].
  change (String c a ++ b) with (String c (a ++ b)).
  rewrite !(toLowerCase_cons_ascii c _ Hc), (IH Ha). reflexivity.
Qed.

(** Lower-casing goes through a cut in front of a byte of the ASCII
    range. *)
Lemma toLowerCase_app (a : string) (c : ascii) (b : string) :
  (nat_of_ascii c <? 128)%nat = true ->
  toLowerCase (a ++ String c b)
  = toLowerCase a ++ toLowerCase (String c b).
Proof.
  intros Hc.
  remember (String.length a) as n eqn:En.
  assert (Hn : String.length a <= n) by lia. clear En.
  revert a Hn. induction n as [|n IH]; intros a Hn.
  { destruct a; [reflexivity | simpl in Hn; lia]. }
  destruct a as [|x a1]; [reflexivity|].
  change (String x a1 ++ String c b) with (String x (a1 ++ String c b)).
  rewrite (toLowerCase_unfold x (a1 ++ String c b)).
  rewrite (toLowerCase_unfold x a1).
  change (String x (a1 ++ String c b)) with (String x a1 ++ String c b).
  rewrite !(leads_beyond _ (String x a1) c b) by (reflexivity || exact Hc).
  simpl in Hn.
  destruct (leads dottedCapitalI (String x a1)) eqn:Ed.
  - destruct a1 as [|y a2];
      [unfold dottedCapitalI, bytes in Ed; simpl in Ed;
       rewrite ?andb_false_r in Ed; discriminate Ed|].
    change (dropString 1 (String y a2 ++ String c b)) with (a2 ++ String c b).
    change (dropString 1 (String y a2)) with a2.
    rewrite IH by (simpl in Hn; lia). now rewrite append_assoc.
  - destruct (leads kelvinSign (String x a1)) eqn:Ek.
    + destruct a1 as [|y [|z a3]];
        try (unfold kelvinSign, bytes in Ek; simpl in Ek;
             rewrite ?andb_false_r in Ek; discriminate Ek).
      change (dropString 2 (String y (String z a3) ++ String c b))
        with (a3 ++ String c b).
      change (dropString 2 (String y (String z a3))) with a3.
      rewrite IH by (simpl in Hn; lia). reflexivity.
    + rewrite IH by lia. reflexivity.
Qed.

Lemma includes_nil (s : string) : includes s EmptyString = true.
Proof. apply includes_here, prefix_nil. Qed.

(** A text of the ASCII range that occurs in a text occurs, lower-cased,
    in the lower-cased text. *)
Lemma includes_toLowerCase_ascii (s p : string) :
  isAscii p = true ->
  includes s p = true ->
  includes (toLowerCase s) (toLowerCase p) = true.
Proof.
  intros Hp H. destruct (includes_split _ _ H) as (x & y & ->).
  destruct p as [|c p']; [apply includes_nil|].
  pose proof Hp as Hp'. simpl in Hp'. apply andb_true_iff in Hp' as [Hc _].
  change (String c p' ++ y) with (String c (p' ++ y)).
  rewrite (toLowerCase_app x c (p' ++ y) Hc).
  change (String c (p' ++ y)) with (String c p' ++ y).
  rewrite (toLowerCase_app_l _ y Hp). apply includes_app.
Qed.

(** An element of an array, in the text joined with spaces: what stands
    before it ends with a space and what stands behind it begins with
    one. *)
Lemma join_In_spaced (d : string) (l : list string) :
  In d l ->
  exists a b,
    join " " l = a ++ d ++ b /\
    (a = EmptyString \/ exists a', a = a' ++ " ") /\
    (b = EmptyString \/ exists b', b = " " ++ b').
Proof.
  unfold join; induction l as [|x l IH]; intros H; [destruct H|].
  destruct H as [->|H].
  - destruct l as [|y l]; simpl.
    + exists EmptyString, EmptyString. rewrite append_nil_r.
      repeat split; now left.
    + exists EmptyString, (" " ++ String.concat " " (y :: l)).
      split; [reflexivity|]. split; [now left | right; now eexists].
  - destruct (IH H) as (a & b & E & Ha & Hb). destruct l as [|y l]; [destruct H|].
    simpl in *. rewrite E. exists (x ++ " " ++ a), b.
    split; [now rewrite !append_assoc|]. split; [|exact Hb].
    right. destruct Ha as [->|[a' ->]].
    + exists x. now rewrite append_nil_r.
    + exists (x ++ " " ++ a'). now rewrite !append_assoc.
Qed.

(** An element of an array shows up, lower-cased, in the lower-cased text
    joined with spaces. *)
Lemma toLowerCase_join (d : string) (l : list string) :
  In d l ->
  exists x y, toLowerCase (join " " l) = x ++ toLowerCase d ++ y.
Proof.
  intros H. destruct (join_In_spaced d l H) as (a & b & -> & Ha & Hb).
  assert (Hd : exists y, toLowerCase (d ++ b) = toLowerCase d ++ y).
  { destruct Hb as [->|[b' ->]].
    - exists EmptyString. now rewrite !append_nil_r.
    - exists (toLowerCase (" " ++ b')).
      exact (toLowerCase_app d " "%char b' eq_refl). }
  destruct Hd as [y Ey].
  destruct Ha as [->|[a' ->]].
  - exists EmptyString, y. exact Ey.
  - exists (toLowerCase a' ++ " "), y.
    rewrite !append_assoc.
    change (" " ++ d ++ b) with (String " "%char (d ++ b)).
    rewrite (toLowerCase_app a' " "%char (d ++ b) eq_refl).
    rewrite (toLowerCase_cons_ascii " "%char (d ++ b) eq_refl), Ey.
    reflexivity.
Qed.

(** A dependency whose name is already lowercase shows up in the text
    that the classifier searches. *)
Lemma allDeps_includes (projectInfo : ProjectInfo) (d : string) :
  toLowerCase d = d ->
  In d (dependencies projectInfo) ->
  includes (GroqService.allDepsOf projectInfo) d = true.
Proof.
  intros Hd Hin. unfold GroqService.allDepsOf, GroqService.depsOf.
  destruct (toLowerCase_join d _ Hin) as (a & b & ->).
  rewrite Hd, !append_assoc. apply includes_app.
Qed.

Example toLowerCase_outside_ascii :
  toLowerCase ("Nest" ++ kelvinSign) = "nestk" /\
  toLowerCase ("V" ++ dottedCapitalI ++ "TE") = "v" ++ dottedSmallI ++ "te" /\
  includes (toLowerCase ("das" ++ kelvinSign ++ "it")) "skit" = true.
Proof. evaluate. Qed.
(* ================================================================== *)
(** ** Properties of the classifier *)

Section Stages.

Variables (allDeps scripts fileTypes projectName : string).
Variable a : ProjectAnalysis.

Lemma detectByName_projectType :
  projectType (GroqService.detectByName projectName allDeps a) = projectType a.
Proof. unfold GroqService.detectByName; repeat case_if; reflexivity. Qed.

Lemma addTechnologies_projectType :
  projectType (GroqService.addTechnologies allDeps fileTypes a) = projectType a.
Proof. unfold GroqService.addTechnologies; repeat case_if; reflexivity. Qed.

Lemma detectArchitecture_projectType :
  projectType (GroqService.detectArchitecture a) = projectType a.
Proof. unfold GroqService.detectArchitecture; repeat case_if; reflexivity. Qed.

Lemma addTechnologies_mainPurpose :
  mainPurpose (GroqService.addTechnologies allDeps fileTypes a) = mainPurpose a.
Proof. unfold GroqService.addTechnologies; repeat case_if; reflexivity. Qed.

Lemma detectArchitecture_mainPurpose :
  mainPurpose (GroqService.detectArchitecture a) = mainPurpose a.
Proof. unfold GroqService.detectArchitecture; repeat case_if; reflexivity. Qed.

Lemma detectArchitecture_specialFeatures :
  specialFeatures (GroqService.detectArchitecture a) = specialFeatures a.
Proof. unfold GroqService.detectArchitecture; repeat case_if; reflexivity. Qed.

Lemma detectProjectType_backend :
  includes allDeps "express" = true ->
  projectType (GroqService.detectProjectType allDeps scripts fileTypes a)
  = "Backend API".
Proof. intros H; unfold GroqService.detectProjectType; rewrite H; reflexivity. Qed.

End Stages.

Lemma performDeepProjectAnalysis_projectType projectInfo fs :
  projectType (GroqService.performDeepProjectAnalysis projectInfo fs)
  = projectType (categoryAnalysis projectInfo fs).
Proof.
  unfold GroqService.performDeepProjectAnalysis.
  now rewrite detectArchitecture_projectType, addTechnologies_projectType,
    detectByName_projectType.
Qed.

Lemma addTechnologies_specialFeatures projectInfo a :
  specialFeatures
    (GroqService.addTechnologies (GroqService.allDepsOf projectInfo)
       (GroqService.fileTypesOf projectInfo) a)
  = (specialFeatures a ++ technologyFeatures projectInfo)%list.
Proof.
  unfold GroqService.addTechnologies, technologyFeatures.
  repeat case_if; cbn [specialFeatures pushFeatures pushTechnologies];
    rewrite <- ?app_assoc, ?app_nil_r; reflexivity.
Qed.

Lemma detectByName_firstOverlay projectInfo a :
  let a' :=
    GroqService.detectByName (GroqService.projectNameOf projectInfo)
      (GroqService.allDepsOf projectInfo) a in
  mainPurpose a' =
    match firstOverlay projectInfo with
    | Some rule => purpose rule
    | None => mainPurpose a
    end /\
  specialFeatures a' =
    (specialFeatures a ++
     match firstOverlay projectInfo with
     | Some rule => features rule
     | None => []
     end)%list.
Proof.
  unfold firstOverlay, overlayRules, GroqService.detectByName.
  cbn [find trigger weatherRule taskRule shopRule blogRule chatRule].
  repeat case_if; cbn; rewrite ?app_nil_r; split; reflexivity.
Qed.

(** C5. Whenever the dependency names include both [express] and [react],
    the category is [Backend API]: the backend alternative is tested
    before the React one. *)
Theorem express_wins_over_react (projectInfo : ProjectInfo) (fs : Workspace) :
  In "express" (dependencies projectInfo) ->
  In "react" (dependencies projectInfo) ->
  projectType (GroqService.performDeepProjectAnalysis projectInfo fs)
  = "Backend API".
Proof.
  intros Hexpress _.
  rewrite performDeepProjectAnalysis_projectType.
  apply detectProjectType_backend.
  now apply allDeps_includes.
Qed.

Lemma express_wins_over_react_witness :
  projectType
    (GroqService.performDeepProjectAnalysis
       (projectNamed "shop-api" ["express"; "react"]) emptyWorkspace)
  = "Backend API".
Proof.
  apply express_wins_over_react; simpl; auto.
Defined.

(** After the name and keyword detection nothing writes the main purpose
    any more. *)
Lemma performDeepProjectAnalysis_mainPurpose (projectInfo : ProjectInfo)
    (fs : Workspace) :
  mainPurpose (GroqService.performDeepProjectAnalysis projectInfo fs) =
    match firstOverlay projectInfo with
    | Some rule => purpose rule
    | None => mainPurpose (categoryAnalysis projectInfo fs)
    end.
Proof.
  unfold GroqService.performDeepProjectAnalysis.
  rewrite detectArchitecture_mainPurpose, addTechnologies_mainPurpose.
  apply (detectByName_firstOverlay projectInfo
           (categoryAnalysis projectInfo fs)).
Qed.

(** C1, as the code has it. The five name and keyword rules are one chain
    of alternatives: the first rule, in the listed order, whose trigger
    fires sets the main purpose and appends its features, and no later
    rule is looked at; when none fires the purpose and the features of the
    category stay. The technology additions follow in every case. *)
Theorem overlay_first_match_wins (projectInfo : ProjectInfo) (fs : Workspace) :
  mainPurpose (GroqService.performDeepProjectAnalysis projectInfo fs) =
    match firstOverlay projectInfo with
    | Some rule => purpose rule
    | None => mainPurpose (categoryAnalysis projectInfo fs)
    end /\
  specialFeatures (GroqService.performDeepProjectAnalysis projectInfo fs) =
    (specialFeatures (categoryAnalysis projectInfo fs) ++
     match firstOverlay projectInfo with
     | Some rule => features rule
     | None => []
     end ++
     technologyFeatures projectInfo)%list.
Proof.
  split; [apply performDeepProjectAnalysis_mainPurpose|].
  unfold GroqService.performDeepProjectAnalysis.
  rewrite detectArchitecture_specialFeatures, addTechnologies_specialFeatures.
  fold (categoryAnalysis projectInfo fs).
  destruct (detectByName_firstOverlay projectInfo
              (categoryAnalysis projectInfo fs)) as [_ Hf].
  rewrite Hf. apply eq_sym, app_assoc.
Qed.

(** C1, as the claim has it, fails on a project named [weather-chat]: the
    weather rule and the chat rule both fire, the chat rule is the last
    one that does, and yet the purpose is the weather one and no chat
    feature is appended. *)
Lemma overlay_last_match_refuted :
  firstOverlay (projectNamed "weather-chat" []) = Some weatherRule /\
  lastOverlay (projectNamed "weather-chat" []) = Some chatRule /\
  mainPurpose
    (GroqService.performDeepProjectAnalysis
       (projectNamed "weather-chat" []) emptyWorkspace)
  = purpose weatherRule /\
  (purpose weatherRule =? purpose chatRule) = false /\
  specialFeatures
    (GroqService.performDeepProjectAnalysis
       (projectNamed "weather-chat" []) emptyWorkspace)
  = features weatherRule.
Proof. repeat split; vm_compute; reflexivity. Qed.

Lemma detectProjectType_fallback (projectInfo : ProjectInfo) a :
  categorySignal projectInfo = false ->
  GroqService.detectProjectType (GroqService.allDepsOf projectInfo)
    (GroqService.scriptsOf projectInfo) (GroqService.fileTypesOf projectInfo) a
  = a.
Proof.
  unfold categorySignal, GroqService.detectProjectType; cbv zeta; intros H.
  repeat (apply orb_false_iff in H; destruct H as [H ?]).
  repeat match goal with
         | E : ?c = false |- context [?c] => rewrite E
         end.
  reflexivity.
Qed.

Lemma categoryAnalysis_mainPurpose projectInfo fs :
  (mainPurpose (categoryAnalysis projectInfo fs) =? "") = false.
Proof.
  unfold categoryAnalysis, GroqService.detectProjectType.
  repeat case_if; reflexivity.
Qed.

(** The main purpose is never empty. *)
Lemma mainPurpose_nonempty projectInfo fs :
  (mainPurpose (GroqService.performDeepProjectAnalysis projectInfo fs) =? "")
  = false.
Proof.
  rewrite performDeepProjectAnalysis_mainPurpose.
  unfold firstOverlay, overlayRules.
  cbn [find trigger weatherRule taskRule shopRule blogRule chatRule].
  repeat case_if; try reflexivity. apply categoryAnalysis_mainPurpose.
Qed.

Lemma detectFramework_fallback (deps devDeps fileTypes : list string) :
  frameworkSignal deps devDeps fileTypes = false ->
  detectFramework deps devDeps fileTypes =
    match (deps ++ devDeps)%list with
    | [] => "Software"
    | _ :: _ => "Node.js"
    end.
Proof.
  unfold frameworkSignal, detectFramework, someIncludes; cbv zeta; intros H.
  repeat (apply orb_false_iff in H; destruct H as [H ?]).
  repeat match goal with
         | E : ?c = false |- context [?c] => rewrite E
         end.
  now destruct (deps ++ devDeps)%list.
Qed.

(** C4, as the code has it. When none of rules 1 to 7 fires, the deep
    analysis leaves the category at [Application], whether or not there
    are dependencies, and the main purpose is not empty. The labels
    [Node.js] and [Software] belong to [detectFramework]: when none of its
    own signals is present it answers [Node.js] if there is a dependency
    or a development dependency and [Software] if there is none. *)
Theorem fallback_category (projectInfo : ProjectInfo) (fs : Workspace) :
  categorySignal projectInfo = false ->
  projectType (GroqService.performDeepProjectAnalysis projectInfo fs)
  = "Application" /\
  (mainPurpose (GroqService.performDeepProjectAnalysis projectInfo fs) =? "")
  = false /\
  (frameworkSignal (dependencies projectInfo) (devDependencies projectInfo)
     (fileTypes projectInfo) = false ->
   detectFramework (dependencies projectInfo) (devDependencies projectInfo)
     (fileTypes projectInfo) =
   match (dependencies projectInfo ++ devDependencies projectInfo)%list with
   | [] => "Software"
   | _ :: _ => "Node.js"
   end).
Proof.
  intros H. split; [|split].
  - rewrite performDeepProjectAnalysis_projectType. unfold categoryAnalysis.
    now rewrite detectProjectType_fallback.
  - apply mainPurpose_nonempty.
  - apply detectFramework_fallback.
Qed.

Lemma fallback_category_witness :
  categorySignal (projectNamed "toolbox" ["lodash"]) = false /\
  projectType
    (GroqService.performDeepProjectAnalysis
       (projectNamed "toolbox" ["lodash"]) emptyWorkspace)
  = "Application" /\
  detectFramework ["lodash"] [] [] = "Node.js".
Proof.
  assert (H : categorySignal (projectNamed "toolbox" ["lodash"]) = false)
    by reflexivity.
  destruct (fallback_category (projectNamed "toolbox" ["lodash"])
              emptyWorkspace H) as (Ht & _ & Hf).
  split; [exact H|]. split; [exact Ht|]. apply Hf. reflexivity.
Defined.

(** C4, as the claim has it, fails. A project whose only dependency is
    [nuxt] matches none of rules 1 to 7 and has a dependency, yet its
    category is [Application] and its framework label is [Nuxt.js]; a
    project with no dependency at all has category [Application] too. *)
Lemma fallback_not_nodejs :
  categorySignal (projectNamed "site" ["nuxt"]) = false /\
  projectType
    (GroqService.performDeepProjectAnalysis
       (projectNamed "site" ["nuxt"]) emptyWorkspace)
  = "Application" /\
  detectFramework ["nuxt"] [] [] = "Nuxt.js" /\
  categorySignal (projectNamed "site" []) = false /\
  projectType
    (GroqService.performDeepProjectAnalysis
       (projectNamed "site" []) emptyWorkspace)
  = "Application".
Proof. repeat split; vm_compute; reflexivity. Qed.

(* ================================================================== *)
(** ** Properties of the scans *)

Lemma scanDirectory_prune (k : nat) :
  forall (d : dir) (depth : nat) (fileTypes : list string),
    3 <= k + depth ->
    scanDirectory (prune k d) depth fileTypes = scanDirectory d depth fileTypes.
Proof.
  induction k as [|k IH]; intros d depth fileTypes Hk.
  - assert (Hd : (2 <? depth)%nat = true) by (apply Nat.ltb_lt; lia).
    destruct d; simpl; rewrite Hd; reflexivity.
  - destruct d as [|files]; [reflexivity|].
    simpl. destruct (2 <? depth)%nat eqn:Hd; [reflexivity|].
    revert fileTypes.
    induction files as [|file files IHfiles]; intros fileTypes; [reflexivity|].
    destruct file as [n|n sub|n|n]; simpl;
      destruct (skipped n); try apply IHfiles; try reflexivity.
    destruct (depth <? 2)%nat; [|apply IHfiles].
    rewrite IH by lia.
    destruct (scanDirectory sub (depth + 1) fileTypes); [apply IHfiles|reflexivity].
Qed.

Lemma checkDirectory_prune (k : nat) :
  forall (d : dir) (depth : nat),
    3 <= k + depth ->
    checkDirectory (prune k d) depth = checkDirectory d depth.
Proof.
  induction k as [|k IH]; intros d depth Hk.
  - assert (Hd : (2 <? depth)%nat = true) by (apply Nat.ltb_lt; lia).
    destruct d; simpl; rewrite Hd; reflexivity.
  - destruct d as [|files]; [reflexivity|].
    simpl. destruct (2 <? depth)%nat eqn:Hd; [reflexivity|].
    induction files as [|file files IHfiles]; [reflexivity|].
    destruct file as [n|n sub|n|n]; simpl;
      destruct (skipped n); try apply IHfiles; try reflexivity.
    + destruct (testFileName n); [reflexivity | apply IHfiles].
    + destruct (testDirName n); [reflexivity|].
      rewrite IH by lia.
      destruct (checkDirectory sub (depth + 1)) as [[|]|];
        [reflexivity | apply IHfiles | reflexivity].
Qed.

(** C3, as the code has it. Both scans list the directories at depth 0, 1
    and 2 (the root being at depth 0), so the entries they look at are
    those at depth 1, 2 and 3; nothing below is read. Two trees that agree
    on their entries down to depth 3 therefore get the same file types and
    the same answer about tests. *)
Theorem scans_stop_below_depth_three (root1 root2 : dir) :
  prune 3 root1 = prune 3 root2 ->
  getFileTypes root1 = getFileTypes root2 /\
  hasTestFiles root1 = hasTestFiles root2.
Proof.
  intros H. unfold getFileTypes, hasTestFiles.
  rewrite <- (scanDirectory_prune 3 root1), <- (scanDirectory_prune 3 root2),
    <- (checkDirectory_prune 3 root1), <- (checkDirectory_prune 3 root2), H
    by lia.
  split; reflexivity.
Qed.

Lemma scans_stop_below_depth_three_witness :
  getFileTypes (deepTree [File "page.py"; File "page.test.ts"])
  = getFileTypes (deepTree []) /\
  hasTestFiles (deepTree [File "page.py"; File "page.test.ts"])
  = hasTestFiles (deepTree []).
Proof.
  apply scans_stop_below_depth_three. reflexivity.
Defined.

(** C3, as the claim has it, fails: two trees that agree on every entry at
    depth 1 and 2 differ in what the scans report, because the files at
    depth 3 are looked at. *)
Lemma scans_read_depth_three :
  prune 2 (shallowTree [File "main.py"; File "unit.test.js"])
  = prune 2 (shallowTree []) /\
  getFileTypes (shallowTree [File "main.py"; File "unit.test.js"])
  = [".py"; ".js"] /\
  getFileTypes (shallowTree []) = [] /\
  hasTestFiles (shallowTree [File "main.py"; File "unit.test.js"]) = true /\
  hasTestFiles (shallowTree []) = false.
Proof. repeat split. Qed.

(* ================================================================== *)
(** ** Properties of the analyzer *)

(** C8. With no [package.json] in the root, or with one that cannot be
    read and parsed, the analyzed project is named after the root folder,
    its dependency, development dependency and script lists are empty, and
    every other field taken from the manifest is undefined. *)
Theorem analyzeProject_defaults (workspacePath : string) (fs : Workspace) :
  existsSync fs "package.json" = false \/ packageJson fs = None ->
  raw_name (analyzeProject workspacePath fs) = JStr (basename workspacePath) /\
  raw_dependencies (analyzeProject workspacePath fs) = [] /\
  raw_devDependencies (analyzeProject workspacePath fs) = [] /\
  raw_scripts (analyzeProject workspacePath fs) = [] /\
  raw_description (analyzeProject workspacePath fs) = JUndefined /\
  raw_license (analyzeProject workspacePath fs) = JUndefined /\
  raw_repository (analyzeProject workspacePath fs) = JUndefined /\
  raw_version (analyzeProject workspacePath fs) = JUndefined /\
  raw_author (analyzeProject workspacePath fs) = JUndefined /\
  raw_homepage (analyzeProject workspacePath fs) = JUndefined.
Proof.
  intros [H|H]; unfold analyzeProject; rewrite H.
  - repeat split.
  - destruct (existsSync fs "package.json"); repeat split.
Qed.

Lemma analyzeProject_defaults_witness :
  raw_name (analyzeProject "/home/dev/my-tool" (workspaceWith false None))
  = JStr "my-tool" /\
  raw_dependencies (analyzeProject "/home/dev/my-tool" (workspaceWith true None))
  = [].
Proof.
  split.
  - apply (analyzeProject_defaults "/home/dev/my-tool" (workspaceWith false None)).
    left; reflexivity.
  - apply (analyzeProject_defaults "/home/dev/my-tool" (workspaceWith true None)).
    right; reflexivity.
Defined.

(** A manifest that parses is read: the defaults are specific to the two
    cases above. *)
Example analyzeProject_reads_manifest :
  let manifest :=
    JObj [("name", JStr "pkg");
          ("dependencies", JObj [("express", JStr "^4.0.0")]);
          ("scripts", JObj [("start", JStr "node .")])] in
  let r := analyzeProject "/home/dev/my-tool" (workspaceWith true (Some manifest)) in
  raw_name r = JStr "pkg" /\ raw_dependencies r = ["express"] /\
  raw_scripts r = ["start"] /\ raw_framework r = JStr "Express.js".
Proof. repeat split. Qed.

(* ================================================================== *)
(** ** Properties of the templated document *)

Lemma includes_prefix_app (p b : string) : includes (p ++ b) p = true.
Proof. apply includes_here, prefix_app. Qed.

(** C9. The templated document contains the project name as it is, and
    when no license is given it contains the word MIT. *)
Theorem template_contains_name_and_MIT
    (upperCase lowerCase : string -> string)
    (localeCompare : string -> string -> comparison)
    (projectInfo : ProjectInfo) (fs : Workspace) :
  includes
    (TemplateService.generateReadme upperCase lowerCase localeCompare
       projectInfo fs)
    (name projectInfo) = true /\
  (license projectInfo = None ->
   includes
     (TemplateService.generateReadme upperCase lowerCase localeCompare
        projectInfo fs)
     "MIT" = true).
Proof.
  unfold TemplateService.generateReadme; cbv zeta. split.
  - do 19 apply includes_app_r. apply includes_prefix_app.
  - intros H. do 37 apply includes_app_r. apply includes_app_l.
    rewrite H. reflexivity.
Qed.

Lemma template_contains_name_and_MIT_witness :
  includes
    (TemplateService.generateReadme toUpperCase toLowerCase String.compare
       (projectNamed "data-pipeline" ["react"]) emptyWorkspace)
    "MIT" = true.
Proof.
  apply (template_contains_name_and_MIT toUpperCase toLowerCase String.compare
           (projectNamed "data-pipeline" ["react"]) emptyWorkspace).
  reflexivity.
Defined.

(** *** The title *)

Lemma splitTitle_cons (c : ascii) (s1 : string) :
  splitTitle (String c s1) =
  let extend words :=
    match words with
    | word :: words => String c word :: words
    | [] => [String c EmptyString]
    end in
  match widthOf titleSeparators (String c s1), s1 with
  | 0, _ => extend (splitTitle s1)
  | 1, _ => EmptyString :: splitTitle s1
  | 2, String _ s2 => EmptyString :: splitTitle s2
  | S (S (S _)), String _ (String _ s3) => EmptyString :: splitTitle s3
  | _, _ => extend (splitTitle s1)
  end.
Proof. reflexivity. Qed.

Lemma splitTitle_nonempty (s : string) :
  exists word words, splitTitle s = word :: words.
Proof.
  destruct s as [|c s1]; [now eexists _, _|].
  rewrite splitTitle_cons. cbv zeta.
  destruct (widthOf titleSeparators (String c s1)) as [|[|[|k]]];
    [| | destruct s1 as [|c2 s2] | destruct s1 as [|c2 [|c3 s3]]];
    try (now eexists _, _);
    destruct (splitTitle _); now eexists _, _.
Qed.

Lemma join_single (x : string) : join " " [x] = x.
Proof. reflexivity. Qed.

Lemma join_more (f : string -> string) (word : string)
    (words : list string) :
  join " " (map f (word :: words)) = f word ++ joinRest f words.
Proof.
  destruct words as [|w ws]; simpl; [|reflexivity].
  now rewrite append_nil_r.
Qed.



(** *** Titles of the ASCII range *)

Lemma titleSeparators_ascii (c : ascii) (s : string) :
  (nat_of_ascii c <? 128)%nat = true ->
  widthOf titleSeparators (String c s) = if titleSeparator c then 1 else 0.
Proof.
  destruct c as [[] [] [] [] [] [] [] []]; intros H;
    try discriminate H; reflexivity.
Qed.

Lemma splitTitle_ascii (c : ascii) (s : string) :
  (nat_of_ascii c <? 128)%nat = true ->
  splitTitle (String c s) =
  if titleSeparator c then EmptyString :: splitTitle s
  else
    match splitTitle s with
    | word :: words => String c word :: words
    | [] => [String c EmptyString]
    end.
Proof.
  intros H. rewrite splitTitle_cons, (titleSeparators_ascii c s H).
  now destruct (titleSeparator c).
Qed.

Lemma charWidth_ascii (c : ascii) :
  (nat_of_ascii c <? 128)%nat = true -> charWidth c = 1.
Proof.
  intros H. unfold charWidth. apply Nat.ltb_lt in H.
  assert (E : (nat_of_ascii c <? 192)%nat = true) by (apply Nat.ltb_lt; lia).
  now rewrite E.
Qed.

Lemma substring_0_0 (s : string) : substring 0 0 s = EmptyString.
Proof. now destruct s. Qed.

(** On a word of the ASCII range, capitalizing maps the first character
    to upper case and the others to lower case. *)
Lemma capitalizeWord_ascii (upperCase lowerCase : string -> string)
    (word : string) :
  asciiCase upperCase lowerCase ->
  isAscii word = true ->
  capitalizeWord upperCase lowerCase word
  = match word with
    | EmptyString => EmptyString
    | String c rest => String (upper_char c) (toLowerCase rest)
    end.
Proof.
  intros Hc Hw. unfold capitalizeWord.
  destruct word as [|c rest].
  - simpl. destruct (Hc EmptyString eq_refl) as [-> ->]. reflexivity.
  - simpl in Hw. apply andb_true_iff in Hw as [Hchar Hrest].
    unfold astral, firstCharacter, afterFirstCharacter.
    rewrite (charWidth_ascii c Hchar).
    change (substring 0 1 (String c rest))
      with (String c (substring 0 0 rest)).
    rewrite substring_0_0.
    change (dropString 1 (String c rest)) with rest.
    change (1 =? 4)%nat with false. cbv iota.
    assert (H1 : isAscii (String c EmptyString) = true)
      by (simpl; now rewrite Hchar).
    destruct (Hc _ H1) as [-> _]. destruct (Hc _ Hrest) as [_ ->].
    reflexivity.
Qed.

Lemma titleCase_splitTitle (upperCase lowerCase : string -> string)
    (s : string) :
  asciiCase upperCase lowerCase ->
  isAscii s = true ->
  forall word words,
    splitTitle s = word :: words ->
    isAscii word = true /\
    titleCase false s
    = toLowerCase word ++
      joinRest (capitalizeWord upperCase lowerCase) words /\
    titleCase true s
    = capitalizeWord upperCase lowerCase word ++
      joinRest (capitalizeWord upperCase lowerCase) words.
Proof.
  intros Hc. induction s as [|c rest IH]; intros Hs word words E.
  - simpl in E. injection E as <- <-. repeat split.
    simpl. now rewrite (capitalizeWord_ascii _ _ EmptyString Hc eq_refl).
  - simpl in Hs. apply andb_true_iff in Hs as [Hchar Hrest].
    rewrite (splitTitle_ascii c rest Hchar) in E.
    destruct (splitTitle_nonempty rest) as (w & ws & Er).
    rewrite Er in E. destruct (IH Hrest _ _ Er) as (Hw & IHf & IHt).
    simpl. destruct (titleSeparator c).
    + injection E as <- <-. split; [reflexivity|].
      rewrite (capitalizeWord_ascii _ _ EmptyString Hc eq_refl).
      change (joinRest (capitalizeWord upperCase lowerCase) (w :: ws))
        with (" " ++ join " " (map (capitalizeWord upperCase lowerCase)
                                 (w :: ws))).
      rewrite join_more, IHt. split; reflexivity.
    + injection E as <- <-.
      assert (Hcw : isAscii (String c w) = true)
        by (simpl; now rewrite Hchar, Hw).
      split; [exact Hcw|].
      rewrite (capitalizeWord_ascii _ _ (String c w) Hc Hcw), IHf.
      rewrite (toLowerCase_cons_ascii c w Hchar).
      split; reflexivity.
Qed.

(** A title of the ASCII range is capitalized character by character. *)
Lemma capitalizeTitle_titleCase (upperCase lowerCase : string -> string)
    (title : string) :
  asciiCase upperCase lowerCase ->
  isAscii title = true ->
  capitalizeTitle upperCase lowerCase title = titleCase true title.
Proof.
  intros Hc Ht.
  destruct (splitTitle_nonempty title) as (w & ws & E).
  destruct (titleCase_splitTitle _ _ title Hc Ht _ _ E) as (_ & _ & ->).
  unfold capitalizeTitle. rewrite E. apply join_more.
Qed.

Lemma asciiCase_ascii : asciiCase toUpperCase toLowerCase.
Proof. intros s _. split; reflexivity. Qed.

Lemma prefix_cons (c : ascii) (p s : string) :
  String.prefix p s = true -> String.prefix (String c p) (String c s) = true.
Proof.
  intros H; simpl. destruct (ascii_dec c c) as [_|ne]; [exact H | now elim ne].
Qed.




(* ================================================================== *)
(** ** Properties of the request loop *)



(** A 401 is thrown on at once. *)
Lemma tryModels_auth (fetch : string -> Fetched) (model : string)
    (rest : list string) (errorText : string) (data : option json) :
  fetch model = Responded 401 (inl errorText) data ->
  GroqService.tryModels fetch (model :: rest) = ([model], Thrown authMessage).
Proof. intros H; simpl; rewrite H; reflexivity. Qed.

(** A 429 is not: the message that is thrown for it does not contain the
    text that the handler looks for, and the loop goes on. *)
Lemma tryModels_rate_limit (fetch : string -> Fetched) (model : string)
    (rest : list string) (errorText : string) (data : option json) :
  fetch model = Responded 429 (inl errorText) data ->
  GroqService.tryModels fetch (model :: rest) =
    (model :: fst (GroqService.tryModels fetch rest),
     snd (GroqService.tryModels fetch rest)).
Proof. intros H; simpl; rewrite H; reflexivity. Qed.



(** The models are requested in the order of the list, without gaps. *)
Lemma tryModels_prefix (fetch : string -> Fetched) (models : list string) :
  exists rest,
    models = (fst (GroqService.tryModels fetch models) ++ rest)%list.
Proof.
  induction models as [|model models [rest IH]]; [now exists []|].
  simpl. destruct (GroqService.tryModel (fetch model)) as [readme| |message].
  - now exists models.
  - exists rest. simpl. now rewrite <- IH.
  - destruct (_ || _).
    + now exists models.
    + exists rest. simpl. now rewrite <- IH.
Qed.


Lemma generateReadme_with_key (config : Config)
    (fetch : Request -> Fetched) (projectInfo : ProjectInfo)
    (fs : Workspace) :
  truthy (getGroqApiKey config) = true ->
  GroqService.generateReadme config fetch projectInfo fs =
    GroqService.tryModels
      (fun model =>
         fetch (mkRequest model projectInfo
                  (GroqService.performDeepProjectAnalysis projectInfo fs)))
      (GroqService.modelsToTry config).
Proof.
  unfold GroqService.generateReadme, truthy.
  destruct (getGroqApiKey config) as [[|c key]|]; [discriminate| |discriminate].
  reflexivity.
Qed.

(** C2, where the code departs from the claim. The first model is answered
    with status 429 and the second with a full document: the rate limit is
    not reported to the caller, a second model is requested and its
    document is returned. *)
Theorem rate_limit_not_propagated :
  GroqService.generateReadme sampleConfig
    (firstThen (Responded 429 (inl "Too Many Requests") None)
       (okReply (sampleReadme 1200)))
    (projectNamed "app" []) emptyWorkspace
  = (["moonshotai/kimi-k2-instruct"; "llama-3.3-70b-versatile"],
     Returned (sampleReadme 1200)) /\
  GroqService.tryModel (Responded 429 (inl "Too Many Requests") None)
  = Throw rateLimitMessage /\
  includes rateLimitMessage "rate limit" = false /\
  GroqService.generateReadme sampleConfig
    (firstThen (Responded 401 (inl "Unauthorized") None)
       (okReply (sampleReadme 1200)))
    (projectNamed "app" []) emptyWorkspace
  = (["moonshotai/kimi-k2-instruct"], Thrown authMessage).
Proof. evaluate. Qed.




(** Length is counted in code units and white space is the one of the
    host: a content of 1000 no-break spaces is trimmed to nothing, 300
    rockets have length 600, and both are passed over; no-break spaces
    around a sufficient content are stripped from what is returned. *)
Example contents_outside_ascii :
  utf16Length (repeatString (bytes [194; 160]) 1000) = 1000 /\
  GroqService.tryModel (okReply (repeatString (bytes [194; 160]) 1000))
  = Continue /\
  utf16Length (repeatString "🚀" 300) = 600 /\
  GroqService.tryModel (okReply (repeatString "🚀" 300)) = Continue /\
  GroqService.tryModel
    (okReply (bytes [194; 160] ++ "  " ++ sampleReadme 1200 ++
              bytes [226; 128; 137]))
  = Return (sampleReadme 1200).
Proof. evaluate. Qed.

(* ================================================================== *)
(** ** Properties of the orchestrator *)

Lemma update_throws (updateError : option string) (written : Config)
    (message : string) :
  update updateError written = inr message -> updateError = Some message.
Proof. destruct updateError; simpl; intros H; now inversion H. Qed.

(** The key management dialog throws only what the settings store throws
    at it. *)
Lemma manageApiKey_throws (updateError : option string)
    (answers : ManageAnswers) (config : Config) (message : string) :
  manageApiKey updateError answers config = inr message ->
  updateError = Some message.
Proof.
  unfold manageApiKey. cbv zeta.
  destruct (showQuickPick _ (managePick answers)) as [label|];
    [|discriminate].
  destruct (_ || _).
  { destruct (promptForApiKey (typedNewKey answers)) as [[|c k]|];
      try discriminate.
    destruct (setGroqApiKey updateError (String c k) config); discriminate. }
  destruct (label =? _).
  { destruct (removeConfirmed answers); [|discriminate].
    destruct (update updateError _) eqn:E; [discriminate|].
    intros H. injection H as <-. exact (update_throws _ _ _ E). }
  destruct (label =? _); [discriminate|].
  destruct (label =? _).
  { unfold showModelSelection, setPreferredModel.
    destruct (showQuickPick availableModels _); [|discriminate].
    destruct (update updateError _) eqn:E; [discriminate|].
    intros H. injection H as <-. exact (update_throws _ _ _ E). }
  destruct (label =? _); discriminate.
Qed.




Example fallback_on_each_failure :
  let project := projectNamed "app" [] in
  let template :=
    TemplateService.generateReadme toUpperCase toLowerCase String.compare
      project emptyWorkspace in
  let run config fetch :=
    generateWithAI toUpperCase toLowerCase String.compare None noManagement
      config fetch project emptyWorkspace in
  run noKeyConfig (fun _ => Rejected "offline")
  = mkGenerated
      [ShowWarningMessage
         "AI generation failed: No API key configured. Please set your Groq API key.. Using templates."]
      noKeyConfig (inl template) /\
  run sampleConfig (fun _ => Responded 401 (inl "Unauthorized") None)
  = mkGenerated
      [ShowWarningMessage "❌ Invalid API key. Using templates instead."]
      sampleConfig (inl template) /\
  run sampleConfig (fun _ => Responded 429 (inl "Too Many Requests") None)
  = mkGenerated
      [ShowWarningMessage
         "AI generation failed: All AI models failed. Check your API key and try again.. Using templates."]
      sampleConfig (inl template) /\
  run sampleConfig (fun _ => okReply (sampleReadme 10))
  = mkGenerated
      [ShowWarningMessage
         "AI generation failed: All AI models failed. Check your API key and try again.. Using templates."]
      sampleConfig (inl template).
Proof. evaluate. Qed.

(** When the AI path succeeds, its document is passed on, nothing is
    shown and the settings stay as they are. *)
Lemma ai_success_is_returned
    (upperCase lowerCase : string -> string)
    (localeCompare : string -> string -> comparison)
    (updateError : option string) (manageAnswers : ManageAnswers)
    (config : Config) (fetch : Request -> Fetched)
    (projectInfo : ProjectInfo) (fs : Workspace) (readme : string) :
  snd (GroqService.generateReadme config fetch projectInfo fs)
  = Returned readme ->
  generateWithAI upperCase lowerCase localeCompare updateError manageAnswers
    config fetch projectInfo fs
  = mkGenerated [] config (inl readme).
Proof. intros H; unfold generateWithAI; now rewrite H. Qed.

(* ================================================================== *)
(** ** The directory tree of the prompt *)

(** The count of remaining levels that [generateDirectoryTree] starts from
    is enough: a larger count gives the same tree. *)
Lemma directoryTreeLoop_ext (f g : dir -> string) (depth maxDepth : nat)
    (items : list entry) :
  (forall sub, f sub = g sub) ->
  forall tree,
    GroqService.directoryTreeLoop f depth maxDepth items tree
    = GroqService.directoryTreeLoop g depth maxDepth items tree.
Proof.
  intros E. induction items as [|item rest IH]; intros tree; [reflexivity|].
  destruct item as [n|n sub|n|n]; simpl; try apply IH; try reflexivity.
  rewrite E. destruct (depth <? maxDepth)%nat; apply IH.
Qed.

Lemma directoryTreeLevels_enough (levels : nat) :
  forall (dirPath : dir) (depth maxDepth : nat),
    maxDepth + 1 - depth <= levels ->
    GroqService.directoryTreeLevels levels dirPath depth maxDepth
    = GroqService.generateDirectoryTree dirPath depth maxDepth.
Proof.
  unfold GroqService.generateDirectoryTree.
  induction levels as [|levels IH]; intros dirPath depth maxDepth H.
  - now replace (maxDepth + 1 - depth) with 0 by lia.
  - destruct (maxDepth <? depth)%nat eqn:Hd.
    + apply Nat.ltb_lt in Hd.
      replace (maxDepth + 1 - depth) with 0 by lia.
      simpl. apply Nat.ltb_lt in Hd. now rewrite Hd.
    + apply Nat.ltb_ge in Hd.
      replace (maxDepth + 1 - depth) with (S (maxDepth + 1 - (depth + 1)))
        by lia.
      cbn [GroqService.directoryTreeLevels].
      destruct (maxDepth <? depth)%nat; [reflexivity|].
      destruct dirPath as [|items]; [reflexivity|].
      cbv zeta.
      rewrite (directoryTreeLoop_ext
                 (fun sub =>
                    GroqService.directoryTreeLevels levels sub (depth + 1)
                      maxDepth)
                 (fun sub =>
                    GroqService.directoryTreeLevels
                      (maxDepth + 1 - (depth + 1)) sub (depth + 1) maxDepth));
        [reflexivity|].
      intros sub. apply IH. lia.
Qed.

(** Below [maxDepth] nothing is rendered, and the top-level call renders
    the root with four levels to go. *)
Lemma generateDirectoryTree_too_deep (dirPath : dir) (depth maxDepth : nat) :
  maxDepth < depth ->
  GroqService.generateDirectoryTree dirPath depth maxDepth = EmptyString.
Proof.
  intros H. unfold GroqService.generateDirectoryTree.
  now replace (maxDepth + 1 - depth) with 0 by lia.
Qed.

(* ================================================================== *)
(** ** From the workspace to the document *)

(** A folder without manifest, analyzed, classified and rendered. *)
Example pipeline_without_manifest :
  let fs := workspaceWith false None in
  match typed (analyzeProject "/home/dev/my-tool" fs) with
  | Some projectInfo =>
      name projectInfo = "my-tool" /\
      fileTypes projectInfo = [".js"] /\
      framework projectInfo = Some "Software" /\
      projectType (GroqService.performDeepProjectAnalysis projectInfo fs)
      = "Application" /\
      headingLine toUpperCase toLowerCase (name projectInfo)
      = "# 🚀 My Tool" /\
      includes
        (TemplateService.generateReadme toUpperCase toLowerCase
           String.compare projectInfo fs)
        "    cd my-tool" = true
  | None => False
  end.
Proof. vm_compute. repeat split. Qed.

(* ================================================================== *)
(** ** Further properties of the scans *)

Lemma scanDirectory_visible (k : nat) :
  forall (d : dir) (depth : nat) (fileTypes : list string),
    3 <= k + depth ->
    scanDirectory (visibleDir d) depth fileTypes
    = scanDirectory d depth fileTypes.
Proof.
  induction k as [|k IH]; intros d depth fileTypes Hk.
  - assert (Hd : (2 <? depth)%nat = true) by (apply Nat.ltb_lt; lia).
    destruct d; simpl; rewrite Hd; reflexivity.
  - destruct d as [|files]; [reflexivity|].
    simpl. destruct (2 <? depth)%nat eqn:Hd; [reflexivity|].
    revert fileTypes.
    induction files as [|file files IHfiles]; intros fileTypes; [reflexivity|].
    destruct file as [n|n sub|n|n]; simpl;
      destruct (skipped n) eqn:Hs; try apply IHfiles; simpl; rewrite ?Hs;
      try apply IHfiles; try reflexivity.
    destruct (depth <? 2)%nat; [|apply IHfiles].
    rewrite IH by lia.
    destruct (scanDirectory sub (depth + 1) fileTypes);
      [apply IHfiles|reflexivity].
Qed.

Lemma checkDirectory_visible (k : nat) :
  forall (d : dir) (depth : nat),
    3 <= k + depth ->
    checkDirectory (visibleDir d) depth = checkDirectory d depth.
Proof.
  induction k as [|k IH]; intros d depth Hk.
  - assert (Hd : (2 <? depth)%nat = true) by (apply Nat.ltb_lt; lia).
    destruct d; simpl; rewrite Hd; reflexivity.
  - destruct d as [|files]; [reflexivity|].
    simpl. destruct (2 <? depth)%nat eqn:Hd; [reflexivity|].
    induction files as [|file files IHfiles]; [reflexivity|].
    destruct file as [n|n sub|n|n]; simpl;
      destruct (skipped n) eqn:Hs; try apply IHfiles; simpl; rewrite ?Hs;
      try apply IHfiles; try reflexivity.
    + destruct (testFileName n); [reflexivity | apply IHfiles].
    + destruct (testDirName n); [reflexivity|].
      rewrite IH by lia.
      destruct (checkDirectory sub (depth + 1)) as [[|]|];
        [reflexivity | apply IHfiles | reflexivity].
Qed.

(** X1. Nothing inside [node_modules] or inside an entry whose name starts
    with a dot reaches the scans, and neither do these entries themselves:
    two trees that are equal once such entries are left out give the same
    file types and the same answer about tests. *)
Theorem scans_ignore_skipped_entries (root1 root2 : dir) :
  visibleDir root1 = visibleDir root2 ->
  getFileTypes root1 = getFileTypes root2 /\
  hasTestFiles root1 = hasTestFiles root2.
Proof.
  intros H. unfold getFileTypes, hasTestFiles.
  rewrite <- (scanDirectory_visible 3 root1), <- (scanDirectory_visible 3 root2),
    <- (checkDirectory_visible 3 root1), <- (checkDirectory_visible 3 root2), H
    by lia.
  split; reflexivity.
Qed.

Lemma scans_ignore_skipped_entries_witness :
  getFileTypes
    (Listing [ File "app.ts";
               Dir "node_modules" (Listing [File "left-pad.test.js"]);
               Dir ".git" Unreadable;
               Broken ".DS_Store" ])
  = getFileTypes (Listing [File "app.ts"]) /\
  hasTestFiles
    (Listing [ File "app.ts";
               Dir "node_modules" (Listing [File "left-pad.test.js"]);
               Dir ".git" Unreadable;
               Broken ".DS_Store" ])
  = hasTestFiles (Listing [File "app.ts"]).
Proof.
  apply scans_ignore_skipped_entries. reflexivity.
Defined.

Lemma arrayIncludes_In (xs : list string) (x : string) :
  arrayIncludes xs x = true <-> In x xs.
Proof.
  unfold arrayIncludes. rewrite existsb_exists. split.
  - intros (y & Hy & E). apply String.eqb_eq in E. now subst.
  - intros H. exists x. split; [exact H | apply String.eqb_refl].
Qed.

Lemma setAdd_NoDup (x : string) (s : list string) :
  NoDup s -> NoDup (setAdd x s).
Proof.
  intros H. unfold setAdd. destruct (arrayIncludes s x) eqn:E; [exact H|].
  apply NoDup_app; [exact H | repeat constructor; intros [] | ].
  intros y Hy [<-|[]].
  apply arrayIncludes_In in Hy. congruence.
Qed.

Lemma extname_dot (file : string) :
  extname file = EmptyString \/ startsWith (extname file) "." = true.
Proof.
  induction file as [|c rest IH]; simpl; [now left|].
  destruct (extname rest) as [|d ext] eqn:E.
  - destruct (Ascii.eqb c ".") eqn:Ec; [right | now left].
    apply Ascii.eqb_eq in Ec. subst c.
    apply prefix_cons, (prefix_app EmptyString).
  - right. destruct IH as [IH|IH]; [discriminate | exact IH].
Qed.

Lemma setAdd_extensionSet (file : string) (fileTypes : list string) :
  extensionSet fileTypes ->
  extensionSet
    (if extname file =? "" then fileTypes else setAdd (extname file) fileTypes).
Proof.
  intros [Hn Hf]. destruct (extname file =? "") eqn:E; [now split|].
  split; [now apply setAdd_NoDup|].
  unfold setAdd. destruct (arrayIncludes fileTypes (extname file)); [exact Hf|].
  apply Forall_app. split; [exact Hf|]. constructor; [|constructor].
  destruct (extname_dot file) as [H|H]; [|exact H].
  rewrite H in E. discriminate.
Qed.

Lemma scanDirectory_extensionSet (k : nat) :
  forall (d : dir) (depth : nat) (fileTypes : list string),
    3 <= k + depth ->
    extensionSet fileTypes ->
    extensionSet (reached (scanDirectory d depth fileTypes)).
Proof.
  induction k as [|k IH]; intros d depth fileTypes Hk Hset.
  - assert (Hd : (2 <? depth)%nat = true) by (apply Nat.ltb_lt; lia).
    destruct d; simpl; rewrite Hd; exact Hset.
  - destruct d as [|files]; simpl;
      (destruct (2 <? depth)%nat eqn:Hd; [exact Hset|]); [exact Hset|].
    revert fileTypes Hset.
    induction files as [|file files IHfiles]; intros fileTypes Hset;
      [exact Hset|].
    destruct file as [n|n sub|n|n]; simpl;
      destruct (skipped n); try (now apply IHfiles); try exact Hset.
    + apply IHfiles. now apply setAdd_extensionSet.
    + destruct (depth <? 2)%nat; [|now apply IHfiles].
      specialize (IH sub (depth + 1) fileTypes ltac:(lia) Hset).
      destruct (scanDirectory sub (depth + 1) fileTypes);
        [now apply IHfiles | exact IH].
Qed.

(** X2. The file types that the scan returns are pairwise distinct, and
    each of them starts with a dot (so none is empty), whatever the tree
    and wherever the scan was cut short. *)
Theorem getFileTypes_distinct_extensions (projectPath : dir) :
  NoDup (getFileTypes projectPath) /\
  Forall (fun ext => startsWith ext "." = true) (getFileTypes projectPath).
Proof.
  apply (scanDirectory_extensionSet 3 projectPath 0 []); [lia|].
  split; constructor.
Qed.

(** X3. An entry on which [statSync] throws ends both scans where it
    stands: what was found before it is kept, and nothing after it in the
    listing of the root is looked at. *)
Theorem scans_stop_at_broken_entry (before after : list entry) (n : string) :
  skipped n = false ->
  getFileTypes (Listing (before ++ Broken n :: after))
  = getFileTypes (Listing before) /\
  hasTestFiles (Listing (before ++ Broken n :: after))
  = hasTestFiles (Listing before).
Proof.
  intros Hn. unfold getFileTypes, hasTestFiles. simpl. split.
  - generalize (@nil string) as fileTypes.
    induction before as [|file files IH]; intros fileTypes; simpl.
    + now rewrite Hn.
    + destruct (skipped (entryName file)); [apply IH|].
      destruct file as [m|m sub|m|m]; try apply IH; try reflexivity.
      destruct (scanDirectory sub 1 fileTypes); [apply IH | reflexivity].
  - induction before as [|file files IH]; simpl.
    + now rewrite Hn.
    + destruct (skipped (entryName file)); [apply IH|].
      destruct file as [m|m sub|m|m]; try apply IH; try reflexivity.
      * destruct (testFileName m); [reflexivity | apply IH].
      * destruct (testDirName m); [reflexivity|].
        destruct (checkDirectory sub 1) as [[|]|];
          [reflexivity | apply IH | reflexivity].
Qed.

Lemma scans_stop_at_broken_entry_witness :
  getFileTypes
    (Listing ([File "a.ts"] ++ Broken "dangling-link" :: [File "b.py"]))
  = getFileTypes (Listing [File "a.ts"]) /\
  hasTestFiles
    (Listing ([File "a.ts"] ++ Broken "dangling-link" :: [File "b.test.js"]))
  = hasTestFiles (Listing [File "a.ts"]).
Proof.
  split.
  - apply (scans_stop_at_broken_entry [File "a.ts"] [File "b.py"]
             "dangling-link"). reflexivity.
  - apply (scans_stop_at_broken_entry [File "a.ts"] [File "b.test.js"]
             "dangling-link"). reflexivity.
Defined.

Lemma includes_trans (s p q : string) :
  includes s p = true -> includes p q = true -> includes s q = true.
Proof.
  intros H1 H2. destruct (includes_split _ _ H1) as (a & b & ->).
  apply includes_app_r, includes_app_l, H2.
Qed.

Lemma includes_toLowerCase (s p q : string) :
  isAscii p = true ->
  includes s p = true ->
  includes (toLowerCase p) q = true ->
  includes (toLowerCase s) q = true.
Proof.
  intros Hp H1 H2. apply includes_trans with (p := toLowerCase p); [|exact H2].
  now apply includes_toLowerCase_ascii.
Qed.

(** X4. Whether a name counts as a test depends only on its lowercased
    text containing [test] or [spec]: the patterns [.test.], [.spec.] and
    [__tests__] never add a match, so a file and a directory of the same
    name are judged alike. *)
Theorem test_names_by_lowercase (file : string) :
  testFileName file
  = (includes (toLowerCase file) "test" || includes (toLowerCase file) "spec") /\
  testDirName file = testFileName file.
Proof.
  unfold testFileName, testDirName.
  destruct (includes (toLowerCase file) "test") eqn:Ht; [now split|].
  destruct (includes (toLowerCase file) "spec") eqn:Hs; [now split|].
  simpl.
  destruct (includes file ".test.") eqn:E1.
  { rewrite (includes_toLowerCase file ".test." "test" eq_refl E1 eq_refl) in Ht.
    discriminate. }
  destruct (includes file ".spec.") eqn:E2.
  { rewrite (includes_toLowerCase file ".spec." "spec" eq_refl E2 eq_refl) in Hs.
    discriminate. }
  destruct (file =? "__tests__") eqn:E3; [|now split].
  apply String.eqb_eq in E3. subst file. discriminate Ht.
Qed.

(* ================================================================== *)
(** ** Further properties of the analyzer *)

Lemma jsTruthy_jsOr (a b : json) :
  jsTruthy (jsOr a b) = jsTruthy a || jsTruthy b.
Proof. unfold jsOr. destruct (jsTruthy a) eqn:E; [exact E | reflexivity]. Qed.

(** X5. The analyzed project always has a name: whatever the manifest
    holds (no name, an empty name, no manifest at all), the name is truthy
    as soon as the folder has a non-empty base name. *)
Theorem analyzeProject_name_truthy (workspacePath : string) (fs : Workspace) :
  (basename workspacePath =? "") = false ->
  jsTruthy (raw_name (analyzeProject workspacePath fs)) = true.
Proof.
  intros H. unfold analyzeProject.
  assert (Hd : jsTruthy (JStr (basename workspacePath)) = true)
    by (simpl; now rewrite H).
  destruct (existsSync fs "package.json"); [|exact Hd].
  destruct (packageJson fs) as [pj|]; [|exact Hd].
  destruct pj; simpl readManifest; cbv iota beta; try exact Hd;
    cbn [raw_name]; rewrite jsTruthy_jsOr, Hd; apply orb_true_r.
Qed.

Lemma analyzeProject_name_truthy_witness :
  jsTruthy
    (raw_name
       (analyzeProject "/home/dev/my-tool"
          (workspaceWith true (Some (JObj [("name", JStr EmptyString)])))))
  = true.
Proof.
  apply analyzeProject_name_truthy. reflexivity.
Defined.

(** X6. A manifest that parses to something other than an object ([null],
    a number, a string, a boolean, an array) leaves the analysis exactly
    where a missing manifest leaves it. *)
Theorem analyzeProject_non_object_manifest (workspacePath : string)
    (fs : Workspace) (v : json) :
  packageJson fs = Some v ->
  isObject v = false ->
  analyzeProject workspacePath fs
  = analyzeProject workspacePath
      (mkWorkspace (listing fs) (fun _ => false) None).
Proof.
  intros Hv Ho. unfold analyzeProject. rewrite Hv. cbn [existsSync listing].
  destruct (existsSync fs "package.json"); [|reflexivity].
  destruct v; try discriminate Ho; reflexivity.
Qed.

Lemma analyzeProject_non_object_manifest_witness :
  analyzeProject "/home/dev/my-tool"
    (workspaceWith true (Some (JArr [JStr "name"; JStr "x"])))
  = analyzeProject "/home/dev/my-tool"
      (mkWorkspace (Listing [File "index.js"]) (fun _ => false) None).
Proof.
  apply (analyzeProject_non_object_manifest "/home/dev/my-tool"
           (workspaceWith true (Some (JArr [JStr "name"; JStr "x"])))
           (JArr [JStr "name"; JStr "x"])); reflexivity.
Defined.

Lemma detectFramework_label (deps devDeps fileTypes : list string) :
  In (detectFramework deps devDeps fileTypes) frameworkLabels.
Proof.
  unfold detectFramework, frameworkLabels; cbv zeta.
  repeat case_if; simpl; tauto.
Qed.

(** X7. The framework of an analyzed project is always one of the ten
    labels of [detectFramework], hence a non-empty string. *)
Theorem analyzeProject_framework_label (workspacePath : string)
    (fs : Workspace) :
  exists label,
    raw_framework (analyzeProject workspacePath fs) = JStr label /\
    In label frameworkLabels /\
    (label =? "") = false.
Proof.
  eexists. split; [reflexivity|].
  match goal with
  | |- In ?l _ /\ _ => assert (H : In l frameworkLabels)
                         by apply detectFramework_label
  end.
  split; [exact H|].
  unfold frameworkLabels in H. simpl in H.
  repeat (destruct H as [<-|H]; [reflexivity|]). destruct H.
Qed.

Lemma lastSegment_slashFree (n seg : string) :
  slashFree n = true -> lastSegment n seg false = seg ++ n.
Proof.
  unfold slashFree. revert seg.
  induction n as [|c n IH]; intros seg H; simpl.
  - clear H. induction seg as [|d seg IHs]; simpl; [reflexivity | now rewrite <- IHs].
  - simpl in H. destruct (Ascii.eqb c "/") eqn:Ec; [discriminate|].
    apply String.eqb_eq in H. injection H as H.
    rewrite IH by (now apply String.eqb_eq).
    now rewrite append_assoc.
Qed.

Lemma lastSegment_after_slash (n seg : string) :
  slashFree n = true -> (n =? "") = false ->
  lastSegment n seg true = n.
Proof.
  intros H Hn. destruct n as [|c n]; [discriminate|].
  unfold slashFree in H. simpl in *.
  destruct (Ascii.eqb c "/") eqn:Ec; [discriminate|].
  apply String.eqb_eq in H. injection H as H.
  apply (lastSegment_slashFree n (String c EmptyString)).
  unfold slashFree. now apply String.eqb_eq.
Qed.

Lemma lastSegment_join (parent n seg : string) (pending : bool) :
  slashFree n = true -> (n =? "") = false ->
  lastSegment (parent ++ "/" ++ n) seg pending = n.
Proof.
  intros H Hn. revert seg pending.
  induction parent as [|c parent IH]; intros seg pending.
  - simpl. now apply lastSegment_after_slash.
  - simpl. destruct (Ascii.eqb c "/"); [apply IH|].
    destruct pending; apply IH.
Qed.

(** X8. The project name that the analyzer falls back to is the last
    segment of the path: the base name of a folder [n] inside any parent
    path is [n]. *)
Theorem basename_of_joined_path (parent n : string) :
  slashFree n = true ->
  (n =? "") = false ->
  basename (parent ++ "/" ++ n) = n.
Proof. intros H Hn. now apply lastSegment_join. Qed.

Lemma basename_of_joined_path_witness :
  basename ("/home/dev/projects" ++ "/" ++ "my-tool") = "my-tool".
Proof.
  apply basename_of_joined_path; reflexivity.
Defined.

(* ================================================================== *)
(** ** Further properties of the classifier *)

Lemma joined_includes (l : list string) (d q : string) :
  In d l -> includes d q = true ->
  isAscii q = true -> toLowerCase q = q ->
  includes (toLowerCase (join " " l)) q = true.
Proof.
  intros Hin Hd Ha Hq. destruct (toLowerCase_join d l Hin) as (a & b & ->).
  apply includes_app_r, includes_app_l.
  rewrite <- Hq. now apply includes_toLowerCase_ascii.
Qed.

(** A keyword inside any dependency or development dependency shows up in
    the text that the classifier searches. *)
Lemma allDeps_includes_keyword (projectInfo : ProjectInfo) (d q : string) :
  In d (dependencies projectInfo ++ devDependencies projectInfo)%list ->
  includes d q = true ->
  isAscii q = true -> toLowerCase q = q ->
  includes (GroqService.allDepsOf projectInfo) q = true.
Proof.
  intros Hin Hd Ha Hq. unfold GroqService.allDepsOf, GroqService.depsOf,
    GroqService.devDepsOf.
  apply in_app_or in Hin as [Hin|Hin].
  - apply includes_app_l. now apply joined_includes with (d := d).
  - do 2 apply includes_app_r. now apply joined_includes with (d := d).
Qed.

Lemma backendSignal_projectType (projectInfo : ProjectInfo) (fs : Workspace) :
  backendSignal projectInfo = true ->
  projectType (GroqService.performDeepProjectAnalysis projectInfo fs)
  = "Backend API".
Proof.
  intros H. rewrite performDeepProjectAnalysis_projectType.
  unfold categoryAnalysis, GroqService.detectProjectType.
  unfold backendSignal in H; cbv zeta in H. now rewrite H.
Qed.

Lemma someIncludes_In (xs : list string) (q : string) :
  someIncludes xs q = true -> exists d, In d xs /\ includes d q = true.
Proof. unfold someIncludes. now rewrite existsb_exists. Qed.

(** X9. The two classifiers agree on backends: whenever [detectFramework]
    answers [Express.js] or [NestJS], the deep analysis answers
    [Backend API]. *)
Theorem backend_framework_is_backend_api (projectInfo : ProjectInfo)
    (fs : Workspace) :
  detectFramework (dependencies projectInfo) (devDependencies projectInfo)
    (fileTypes projectInfo) = "Express.js" \/
  detectFramework (dependencies projectInfo) (devDependencies projectInfo)
    (fileTypes projectInfo) = "NestJS" ->
  projectType (GroqService.performDeepProjectAnalysis projectInfo fs)
  = "Backend API".
Proof.
  intros H. apply backendSignal_projectType.
  unfold detectFramework in H; cbv zeta in H.
  do 5 (match type of H with
        | context [if ?c then _ else _] =>
            destruct c; [destruct H as [H|H]; discriminate H|]
        end).
  unfold backendSignal; cbv zeta.
  match type of H with
  | context [if ?c then _ else _] => destruct c eqn:Ee
  end.
  - destruct (someIncludes_In _ _ Ee) as (d & Hin & Hd).
    now rewrite
      (allDeps_includes_keyword projectInfo d "express" Hin Hd eq_refl eq_refl).
  - match type of H with
    | context [if ?c then _ else _] => destruct c eqn:En
    end.
    + destruct (someIncludes_In _ _ En) as (d & Hin & Hd).
      rewrite (allDeps_includes_keyword projectInfo d "nestjs" Hin Hd
                 eq_refl eq_refl).
      now rewrite !orb_true_r.
    + do 2 (match type of H with
            | context [if ?c then _ else _] =>
                destruct c; [destruct H as [H|H]; discriminate H|]
            end).
      destruct H as [H|H]; discriminate H.
Qed.

Lemma backend_framework_is_backend_api_witness :
  projectType
    (GroqService.performDeepProjectAnalysis
       (projectNamed "orders" ["@nestjs/core"; "rxjs"]) emptyWorkspace)
  = "Backend API".
Proof.
  apply backend_framework_is_backend_api. right. reflexivity.
Defined.

Lemma joined_includes_lower (l : list string) (d q : string) :
  In d l -> includes (toLowerCase d) q = true ->
  includes (toLowerCase (join " " l)) q = true.
Proof.
  intros Hin Hd. destruct (toLowerCase_join d l Hin) as (a & b & ->).
  now apply includes_app_r, includes_app_l.
Qed.

(** X10. A script whose name contains [start], in any letter case, makes
    the project a [Backend API], whatever its dependencies are. *)
Theorem start_script_is_backend_api (projectInfo : ProjectInfo)
    (fs : Workspace) (script : string) :
  In script (scripts projectInfo) ->
  includes (toLowerCase script) "start" = true ->
  projectType (GroqService.performDeepProjectAnalysis projectInfo fs)
  = "Backend API".
Proof.
  intros Hin Hs. apply backendSignal_projectType.
  unfold backendSignal, GroqService.scriptsOf; cbv zeta.
  rewrite (joined_includes_lower _ script "start" Hin Hs).
  now rewrite !orb_true_r.
Qed.

Lemma start_script_is_backend_api_witness :
  projectType
    (GroqService.performDeepProjectAnalysis
       {| name := "storefront"; description := None;
          dependencies := ["react"; "next"]; devDependencies := [];
          scripts := ["dev"; "build"; "Start"]; fileTypes := [".tsx"];
          hasTests := false; license := None; repository := None;
          framework := None; workspacePath := "/work/storefront";
          version := None; author := None; homepage := None |}
       emptyWorkspace)
  = "Backend API".
Proof.
  apply start_script_is_backend_api with (script := "Start");
    [simpl; auto | reflexivity].
Defined.

(** X11. The category [React Native Mobile App] is reached through [expo]
    only: it requires [expo] in the dependency text and no [react] there,
    so a project that depends on [react-native] never gets it. *)
Theorem react_native_label_needs_expo (projectInfo : ProjectInfo)
    (fs : Workspace) :
  projectType (GroqService.performDeepProjectAnalysis projectInfo fs)
  = "React Native Mobile App" ->
  includes (GroqService.allDepsOf projectInfo) "expo" = true /\
  includes (GroqService.allDepsOf projectInfo) "react" = false /\
  includes (GroqService.allDepsOf projectInfo) "react-native" = false.
Proof.
  rewrite performDeepProjectAnalysis_projectType.
  unfold categoryAnalysis, GroqService.detectProjectType.
  destruct (_ || _) eqn:Hb; [discriminate|].
  destruct (includes (GroqService.allDepsOf projectInfo) "react") eqn:Hr.
  { repeat case_if; discriminate. }
  destruct (includes (GroqService.allDepsOf projectInfo) "vue");
    [discriminate|].
  destruct (_ || _); [discriminate|].
  destruct (includes (GroqService.allDepsOf projectInfo) "react-native")
    eqn:Hn.
  { rewrite (includes_trans _ "react-native" "react" Hn eq_refl) in Hr.
    discriminate. }
  destruct (includes (GroqService.allDepsOf projectInfo) "expo") eqn:He;
    [now intros _|].
  simpl. repeat case_if; discriminate.
Qed.

Lemma react_native_label_needs_expo_witness :
  includes (GroqService.allDepsOf (projectNamed "walks" ["expo"; "expo-location"]))
    "expo" = true.
Proof.
  apply (react_native_label_needs_expo
           (projectNamed "walks" ["expo"; "expo-location"]) emptyWorkspace).
  reflexivity.
Defined.

(** X12. The category is always one of nine labels. *)
Theorem projectType_label (projectInfo : ProjectInfo) (fs : Workspace) :
  In (projectType (GroqService.performDeepProjectAnalysis projectInfo fs))
    projectTypes.
Proof.
  rewrite performDeepProjectAnalysis_projectType.
  unfold categoryAnalysis, GroqService.detectProjectType, projectTypes.
  repeat case_if; simpl; tauto.
Qed.

Section StageCongruence.

Variables (allDeps scripts fileTypes projectName : string).
Variables a b : ProjectAnalysis.
Hypothesis same : classification a = classification b.

Ltac same_fields :=
  destruct a, b; unfold classification in *; cbn in same;
  injection same as -> -> -> -> -> ->.

Lemma detectProjectType_classification :
  classification (GroqService.detectProjectType allDeps scripts fileTypes a)
  = classification (GroqService.detectProjectType allDeps scripts fileTypes b).
Proof.
  same_fields. unfold GroqService.detectProjectType.
  repeat case_if; reflexivity.
Qed.

Lemma detectByName_classification :
  classification (GroqService.detectByName projectName allDeps a)
  = classification (GroqService.detectByName projectName allDeps b).
Proof.
  same_fields. unfold GroqService.detectByName.
  repeat case_if; reflexivity.
Qed.

Lemma addTechnologies_classification :
  classification (GroqService.addTechnologies allDeps fileTypes a)
  = classification (GroqService.addTechnologies allDeps fileTypes b).
Proof.
  same_fields. unfold GroqService.addTechnologies.
  repeat case_if; reflexivity.
Qed.

End StageCongruence.

Lemma detectArchitecture_classification (a : ProjectAnalysis) :
  classification (GroqService.detectArchitecture a) = classification a.
Proof.
  unfold GroqService.detectArchitecture; repeat case_if; reflexivity.
Qed.

(** X13. The directory tree of the workspace decides the architecture note
    and nothing else: category, main purpose, technologies, framework
    details, features and deployment hints are the same in every
    workspace. *)
Theorem classification_ignores_workspace (projectInfo : ProjectInfo)
    (fs1 fs2 : Workspace) :
  classification (GroqService.performDeepProjectAnalysis projectInfo fs1)
  = classification (GroqService.performDeepProjectAnalysis projectInfo fs2).
Proof.
  unfold GroqService.performDeepProjectAnalysis.
  rewrite !detectArchitecture_classification.
  apply addTechnologies_classification, detectByName_classification,
    detectProjectType_classification.
  reflexivity.
Qed.

Lemma category_feature_stays (projectInfo : ProjectInfo) (fs : Workspace)
    (feature : string) :
  In feature (specialFeatures (categoryAnalysis projectInfo fs)) ->
  In feature
    (specialFeatures (GroqService.performDeepProjectAnalysis projectInfo fs)).
Proof.
  intros H. unfold GroqService.performDeepProjectAnalysis.
  rewrite detectArchitecture_specialFeatures, addTechnologies_specialFeatures.
  fold (categoryAnalysis projectInfo fs).
  destruct (detectByName_firstOverlay projectInfo
              (categoryAnalysis projectInfo fs)) as [_ ->].
  apply in_or_app; left. apply in_or_app; now left.
Qed.

(** X14. With [react] and [next] among the dependencies and no backend
    signal, the category is [Next.js Application] and the features include
    server-side rendering. *)
Theorem next_is_nextjs_application (projectInfo : ProjectInfo)
    (fs : Workspace) :
  In "react" (dependencies projectInfo) ->
  In "next" (dependencies projectInfo) ->
  backendSignal projectInfo = false ->
  projectType (GroqService.performDeepProjectAnalysis projectInfo fs)
  = "Next.js Application" /\
  In "Server-side rendering"
    (specialFeatures (GroqService.performDeepProjectAnalysis projectInfo fs)).
Proof.
  intros Hr Hn Hb.
  apply (allDeps_includes projectInfo "react" eq_refl) in Hr.
  apply (allDeps_includes projectInfo "next" eq_refl) in Hn.
  unfold backendSignal in Hb; cbv zeta in Hb.
  split.
  - rewrite performDeepProjectAnalysis_projectType.
    unfold categoryAnalysis, GroqService.detectProjectType.
    rewrite Hb, Hr, Hn. repeat case_if; reflexivity.
  - apply category_feature_stays.
    unfold categoryAnalysis, GroqService.detectProjectType.
    rewrite Hb, Hr, Hn. repeat case_if; simpl; tauto.
Qed.

Lemma next_is_nextjs_application_witness :
  projectType
    (GroqService.performDeepProjectAnalysis
       {| name := "storefront"; description := None;
          dependencies := ["react"; "next"]; devDependencies := [];
          scripts := ["dev"]; fileTypes := [".tsx"];
          hasTests := false; license := None; repository := None;
          framework := None; workspacePath := "/work/storefront";
          version := None; author := None; homepage := None |}
       emptyWorkspace)
  = "Next.js Application".
Proof.
  apply next_is_nextjs_application; [simpl; auto | simpl; auto | reflexivity].
Defined.

(* ================================================================== *)
(** ** Further properties of the request loop *)

Lemma modelsToTry_NoDup (config : Config) :
  NoDup (GroqService.modelsToTry config).
Proof.
  unfold GroqService.modelsToTry; cbv zeta. constructor.
  - rewrite filter_In. intros [_ H]. now rewrite String.eqb_refl in H.
  - apply NoDup_filter. unfold GroqService.models.
    repeat constructor; simpl; intuition discriminate.
Qed.

Lemma modelsToTry_length (config : Config) :
  List.length (GroqService.modelsToTry config) <= 5.
Proof.
  unfold GroqService.modelsToTry; cbv zeta. cbn [List.length].
  pose proof (filter_length_le
                (fun m => negb (m =? getPreferredModel config))
                GroqService.models) as H.
  change (List.length GroqService.models) with 4 in H. lia.
Qed.

Lemma tryModels_first (fetch : string -> Fetched) (model : string)
    (rest : list string) :
  exists others,
    fst (GroqService.tryModels fetch (model :: rest)) = model :: others.
Proof.
  simpl. destruct (GroqService.tryModel (fetch model)) as [r| |m];
    [now eexists | now eexists |].
  destruct (_ || _); now eexists.
Qed.

(** X15. One call requests no model twice and at most five models in all,
    and when it requests any, the first is the preferred one. *)
Theorem requests_are_bounded (config : Config) (fetch : Request -> Fetched)
    (projectInfo : ProjectInfo) (fs : Workspace) :
  NoDup (fst (GroqService.generateReadme config fetch projectInfo fs)) /\
  List.length (fst (GroqService.generateReadme config fetch projectInfo fs))
  <= 5 /\
  (fst (GroqService.generateReadme config fetch projectInfo fs) = [] \/
   exists others,
     fst (GroqService.generateReadme config fetch projectInfo fs)
     = getPreferredModel config :: others).
Proof.
  destruct (truthy (getGroqApiKey config)) eqn:Hkey.
  - rewrite (generateReadme_with_key _ _ _ _ Hkey).
    match goal with
    | |- context [GroqService.tryModels ?f _] => set (ask := f)
    end.
    destruct (tryModels_prefix ask (GroqService.modelsToTry config))
      as [rest E].
    pose proof (modelsToTry_NoDup config) as Hn.
    pose proof (modelsToTry_length config) as Hl.
    rewrite E in Hn, Hl. rewrite length_app in Hl.
    split; [now apply NoDup_app_remove_r in Hn|]. split; [lia|].
    right. apply tryModels_first.
  - unfold GroqService.generateReadme, truthy in *.
    destruct (getGroqApiKey config) as [[|c k]|]; try discriminate;
      (split; [constructor | split; [simpl; lia | now left]]).
Qed.

Lemma tryModel_Return (response : Fetched) (readme : string) :
  GroqService.tryModel response = Return readme ->
  exists content,
    readme = trim content /\ 1000 <= utf16Length (trim content).
Proof.
  unfold GroqService.tryModel.
  destruct response as [m|status text data]; [discriminate|].
  destruct (negb (GroqService.ok status)).
  { destruct text; [|discriminate]. repeat case_if; discriminate. }
  destruct data as [data|]; [|discriminate].
  destruct (GroqService.contentOf data) as [| |b|b|s|l|l];
    try (simpl; repeat case_if; discriminate).
  destruct ((s =? "") || _) eqn:E; [discriminate|].
  intros H. injection H as <-. exists s. split; [reflexivity|].
  apply orb_false_iff in E as [_ E]. now apply Nat.ltb_ge in E.
Qed.

Lemma tryModels_Returned (fetch : string -> Fetched) (models : list string)
    (readme : string) :
  snd (GroqService.tryModels fetch models) = Returned readme ->
  exists model,
    In model models /\ GroqService.tryModel (fetch model) = Return readme.
Proof.
  induction models as [|model models IH]; simpl; [discriminate|].
  destruct (GroqService.tryModel (fetch model)) as [r| |m] eqn:E.
  - simpl. intros H. injection H as ->. exists model. now split; [left|].
  - simpl. intros H. destruct (IH H) as (x & Hx & Ex). exists x.
    now split; [right|].
  - destruct (_ || _); simpl; [discriminate|].
    intros H. destruct (IH H) as (x & Hx & Ex). exists x.
    now split; [right|].
Qed.

(** What the loop returns is trimmed text of sufficient length. *)
Lemma generateReadme_Returned_shape (config : Config)
    (fetch : Request -> Fetched) (projectInfo : ProjectInfo)
    (fs : Workspace) (readme : string) :
  snd (GroqService.generateReadme config fetch projectInfo fs)
  = Returned readme ->
  exists content, readme = trim content /\ 1000 <= utf16Length readme.
Proof.
  unfold GroqService.generateReadme.
  destruct (getGroqApiKey config) as [[|c k]|]; try discriminate.
  intros H. apply tryModels_Returned in H as (model & _ & H).
  apply tryModel_Return in H as (content & -> & Hl). now exists content.
Qed.

(** X16. A document that the AI strategy returns has a length of at least
    1000 code units and no white space at either end: trimming it changes
    nothing, and it neither begins nor ends with a white space or line
    terminator of the host. *)
Theorem returned_readme_is_long_and_trimmed (config : Config)
    (fetch : Request -> Fetched) (projectInfo : ProjectInfo)
    (fs : Workspace) (readme : string) :
  snd (GroqService.generateReadme config fetch projectInfo fs)
  = Returned readme ->
  1000 <= utf16Length readme /\
  trim readme = readme /\
  forall w, In w whiteSpace ->
    startsWith readme w = false /\ endsWith readme w = false.
Proof.
  intros H.
  apply generateReadme_Returned_shape in H as (content & -> & Hl).
  split; [exact Hl|]. split; [apply trim_idempotent|].
  intros w Hw. unfold endsWith, startsWith. rewrite <- !leads_prefix.
  split; [now apply trim_begins | now apply trim_ends].
Qed.

Lemma returned_readme_is_long_and_trimmed_witness :
  1000 <= utf16Length (sampleReadme 1200) /\
  trim (sampleReadme 1200) = sampleReadme 1200.
Proof.
  destruct (returned_readme_is_long_and_trimmed sampleConfig
              (fun _ =>
                 okReply (bytes [194; 160] ++ "  " ++ sampleReadme 1200 ++ nl))
              (projectNamed "app" []) emptyWorkspace (sampleReadme 1200))
    as (Hl & Ht & _).
  - vm_compute. reflexivity.
  - split; [exact Hl | exact Ht].
Defined.

Lemma tryModel_http_error (status : nat) (errorText : string)
    (data : option json) :
  GroqService.ok status = false -> status <> 401 -> status <> 429 ->
  GroqService.tryModel (Responded status (inl errorText) data) = Continue.
Proof.
  intros Hok H401 H429. unfold GroqService.tryModel. rewrite Hok. simpl.
  destruct (status =? 401)%nat eqn:E; [apply Nat.eqb_eq in E; contradiction|].
  destruct (status =? 429)%nat eqn:F; [apply Nat.eqb_eq in F; contradiction|].
  reflexivity.
Qed.

Lemma tryModels_all_passed_over (fetch : string -> Fetched)
    (models : list string) :
  (forall model, In model models ->
     GroqService.tryModel (fetch model) = Continue) ->
  GroqService.tryModels fetch models = (models, Thrown exhaustedMessage).
Proof.
  induction models as [|model models IH]; intros H; [reflexivity|].
  simpl. rewrite IH by (intros x Hx; apply H; now right).
  now rewrite (H model (or_introl eq_refl)).
Qed.

(** X17. When every model is answered with an HTTP error other than 401
    and 429 (a 500 or a 503, say), every model is requested once, in
    order, and the call ends with the exhaustion error. *)
Theorem http_errors_exhaust_the_models (config : Config)
    (fetch : Request -> Fetched) (projectInfo : ProjectInfo)
    (fs : Workspace) :
  truthy (getGroqApiKey config) = true ->
  (forall model, In model (GroqService.modelsToTry config) ->
     exists status errorText data,
       fetch (mkRequest model projectInfo
                (GroqService.performDeepProjectAnalysis projectInfo fs))
       = Responded status (inl errorText) data /\
       GroqService.ok status = false /\ status <> 401 /\ status <> 429) ->
  GroqService.generateReadme config fetch projectInfo fs
  = (GroqService.modelsToTry config, Thrown exhaustedMessage).
Proof.
  intros Hkey H. rewrite (generateReadme_with_key _ _ _ _ Hkey).
  apply tryModels_all_passed_over. intros model Hm.
  destruct (H model Hm) as (status & errorText & data & -> & Hok & H1 & H2).
  now apply tryModel_http_error.
Qed.

Lemma http_errors_exhaust_the_models_witness :
  GroqService.generateReadme sampleConfig
    (fun _ => Responded 503 (inl "Service Unavailable") None)
    (projectNamed "app" []) emptyWorkspace
  = (GroqService.models, Thrown exhaustedMessage).
Proof.
  apply (http_errors_exhaust_the_models sampleConfig
           (fun _ => Responded 503 (inl "Service Unavailable") None)
           (projectNamed "app" []) emptyWorkspace).
  - reflexivity.
  - intros model _. exists 503, "Service Unavailable", None.
    repeat split; discriminate.
Defined.

Lemma tryModels_after_skipped (fetch : string -> Fetched)
    (skippedModels : list string) (rest : list string) :
  (forall model, In model skippedModels ->
     passedOver (fetch model) = true) ->
  GroqService.tryModels fetch (skippedModels ++ rest)
  = ((skippedModels ++ fst (GroqService.tryModels fetch rest))%list,
     snd (GroqService.tryModels fetch rest)).
Proof.
  induction skippedModels as [|model models IH]; intros H.
  - simpl. now destruct (GroqService.tryModels fetch rest).
  - simpl. pose proof (H model (or_introl eq_refl)) as Hm.
    unfold passedOver in Hm.
    rewrite IH by (intros x Hx; apply H; now right).
    destruct (GroqService.tryModel (fetch model)) as [r| |m];
      [discriminate | reflexivity |].
    apply negb_true_iff in Hm. now rewrite Hm.
Qed.

(** X18. A 401 whose error body can be read ends the call wherever it
    comes: when every model before it was passed over, for an insufficient
    content or for a failure that the loop swallows, the model answered
    with 401 is the last one requested and the invalid key error is
    thrown. *)
Theorem auth_error_stops_the_loop (config : Config)
    (fetch : Request -> Fetched) (projectInfo : ProjectInfo)
    (fs : Workspace) (before : list string) (model : string)
    (rest : list string) (errorText : string) (data : option json) :
  truthy (getGroqApiKey config) = true ->
  GroqService.modelsToTry config = (before ++ model :: rest)%list ->
  (forall m, In m before ->
     passedOver
       (fetch (mkRequest m projectInfo
                 (GroqService.performDeepProjectAnalysis projectInfo fs)))
     = true) ->
  fetch (mkRequest model projectInfo
           (GroqService.performDeepProjectAnalysis projectInfo fs))
  = Responded 401 (inl errorText) data ->
  GroqService.generateReadme config fetch projectInfo fs
  = ((before ++ [model])%list, Thrown authMessage).
Proof.
  intros Hkey Hm Hskip H401. rewrite (generateReadme_with_key _ _ _ _ Hkey), Hm.
  rewrite tryModels_after_skipped by exact Hskip.
  now rewrite (tryModels_auth _ model rest errorText data H401).
Qed.

Lemma auth_error_stops_the_loop_witness :
  GroqService.generateReadme sampleConfig
    (firstThen (Rejected "offline")
       (Responded 401 (inl "Unauthorized") None))
    (projectNamed "app" []) emptyWorkspace
  = (["moonshotai/kimi-k2-instruct"; "llama-3.3-70b-versatile"],
     Thrown authMessage).
Proof.
  apply (auth_error_stops_the_loop sampleConfig
           (firstThen (Rejected "offline")
              (Responded 401 (inl "Unauthorized") None))
           (projectNamed "app" []) emptyWorkspace
           ["moonshotai/kimi-k2-instruct"] "llama-3.3-70b-versatile"
           ["llama-3.1-8b-instant"; "gemma2-9b-it"] "Unauthorized" None).
  - reflexivity.
  - reflexivity.
  - intros m [<-|[]]. reflexivity.
  - reflexivity.
Defined.

(** What is passed over: a content that is insufficient, an HTTP error
    other than 401, a 429, a request that fails, and a 401 whose body
    cannot be read. *)
Example passedOver_replies :
  passedOver (okReply (sampleReadme 10)) = true /\
  passedOver (Responded 503 (inl "Service Unavailable") None) = true /\
  passedOver (Responded 429 (inl "Too Many Requests") None) = true /\
  passedOver (Rejected "offline") = true /\
  passedOver (Responded 401 (inr "terminated") None) = true /\
  passedOver (Responded 401 (inl "Unauthorized") None) = false /\
  passedOver (okReply (sampleReadme 1200)) = false.
Proof. evaluate. Qed.

(** X19. A stored key that does not start with [gsk_] counts as no key:
    the AI strategy fails with the missing key error before any request
    is made. *)
Theorem malformed_key_makes_no_request (config : Config)
    (fetch : Request -> Fetched) (projectInfo : ProjectInfo)
    (fs : Workspace) (apiKey : string) :
  groqApiKey config = Some apiKey ->
  startsWith apiKey "gsk_" = false ->
  GroqService.generateReadme config fetch projectInfo fs
  = ([], Thrown "No API key configured. Please set your Groq API key.") /\
  hasValidApiKey config = false.
Proof.
  intros Hk Hp. unfold GroqService.generateReadme, hasValidApiKey, getGroqApiKey.
  rewrite Hk, Hp. destruct apiKey; split; reflexivity.
Qed.

Lemma malformed_key_makes_no_request_witness :
  GroqService.generateReadme
    {| groqApiKey := Some "sk-0123456789abcdef0123456789abcdef01234567";
       preferredModel := None |}
    (fun _ => okReply (sampleReadme 1200))
    (projectNamed "app" []) emptyWorkspace
  = ([], Thrown "No API key configured. Please set your Groq API key.").
Proof.
  apply (malformed_key_makes_no_request
           {| groqApiKey := Some "sk-0123456789abcdef0123456789abcdef01234567";
              preferredModel := None |}
           (fun _ => okReply (sampleReadme 1200))
           (projectNamed "app" []) emptyWorkspace
           "sk-0123456789abcdef0123456789abcdef01234567"); reflexivity.
Defined.

(* ================================================================== *)
(** ** Further properties of the title and of the folder structure *)

Lemma titleCase_length (start : bool) (s : string) :
  String.length (titleCase start s) = String.length s.
Proof.
  revert start. induction s as [|c s IH]; intros start; [reflexivity|].
  simpl. destruct (titleSeparator c); [|destruct start]; simpl; now rewrite IH.
Qed.

Lemma upper_char_stable (c : ascii) :
  titleSeparator c = false ->
  titleSeparator (upper_char c) = false /\
  upper_char (upper_char c) = upper_char c.
Proof.
  destruct c as [[] [] [] [] [] [] [] []]; intros H;
    try discriminate H; split; reflexivity.
Qed.

Lemma lower_char_stable (c : ascii) :
  titleSeparator c = false ->
  titleSeparator (lower_char c) = false /\
  lower_char (lower_char c) = lower_char c.
Proof.
  destruct c as [[] [] [] [] [] [] [] []]; intros H;
    try discriminate H; split; reflexivity.
Qed.

Lemma titleCase_idempotent (start : bool) (s : string) :
  titleCase start (titleCase start s) = titleCase start s.
Proof.
  revert start. induction s as [|c s IH]; intros start; [reflexivity|].
  simpl. destruct (titleSeparator c) eqn:Ec.
  - simpl. now rewrite IH.
  - destruct start; simpl.
    + destruct (upper_char_stable c Ec) as [-> ->]. now rewrite IH.
    + destruct (lower_char_stable c Ec) as [-> ->]. now rewrite IH.
Qed.

Lemma case_char_ascii (c : ascii) :
  (nat_of_ascii c <? 128)%nat = true ->
  (nat_of_ascii (upper_char c) <? 128)%nat = true /\
  (nat_of_ascii (lower_char c) <? 128)%nat = true.
Proof.
  destruct c as [[] [] [] [] [] [] [] []]; intros H;
    try discriminate H; split; reflexivity.
Qed.

Lemma titleCase_ascii (start : bool) (s : string) :
  isAscii s = true -> isAscii (titleCase start s) = true.
Proof.
  revert start. induction s as [|c s IH]; intros start H; [reflexivity|].
  simpl in H. apply andb_true_iff in H as [Hc Hs].
  destruct (case_char_ascii c Hc) as [Hu Hl].
  simpl. destruct (titleSeparator c); [|destruct start]; simpl;
    rewrite ?Hu, ?Hl; now apply IH.
Qed.

Lemma utf16Length_ascii (s : string) :
  isAscii s = true -> utf16Length s = String.length s.
Proof.
  induction s as [|c s IH]; intros H; [reflexivity|].
  simpl in H. apply andb_true_iff in H as [Hc Hs].
  simpl. unfold codeUnits. now rewrite Hc, IH.
Qed.

(** X20. For a title of the ASCII range, capitalizing keeps the length,
    and capitalizing again changes nothing, on every host. *)
Theorem capitalizeTitle_length_idempotent
    (upperCase lowerCase : string -> string) (title : string) :
  asciiCase upperCase lowerCase ->
  isAscii title = true ->
  utf16Length (capitalizeTitle upperCase lowerCase title)
  = utf16Length title /\
  capitalizeTitle upperCase lowerCase
    (capitalizeTitle upperCase lowerCase title)
  = capitalizeTitle upperCase lowerCase title.
Proof.
  intros Hc Ht.
  rewrite (capitalizeTitle_titleCase _ _ title Hc Ht).
  pose proof (titleCase_ascii true title Ht) as Ha.
  rewrite (capitalizeTitle_titleCase _ _ _ Hc Ha).
  rewrite (utf16Length_ascii _ Ha), (utf16Length_ascii _ Ht).
  split; [apply titleCase_length | apply titleCase_idempotent].
Qed.

Lemma capitalizeTitle_length_idempotent_witness :
  utf16Length (capitalizeTitle toUpperCase toLowerCase "my-app_two words")
  = 16 /\
  capitalizeTitle toUpperCase toLowerCase
    (capitalizeTitle toUpperCase toLowerCase "my-app_two words")
  = capitalizeTitle toUpperCase toLowerCase "my-app_two words".
Proof.
  apply (capitalizeTitle_length_idempotent toUpperCase toLowerCase
           "my-app_two words").
  - apply asciiCase_ascii.
  - reflexivity.
Defined.

Section FolderOrder.

Variable localeCompare : string -> string -> comparison.

Lemma insertSorted_forallb (P : entry -> bool) (x : entry) (l : list entry) :
  forallb P (insertSorted (folderOrder localeCompare) x l)
  = P x && forallb P l.
Proof.
  induction l as [|y l IH]; simpl; [reflexivity|].
  destruct (folderOrder localeCompare x y); simpl; [reflexivity|].
  rewrite IH. now rewrite !andb_assoc, (andb_comm (P y)).
Qed.

Lemma insertSorted_directoriesFirst (x : entry) (l : list entry) :
  directoriesFirst l = true ->
  directoriesFirst (insertSorted (folderOrder localeCompare) x l) = true.
Proof.
  induction l as [|y l IH]; intros H; simpl.
  - now destruct (isDirectory x).
  - destruct (folderOrder localeCompare x y) eqn:E.
    + simpl. destruct (isDirectory x) eqn:Ex; [exact H|].
      simpl in H. unfold folderOrder in E. rewrite Ex in E. simpl in E.
      destruct (isDirectory y); [discriminate | exact H].
    + simpl in *. destruct (isDirectory y) eqn:Ey; [now apply IH|].
      rewrite insertSorted_forallb, H, andb_true_r.
      unfold folderOrder in E. rewrite Ey in E.
      destruct (isDirectory x); [discriminate | reflexivity].
Qed.

Lemma insertSorted_Permutation (x : entry) (l : list entry) :
  Permutation (x :: l)
    (insertSorted (folderOrder localeCompare) x l).
Proof.
  induction l as [|y l IH]; simpl; [reflexivity|].
  destruct (folderOrder localeCompare x y); [reflexivity|].
  rewrite perm_swap. now constructor.
Qed.

(** X21. However the host collates names, sorting the entries of a folder
    for display keeps every entry and puts all directories before
    everything else. *)
Theorem folder_sort_directories_first (files : list entry) :
  Permutation files (sortBy (folderOrder localeCompare) files) /\
  directoriesFirst (sortBy (folderOrder localeCompare) files) = true.
Proof.
  unfold sortBy. induction files as [|x l [IHp IHd]]; simpl.
  - split; [constructor | reflexivity].
  - split.
    + rewrite <- insertSorted_Permutation. now constructor.
    + now apply insertSorted_directoriesFirst.
Qed.

End FolderOrder.

Lemma filter_map_entry (P : entry -> bool) (f : entry -> entry)
    (l : list entry) :
  (forall e, P (f e) = P e) ->
  filter P (map f l) = map f (filter P l).
Proof.
  intros H. induction l as [|x l IH]; simpl; [reflexivity|].
  rewrite H. destruct (P x); simpl; now rewrite IH.
Qed.

Lemma insertSorted_map (before : entry -> entry -> bool)
    (f : entry -> entry) (x : entry) (l : list entry) :
  (forall a b, before (f a) (f b) = before a b) ->
  insertSorted before (f x) (map f l) = map f (insertSorted before x l).
Proof.
  intros H. induction l as [|y l IH]; simpl; [reflexivity|].
  rewrite H. destruct (before x y); simpl; [reflexivity | now rewrite IH].
Qed.

Lemma sortBy_map (before : entry -> entry -> bool) (f : entry -> entry)
    (l : list entry) :
  (forall a b, before (f a) (f b) = before a b) ->
  sortBy before (map f l) = map f (sortBy before l).
Proof.
  intros H. unfold sortBy. induction l as [|x l IH]; simpl; [reflexivity|].
  rewrite IH. now apply insertSorted_map.
Qed.

Lemma mapJoinLast_map (body body' : entry -> bool -> string)
    (f : entry -> entry) (l : list entry) :
  (forall e last, body (f e) last = body' e last) ->
  mapJoinLast body (map f l) = mapJoinLast body' l.
Proof.
  intros H. induction l as [|x l IH]; [reflexivity|].
  destruct l as [|y l]; simpl in *; [apply H|]. now rewrite H, IH.
Qed.

Lemma pruneEntry_name (k : nat) (e : entry) :
  entryName (pruneEntry k e) = entryName e.
Proof. now destruct e. Qed.

Lemma pruneEntry_isDirectory (k : nat) (e : entry) :
  isDirectory (pruneEntry k e) = isDirectory e.
Proof. now destruct e. Qed.

(** X22. Rendering the folder structure to a given depth reads nothing
    below that depth: the text is the one of the tree cut below [depth]
    levels. *)
Theorem folder_structure_reads_depth_levels
    (localeCompare : string -> string -> comparison) (depth : nat) :
  forall (dirPath : dir) (prefix : string),
    generateFolderStructure localeCompare (prune depth dirPath) depth prefix
    = generateFolderStructure localeCompare dirPath depth prefix.
Proof.
  induction depth as [|depth IH]; intros dirPath prefix; [reflexivity|].
  destruct dirPath as [|files]; [reflexivity|].
  cbn [prune generateFolderStructure]. fold (pruneEntry depth).
  rewrite filter_map_entry
    by (intros e; now rewrite pruneEntry_name).
  rewrite sortBy_map
    by (intros a b; unfold folderOrder;
        now rewrite !pruneEntry_name, !pruneEntry_isDirectory).
  apply mapJoinLast_map. intros e last.
  destruct e as [n|n sub|n|n]; try reflexivity.
  cbn [pruneEntry]. now rewrite IH.
Qed.

Lemma untilSlash_slashFree (user rest : string) :
  slashFree user = true ->
  untilSlash (user ++ "/" ++ rest) = user /\ untilSlash user = user.
Proof.
  unfold slashFree. intros H. apply String.eqb_eq in H. split; [|exact H].
  induction user as [|c user IH]; [reflexivity|].
  simpl in *. destruct (Ascii.eqb c "/"); [discriminate|].
  injection H as H. now rewrite IH.
Qed.

(** X23. From a GitHub address [https://github.com/<user>/<repository>]
    the contact line takes [@<user>]. *)
Theorem extractGitHubUsername_of_github_url (user rest : string) :
  slashFree user = true ->
  (user =? "") = false ->
  TemplateService.extractGitHubUsername
    ("https://github.com/" ++ user ++ "/" ++ rest)
  = "@" ++ user.
Proof.
  intros Hs Hn. destruct user as [|c user]; [discriminate|].
  destruct (untilSlash_slashFree _ rest Hs) as [E _].
  unfold TemplateService.extractGitHubUsername.
  cbn [append matchGitHub String.prefix dropString String.length].
  cbn. cbn in E. rewrite E. reflexivity.
Qed.

Lemma extractGitHubUsername_of_github_url_witness :
  TemplateService.extractGitHubUsername
    ("https://github.com/" ++ "octocat" ++ "/" ++ "hello-world.git")
  = "@" ++ "octocat".
Proof.
  apply extractGitHubUsername_of_github_url; reflexivity.
Defined.

(* ================================================================== *)
(** ** Properties of the stored key and of one run of the command *)

Lemma validated_key_shape (value : string) :
  promptForApiKeyValidation value = None \/
  Extension.promptAndSaveApiKeyValidation value = None ->
  (value =? "") = false /\ startsWith value "gsk_" = true /\
  (utf16Length value <? 40)%nat = false.
Proof.
  unfold promptForApiKeyValidation, Extension.promptAndSaveApiKeyValidation.
  intros [H|H];
    (destruct (value =? ""); [discriminate|]);
    (destruct (startsWith value "gsk_"); [|discriminate]);
    (destruct (utf16Length value <? 40)%nat; [discriminate|]);
    now repeat split.
Qed.

(** X24. A key that either input box accepts can be stored: when the
    settings store accepts the write, the key is the one that is read
    back and it counts as valid; when the store rejects the write, its
    error is the one thrown. *)
Theorem accepted_key_is_stored_and_valid (value : string) (config : Config) :
  promptForApiKeyValidation value = None \/
  Extension.promptAndSaveApiKeyValidation value = None ->
  (exists config' shown,
     setGroqApiKey None value config = inl (config', shown) /\
     getGroqApiKey config' = Some value /\
     hasValidApiKey config' = true /\
     preferredModel config' = preferredModel config) /\
  (forall message, setGroqApiKey (Some message) value config = inr message).
Proof.
  intros H. destruct (validated_key_shape value H) as (Hn & Hp & Hl).
  apply Nat.ltb_ge in Hl.
  assert (H40 : (40 <=? utf16Length value)%nat = true)
    by now apply Nat.leb_le.
  assert (H0 : (0 <? utf16Length value)%nat = true)
    by (apply Nat.ltb_lt; lia).
  unfold setGroqApiKey. rewrite Hp. cbn [negb update].
  split; [|reflexivity].
  do 2 eexists. split; [reflexivity|].
  unfold hasValidApiKey, getGroqApiKey. cbn [groqApiKey preferredModel].
  rewrite Hn, Hp. cbn [negb andb]. rewrite Hp, H40, H0. repeat split.
Qed.

Lemma accepted_key_is_stored_and_valid_witness :
  exists config' shown,
    setGroqApiKey None ("gsk_" ++ repeatString "a" 40) noKeyConfig
    = inl (config', shown) /\
    getGroqApiKey config' = Some ("gsk_" ++ repeatString "a" 40) /\
    hasValidApiKey config' = true /\
    preferredModel config' = preferredModel noKeyConfig.
Proof.
  destruct (accepted_key_is_stored_and_valid
              ("gsk_" ++ repeatString "a" 40) noKeyConfig
              (or_introl eq_refl)) as [H _].
  exact H.
Defined.

Lemma generateWithAI_document
    (upperCase lowerCase : string -> string)
    (localeCompare : string -> string -> comparison)
    (updateError : option string) (manageAnswers : ManageAnswers)
    (config : Config) (fetch : Request -> Fetched)
    (projectInfo : ProjectInfo) (fs : Workspace) :
  let generated :=
    generateWithAI upperCase lowerCase localeCompare updateError
      manageAnswers config fetch projectInfo fs in
  (forall content,
     document generated = inl content ->
     content
     = TemplateService.generateReadme upperCase lowerCase localeCompare
         projectInfo fs \/
     snd (GroqService.generateReadme (settingsAfter generated) fetch
            projectInfo fs)
     = Returned content) /\
  (forall message,
     document generated = inr message -> updateError = Some message).
Proof.
  cbv zeta. unfold generateWithAI.
  destruct (snd (GroqService.generateReadme config fetch projectInfo fs))
    as [readme|message] eqn:E.
  - cbn [document settingsAfter]. split; [|discriminate].
    intros content H. injection H as <-. now right.
  - destruct (includes message "Invalid API key").
    + destruct (manageApiKey updateError manageAnswers config)
        as [[config' shown]|error] eqn:Em; cbn [document settingsAfter].
      * split; [|discriminate]. intros content H. injection H as <-. now left.
      * split; [discriminate|]. intros m H. injection H as <-.
        exact (manageApiKey_throws _ _ _ _ Em).
    + destruct (includes message "rate limit"); cbn [document settingsAfter];
        (split; [|discriminate]); intros content H; injection H as <-;
        now left.
Qed.

(** What one run does once a folder is open, the analysis is at its
    declared type and a method has been chosen: it comes to a content,
    which is the templated document or a document that the AI strategy
    returned under the settings the run ends with, and to saving it; or
    the settings store has rejected a write of the key management
    dialog. *)
Lemma run_reaches_saving
    (upperCase lowerCase : string -> string)
    (localeCompare : string -> string -> comparison)
    (workspacePath : string) (fs : Workspace)
    (writeError updateError : option string)
    (config : Config) (fetch : Request -> Fetched) (answers : Answers)
    (projectInfo : ProjectInfo) (choice : GenerationChoice) :
  typed (analyzeProject workspacePath fs) = Some projectInfo ->
  generationChoice answers = Some choice ->
  exists readmeContent method shownSoFar models config',
    Extension.generateReadme upperCase lowerCase localeCompare
      (Some workspacePath) fs writeError updateError config fetch answers
    = (let failed message :=
         Some (mkOutcome None
                 (shownSoFar ++
                  [ShowErrorMessage
                     ("Failed to generate README: Error: " ++ message)])%list
                 models config') in
       match readmeContent with
       | inr message => failed message
       | inl content =>
           match
             Extension.saveAndOpenReadme fs writeError content method
               (overwriteChoice answers)
           with
           | inl (saved, shownAtEnd) =>
               Some (mkOutcome saved (shownSoFar ++ shownAtEnd)%list models
                       config')
           | inr message => failed message
           end
       end) /\
    (forall content,
       readmeContent = inl content ->
       content
       = TemplateService.generateReadme upperCase lowerCase localeCompare
           projectInfo fs \/
       (choice = ChooseAI /\
        snd (GroqService.generateReadme config' fetch projectInfo fs)
        = Returned content)) /\
    (forall message,
       readmeContent = inr message -> updateError = Some message) /\
    (choice = ChooseTemplate ->
     readmeContent
     = inl (TemplateService.generateReadme upperCase lowerCase localeCompare
              projectInfo fs) /\
     models = [] /\ config' = config /\ shownSoFar = []).
Proof.
  intros Ht Hc. unfold Extension.generateReadme. rewrite Ht, Hc.
  assert (Hai : forall config0,
            (forall content,
               document
                 (generateWithAI upperCase lowerCase localeCompare updateError
                    (manageAnswers answers) config0 fetch projectInfo fs)
               = inl content ->
               content
               = TemplateService.generateReadme upperCase lowerCase
                   localeCompare projectInfo fs \/
               (ChooseAI = ChooseAI /\
                snd (GroqService.generateReadme
                       (settingsAfter
                          (generateWithAI upperCase lowerCase localeCompare
                             updateError (manageAnswers answers) config0 fetch
                             projectInfo fs))
                       fetch projectInfo fs)
                = Returned content)) /\
            (forall message,
               document
                 (generateWithAI upperCase lowerCase localeCompare updateError
                    (manageAnswers answers) config0 fetch projectInfo fs)
               = inr message ->
               updateError = Some message)).
  { intros config0.
    destruct (generateWithAI_document upperCase lowerCase localeCompare
                updateError (manageAnswers answers) config0 fetch projectInfo
                fs) as [Hd He].
    split; [|exact He].
    intros content H. destruct (Hd content H) as [E|E]; [now left|].
    right. now split. }
  destruct choice.
  - destruct (negb (truthy (getGroqApiKey config)) ||
              negb (hasValidApiKey config)).
    + destruct (Extension.showApiKeySetupDialog updateError config answers)
        as [[apiKeySet config1] shownInSetup].
      destruct apiKeySet; cbn [negb].
      * destruct (Hai config1) as [Hd He].
        exists
          (document
             (generateWithAI upperCase lowerCase localeCompare updateError
                (manageAnswers answers) config1 fetch projectInfo fs)),
          "🤖 AI-Powered (Your API Key)",
          (shownInSetup ++
           shownMeanwhile
             (generateWithAI upperCase lowerCase localeCompare updateError
                (manageAnswers answers) config1 fetch projectInfo fs))%list,
          (fst (GroqService.generateReadme config1 fetch projectInfo fs)),
          (settingsAfter
             (generateWithAI upperCase lowerCase localeCompare updateError
                (manageAnswers answers) config1 fetch projectInfo fs)).
        split; [reflexivity|].
        split; [exact Hd|]. split; [exact He | discriminate].
      * exists
          (inl (TemplateService.generateReadme upperCase lowerCase
                  localeCompare projectInfo fs)),
          "📝 Smart Templates", shownInSetup, [], config1.
        split; [reflexivity|].
        split; [intros content H; injection H as <-; now left|].
        split; discriminate.
    + destruct (Hai config) as [Hd He].
      exists
        (document
           (generateWithAI upperCase lowerCase localeCompare updateError
              (manageAnswers answers) config fetch projectInfo fs)),
        "🤖 AI-Powered (Your API Key)",
        ([] ++
         shownMeanwhile
           (generateWithAI upperCase lowerCase localeCompare updateError
              (manageAnswers answers) config fetch projectInfo fs))%list,
        (fst (GroqService.generateReadme config fetch projectInfo fs)),
        (settingsAfter
           (generateWithAI upperCase lowerCase localeCompare updateError
              (manageAnswers answers) config fetch projectInfo fs)).
      split; [reflexivity|].
      split; [exact Hd|]. split; [exact He | discriminate].
  - exists
      (inl (TemplateService.generateReadme upperCase lowerCase localeCompare
              projectInfo fs)),
      "📝 Smart Templates", [], [], config.
    split; [reflexivity|].
    split; [intros content H; injection H as <-; now left|].
    split; [discriminate|]. intros _. repeat split.
Qed.

(** X25. Whatever a run writes to [README.md], it writes with consent and
    from one of the two strategies: the file did not exist or the user
    chose to overwrite it, and the content is the templated document of
    the analyzed project or, in a run with the AI method, the very
    document that the AI strategy returns under the settings the run ends
    with. *)
Theorem written_with_consent_from_a_strategy
    (upperCase lowerCase : string -> string)
    (localeCompare : string -> string -> comparison)
    (workspaceFolder : option string) (fs : Workspace)
    (writeError updateError : option string) (config : Config)
    (fetch : Request -> Fetched) (answers : Answers) (outcome : Outcome)
    (content : string) :
  Extension.generateReadme upperCase lowerCase localeCompare workspaceFolder
    fs writeError updateError config fetch answers = Some outcome ->
  written outcome = Some content ->
  (existsSync fs "README.md" = false \/ overwriteChoice answers = true) /\
  exists workspacePath projectInfo,
    workspaceFolder = Some workspacePath /\
    typed (analyzeProject workspacePath fs) = Some projectInfo /\
    (content
     = TemplateService.generateReadme upperCase lowerCase localeCompare
         projectInfo fs \/
     (generationChoice answers = Some ChooseAI /\
      snd (GroqService.generateReadme (settings outcome) fetch projectInfo fs)
      = Returned content)).
Proof.
  destruct workspaceFolder as [workspacePath|];
    [|intros H; injection H as <-; discriminate].
  destruct (typed (analyzeProject workspacePath fs)) as [projectInfo|] eqn:Ht;
    [|unfold Extension.generateReadme; rewrite Ht; discriminate].
  destruct (generationChoice answers) as [choice|] eqn:Hc;
    [|unfold Extension.generateReadme; rewrite Ht, Hc;
      intros H; injection H as <-; discriminate].
  destruct (run_reaches_saving upperCase lowerCase localeCompare
              workspacePath fs writeError updateError config fetch answers
              projectInfo choice Ht Hc)
    as (rc & method & shownSoFar & models & config' & -> & Hsrc & _ & _).
  cbv zeta.
  destruct rc as [c|message];
    [|intros H; injection H as <-; discriminate].
  specialize (Hsrc c eq_refl).
  unfold Extension.saveAndOpenReadme.
  destruct (existsSync fs "README.md") eqn:He;
    destruct (overwriteChoice answers) eqn:Ho; cbn [negb andb];
    try (intros H; injection H as <-; discriminate);
    (destruct writeError; [intros H; injection H as <-; discriminate|]);
    intros H; injection H as <-; cbn [written settings];
    intros H; injection H as <-;
    (split; [tauto|]); exists workspacePath, projectInfo;
    (split; [reflexivity|]); (split; [exact Ht|]);
    (destruct Hsrc as [E|[Echoice E]];
     [now left | right; split; [now rewrite Echoice | exact E]]).
Qed.

Lemma written_with_consent_from_a_strategy_witness :
  existsSync workspaceWithReadme "README.md" = false \/
  overwriteChoice (answersWith (Some ChooseTemplate) true) = true.
Proof.
  eapply (written_with_consent_from_a_strategy toUpperCase toLowerCase
            String.compare (Some "/home/dev/my-tool") workspaceWithReadme
            None None noKeyConfig (fun _ => Rejected "offline")
            (answersWith (Some ChooseTemplate) true)).
  - reflexivity.
  - reflexivity.
Defined.

(** X26. A run in which the template method is chosen never turns to the
    service and never touches the settings: it requests no model, leaves
    the settings as they were and comes out the same whatever the service
    would have answered. *)
Theorem template_run_is_offline
    (upperCase lowerCase : string -> string)
    (localeCompare : string -> string -> comparison)
    (workspaceFolder : option string) (fs : Workspace)
    (writeError updateError : option string) (config : Config)
    (fetch1 fetch2 : Request -> Fetched) (answers : Answers) :
  generationChoice answers = Some ChooseTemplate ->
  Extension.generateReadme upperCase lowerCase localeCompare workspaceFolder
    fs writeError updateError config fetch1 answers
  = Extension.generateReadme upperCase lowerCase localeCompare
      workspaceFolder fs writeError updateError config fetch2 answers /\
  forall outcome,
    Extension.generateReadme upperCase lowerCase localeCompare
      workspaceFolder fs writeError updateError config fetch1 answers
    = Some outcome ->
    requested outcome = [] /\ settings outcome = config.
Proof.
  intros Hc. unfold Extension.generateReadme.
  destruct workspaceFolder as [workspacePath|].
  - destruct (typed (analyzeProject workspacePath fs)) as [projectInfo|];
      [|split; [reflexivity | discriminate]].
    rewrite Hc. split; [reflexivity|].
    intros outcome. cbv zeta.
    destruct (Extension.saveAndOpenReadme _ _ _ _ _) as [[saved sh]|m];
      intros H; injection H as <-; split; reflexivity.
  - split; [reflexivity|]. intros outcome H. injection H as <-.
    split; reflexivity.
Qed.

Lemma template_run_is_offline_witness :
  Extension.generateReadme toUpperCase toLowerCase String.compare
    (Some "/home/dev/my-tool") (workspaceWith false None) None None
    sampleConfig (fun _ => okReply (sampleReadme 1200))
    (answersWith (Some ChooseTemplate) false)
  = Extension.generateReadme toUpperCase toLowerCase String.compare
      (Some "/home/dev/my-tool") (workspaceWith false None) None None
      sampleConfig (fun _ => Rejected "offline")
      (answersWith (Some ChooseTemplate) false).
Proof.
  apply template_run_is_offline. reflexivity.
Defined.

(** X27. A run leaves the user with a document whenever it can: with a
    folder open, an analysis at its declared type, a method chosen, no
    refusal to overwrite, a file that can be written and a settings store
    that accepts what is written to it, a document is written, whatever
    the settings hold, whatever the service answers and whatever the user
    does in the dialogs about the key. It is the templated one or, in a
    run with the AI method, the very document that the AI strategy
    returns under the settings the run ends with. *)
Theorem run_writes_a_document
    (upperCase lowerCase : string -> string)
    (localeCompare : string -> string -> comparison)
    (workspacePath : string) (fs : Workspace) (config : Config)
    (fetch : Request -> Fetched) (answers : Answers)
    (projectInfo : ProjectInfo) (choice : GenerationChoice) :
  typed (analyzeProject workspacePath fs) = Some projectInfo ->
  generationChoice answers = Some choice ->
  existsSync fs "README.md" = false \/ overwriteChoice answers = true ->
  exists outcome content,
    Extension.generateReadme upperCase lowerCase localeCompare
      (Some workspacePath) fs None None config fetch answers = Some outcome /\
    written outcome = Some content /\
    (content
     = TemplateService.generateReadme upperCase lowerCase localeCompare
         projectInfo fs \/
     (choice = ChooseAI /\
      snd (GroqService.generateReadme (settings outcome) fetch projectInfo fs)
      = Returned content)).
Proof.
  intros Ht Hc Hw.
  destruct (run_reaches_saving upperCase lowerCase localeCompare
              workspacePath fs None None config fetch answers projectInfo
              choice Ht Hc)
    as (rc & method & shownSoFar & models & config' & -> & Hsrc & Hthrown & _).
  cbv zeta.
  destruct rc as [c|message]; [|now specialize (Hthrown message eq_refl)].
  unfold Extension.saveAndOpenReadme.
  assert (E : existsSync fs "README.md" && negb (overwriteChoice answers)
              = false).
  { destruct Hw as [-> | ->]; [reflexivity | apply andb_false_r]. }
  rewrite E. do 2 eexists. split; [reflexivity|]. split; [reflexivity|].
  exact (Hsrc c eq_refl).
Qed.

Lemma run_writes_a_document_witness :
  exists outcome content,
    Extension.generateReadme toUpperCase toLowerCase String.compare
      (Some "/home/dev/my-tool") workspaceWithReadme None None sampleConfig
      (fun _ => Responded 401 (inl "Unauthorized") None)
      (answersAfter (Some ChooseAI) removingTheKey true) = Some outcome /\
    written outcome = Some content.
Proof.
  destruct (typed (analyzeProject "/home/dev/my-tool" workspaceWithReadme))
    as [projectInfo|] eqn:Ht; [|discriminate Ht].
  destruct (run_writes_a_document toUpperCase toLowerCase String.compare
              "/home/dev/my-tool" workspaceWithReadme sampleConfig
              (fun _ => Responded 401 (inl "Unauthorized") None)
              (answersAfter (Some ChooseAI) removingTheKey true)
              projectInfo ChooseAI Ht eq_refl (or_intror eq_refl))
    as (outcome & content & H & Hw & _).
  now exists outcome, content.
Defined.

(** X28. When the file cannot be written, nothing is written and the run
    ends with the error message that carries the reason. The one run that
    does not come to writing at all is the one in which the settings store
    has rejected a write of the key management dialog: it ends with the
    error message that carries that error. *)
Theorem write_failure_is_reported
    (upperCase lowerCase : string -> string)
    (localeCompare : string -> string -> comparison)
    (workspacePath : string) (fs : Workspace)
    (updateError : option string) (config : Config)
    (fetch : Request -> Fetched) (answers : Answers)
    (projectInfo : ProjectInfo) (choice : GenerationChoice)
    (reason : string) :
  typed (analyzeProject workspacePath fs) = Some projectInfo ->
  generationChoice answers = Some choice ->
  existsSync fs "README.md" = false \/ overwriteChoice answers = true ->
  exists outcome,
    Extension.generateReadme upperCase lowerCase localeCompare
      (Some workspacePath) fs (Some reason) updateError config fetch answers
    = Some outcome /\
    written outcome = None /\
    (In (ShowErrorMessage ("Failed to generate README: Error: " ++ reason))
       (shown outcome) \/
     exists error,
       updateError = Some error /\
       In (ShowErrorMessage ("Failed to generate README: Error: " ++ error))
         (shown outcome)).
Proof.
  intros Ht Hc Hw.
  destruct (run_reaches_saving upperCase lowerCase localeCompare
              workspacePath fs (Some reason) updateError config fetch answers
              projectInfo choice Ht Hc)
    as (rc & method & shownSoFar & models & config' & -> & _ & Hthrown & _).
  cbv zeta. destruct rc as [c|message].
  - unfold Extension.saveAndOpenReadme.
    assert (E : existsSync fs "README.md" && negb (overwriteChoice answers)
                = false).
    { destruct Hw as [-> | ->]; [reflexivity | apply andb_false_r]. }
    rewrite E. eexists. split; [reflexivity|]. split; [reflexivity|].
    left. cbn [shown]. apply in_or_app. right. now left.
  - eexists. split; [reflexivity|]. split; [reflexivity|].
    right. exists message. split; [exact (Hthrown message eq_refl)|].
    cbn [shown]. apply in_or_app. right. now left.
Qed.

Lemma write_failure_is_reported_witness :
  exists outcome,
    Extension.generateReadme toUpperCase toLowerCase String.compare
      (Some "/home/dev/my-tool") (workspaceWith false None)
      (Some "EACCES: permission denied") None noKeyConfig
      (fun _ => Rejected "offline")
      (answersWith (Some ChooseTemplate) false) = Some outcome /\
    written outcome = None /\
    In (ShowErrorMessage
          ("Failed to generate README: Error: " ++ "EACCES: permission denied"))
      (shown outcome).
Proof.
  destruct (typed (analyzeProject "/home/dev/my-tool" (workspaceWith false None)))
    as [projectInfo|] eqn:Ht; [|discriminate Ht].
  destruct (write_failure_is_reported toUpperCase toLowerCase String.compare
              "/home/dev/my-tool" (workspaceWith false None) None noKeyConfig
              (fun _ => Rejected "offline")
              (answersWith (Some ChooseTemplate) false) projectInfo
              ChooseTemplate "EACCES: permission denied" Ht eq_refl
              (or_introl eq_refl))
    as (outcome & H & Hw & [Hs|(error & He & _)]); [|discriminate He].
  now exists outcome.
Defined.

(** One run with the AI method in which the service refuses the key: the
    warning is shown, the user removes the key in the key management
    dialog, and the templated document is written. When the settings
    store rejects the removal, nothing is written. *)
Example run_with_a_refused_key :
  let run updateError :=
    Extension.generateReadme toUpperCase toLowerCase String.compare
      (Some "/home/dev/my-tool") (workspaceWith false None) None updateError
      sampleConfig (fun _ => Responded 401 (inl "Unauthorized") None)
      (answersAfter (Some ChooseAI) removingTheKey false) in
  match run None, typed (analyzeProject "/home/dev/my-tool"
                           (workspaceWith false None)) with
  | Some outcome, Some projectInfo =>
      written outcome
      = Some (TemplateService.generateReadme toUpperCase toLowerCase
                String.compare projectInfo (workspaceWith false None)) /\
      requested outcome = ["moonshotai/kimi-k2-instruct"] /\
      getGroqApiKey (settings outcome) = None
  | _, _ => False
  end /\
  match run (Some "Unable to write to User Settings") with
  | Some outcome =>
      written outcome = None /\
      In (ShowErrorMessage
            "Failed to generate README: Error: Unable to write to User Settings")
        (shown outcome)
  | None => False
  end.
Proof. vm_compute. repeat split. now right; left. Qed.

(* ================================================================== *)
(** ** Further properties of the directory tree of the prompt *)

Lemma directoryTreeLoop_broken (subTree : dir -> string)
    (depth maxDepth : nat) (items : list entry) (n : string) :
  In (Broken n) items ->
  forall tree,
    GroqService.directoryTreeLoop subTree depth maxDepth items tree = None.
Proof.
  induction items as [|item rest IH]; intros Hin tree; [destruct Hin|].
  destruct Hin as [->|Hin]; [reflexivity|].
  destruct item as [m|m sub|m|m]; simpl; try (now apply IH); try reflexivity.
  destruct (depth <? maxDepth)%nat; now apply IH.
Qed.

(** X29. One entry on which [statSync] throws, among the items that a
    directory shows, empties the tree of that directory: the lines of its
    other items are dropped with it. *)
Theorem directory_tree_empty_on_broken_entry (items : list entry)
    (n : string) (depth maxDepth : nat) :
  In (Broken n) (shownItems items) ->
  GroqService.generateDirectoryTree (Listing items) depth maxDepth
  = EmptyString.
Proof.
  intros Hin. unfold GroqService.generateDirectoryTree.
  destruct (maxDepth + 1 - depth) as [|levels]; [reflexivity|].
  cbn [GroqService.directoryTreeLevels].
  destruct (maxDepth <? depth)%nat; [reflexivity|]. cbv zeta.
  fold (shownItems items).
  now rewrite (directoryTreeLoop_broken _ depth maxDepth _ n Hin).
Qed.

Lemma directory_tree_empty_on_broken_entry_witness :
  GroqService.generateDirectoryTree
    (Listing [Dir "src" (Listing [File "main.ts"]); Broken "latest";
              File "package.json"]) 0 3
  = EmptyString.
Proof.
  apply (directory_tree_empty_on_broken_entry _ "latest").
  simpl. auto.
Defined.

Lemma In_firstn (n : nat) (l : list entry) (x : entry) :
  In x (firstn n l) -> In x l.
Proof.
  revert l. induction n as [|n IH]; intros l H; [destruct H|].
  destruct l as [|y l]; [destruct H|].
  destruct H as [->|H]; [now left | right; now apply IH].
Qed.

Lemma shownItems_idempotent (items : list entry) :
  shownItems (shownItems items) = shownItems items.
Proof.
  unfold shownItems.
  match goal with
  | |- context [filter ?P items] => set (keep := P)
  end.
  assert (H : forall l, filter keep (firstn 15 (filter keep l))
                        = firstn 15 (filter keep l)).
  { intros l. apply forallb_filter_id. apply forallb_forall.
    intros x Hx. apply In_firstn in Hx. now apply filter_In in Hx. }
  rewrite H. now rewrite firstn_firstn.
Qed.

(** X30. The tree of the prompt shows at most fifteen items of the root
    and nothing of the items it filters out: it is the tree of the root
    reduced to the items shown. *)
Theorem directory_tree_shows_fifteen_items (items : list entry)
    (depth maxDepth : nat) :
  List.length (shownItems items) <= 15 /\
  GroqService.generateDirectoryTree (Listing (shownItems items)) depth maxDepth
  = GroqService.generateDirectoryTree (Listing items) depth maxDepth.
Proof.
  split; [apply firstn_le_length|].
  unfold GroqService.generateDirectoryTree.
  destruct (maxDepth + 1 - depth) as [|levels]; [reflexivity|].
  cbn [GroqService.directoryTreeLevels].
  destruct (maxDepth <? depth)%nat; [reflexivity|]. cbv zeta.
  fold (shownItems (shownItems items)). fold (shownItems items).
  now rewrite shownItems_idempotent.
Qed.

